(** * Review pipeline: CI-comment generator, schema validator, HTML renderer

    A shallow embedding of three scripts of the repository:

    - [roles/ai_zuul_integration/files/generate_zuul_comments.py]
      (module [ZuulComments]),
    - [playbooks/claude-review/files/validate_zuul_schema.py]
      (module [SchemaValidator]),
    - [roles/ai-html-generation/files/render_html_from_json.py]
      (module [RenderHtml]),

    over a small layer of Python semantics (module [Py]): dynamically typed
    JSON values, dictionaries in insertion order, exceptions as an error
    monad, and the string methods the scripts call.

    Modelling boundaries, stated once:
    - a Python [str] is a [string] of 8-bit characters (code points below
      256); in that range the regular-expression class [\d] is exactly
      [0-9];
    - Python integers are [Z] (the interpreter's optional cap on the
      number of digits [int()] accepts is not modelled);
    - Python floats are binary64 values ([PrimFloat.float]), read through
      [Prim2SF] and formatted with exact integer arithmetic. *)

From Stdlib Require Import String Ascii List ZArith Lia Bool.
From Stdlib Require Import PrimFloat SpecFloat FloatOps.
Import ListNotations.

Set Warnings "-inexact-float,-register-all".

Local Open Scope list_scope.
Local Open Scope string_scope.
Local Open Scope Z_scope.

(* ================================================================== *)
(** * Python semantics used by the scripts *)
(* ================================================================== *)

Module Py.

(** ** Exceptions and the error monad *)

Inductive exn : Type :=
| TypeError
| AttributeError
| KeyError
| ValueError
| OverflowError
| JSONDecodeError (msg : string) (pos : nat).

Definition result (A : Type) : Type := (exn + A)%type.

Definition ret {A} (a : A) : result A := inr a.
Definition raise {A} (e : exn) : result A := inl e.
Definition bind {A B} (m : result A) (k : A -> result B) : result B :=
  match m with
  | inl e => inl e
  | inr a => k a
  end.

Notation "x <- m ;; k" := (bind m (fun x => k))
  (at level 61, m at next level, right associativity).

(** A loop that builds one result per element and stops at the first
    exception. *)
Fixpoint mapM {A B} (f : A -> result B) (l : list A) : result (list B) :=
  match l with
  | [] => ret []
  | a :: l' => b <- f a ;; bs <- mapM f l' ;; ret (b :: bs)
  end.

(** A [for] loop that updates an accumulator and stops at the first
    exception. *)
Fixpoint foldM {A B} (f : B -> A -> result B) (l : list A) (b : B) : result B :=
  match l with
  | [] => ret b
  | a :: l' => b' <- f b a ;; foldM f l' b'
  end.

(** ** Characters and strings *)

Definition dq_char : ascii := ascii_of_nat 34.
Definition dq : string := String dq_char EmptyString.
Definition nl : string := String (ascii_of_nat 10) EmptyString.

Definition is_digit (c : ascii) : bool :=
  let n := nat_of_ascii c in (Nat.leb 48 n && Nat.leb n 57)%bool.

(** [s.startswith(p)] *)
Definition startswith (p s : string) : bool := String.prefix p s.

(** [needle in hay] on strings. *)
Fixpoint contains (needle hay : string) : bool :=
  (String.prefix needle hay ||
   match hay with
   | EmptyString => false
   | String _ t => contains needle t
   end)%bool.

(** Dropping [n] leading characters. *)
Fixpoint drop (n : nat) (s : string) : string :=
  match n, s with
  | O, _ => s
  | S _, EmptyString => EmptyString
  | S k, String _ t => drop k t
  end.

(** [s.replace(old, new)] for a non-empty [old]: every non-overlapping
    occurrence, leftmost first.  [skip] counts the characters of an
    occurrence already replaced. *)
Fixpoint replace_from (old new s : string) (skip : nat) : string :=
  match s with
  | EmptyString => EmptyString
  | String c t =>
      match skip with
      | S k => replace_from old new t k
      | O =>
          if String.prefix old s
          then new ++ replace_from old new t (String.length old - 1)
          else String c (replace_from old new t 0)
      end
  end.

Definition replace (old new s : string) : string := replace_from old new s 0.

(** [s.replace(old, new, 1)] for a non-empty [old]: the leftmost
    occurrence only. *)
Fixpoint replace_first (old new s : string) : string :=
  match s with
  | EmptyString => EmptyString
  | String c t =>
      if String.prefix old s
      then new ++ drop (String.length old) s
      else String c (replace_first old new t)
  end.

(** [s.split(sep, maxsplit)] for a one-character separator. *)
Fixpoint split (sep : ascii) (maxsplit : nat) (s : string) : list string :=
  match s with
  | EmptyString => [EmptyString]
  | String c t =>
      match maxsplit with
      | O => [s]
      | S k =>
          if Ascii.eqb c sep then EmptyString :: split sep k t
          else match split sep maxsplit t with
               | h :: r => String c h :: r
               | [] => [String c EmptyString]
               end
      end
  end.

(** [s.split(sep)] for a one-character separator. *)
Fixpoint split_all (sep : ascii) (s : string) : list string :=
  match s with
  | EmptyString => [EmptyString]
  | String c t =>
      if Ascii.eqb c sep then EmptyString :: split_all sep t
      else match split_all sep t with
           | h :: r => String c h :: r
           | [] => [String c EmptyString]
           end
  end.

(** [s.lstrip(ch)] and [s.rstrip(ch)] for a one-character set. *)
Fixpoint lstrip (ch : ascii) (s : string) : string :=
  match s with
  | EmptyString => EmptyString
  | String c t => if Ascii.eqb c ch then lstrip ch t else s
  end.

Fixpoint rstrip (ch : ascii) (s : string) : string :=
  match s with
  | EmptyString => EmptyString
  | String c t =>
      match rstrip ch t with
      | EmptyString => if Ascii.eqb c ch then EmptyString else String c EmptyString
      | t' => String c t'
      end
  end.

(** [s.lower()]: within the 8-bit range the cased letters are A-Z and
    U+00C0-U+00DE without U+00D7, each 32 below its lower-case form. *)
Definition lower_char (c : ascii) : ascii :=
  let n := nat_of_ascii c in
  if ((Nat.leb 65 n && Nat.leb n 90) ||
      (Nat.leb 192 n && Nat.leb n 222 && negb (Nat.eqb n 215)))%bool
  then ascii_of_nat (n + 32) else c.

Fixpoint lower (s : string) : string :=
  match s with
  | EmptyString => EmptyString
  | String c t => String (lower_char c) (lower t)
  end.

(** [s.upper()] on the ASCII letters, which is all the scripts' callers
    pass (three 8-bit letters have upper-case forms outside the 8-bit range
    and are left as they are). *)
Definition upper_char (c : ascii) : ascii :=
  let n := nat_of_ascii c in
  if (Nat.leb 97 n && Nat.leb n 122)%bool then ascii_of_nat (n - 32) else c.

Fixpoint upper (s : string) : string :=
  match s with
  | EmptyString => EmptyString
  | String c t => String (upper_char c) (upper t)
  end.

(** The longest prefix of [s] whose characters satisfy [p], and the rest. *)
Fixpoint span (p : ascii -> bool) (s : string) : string * string :=
  match s with
  | EmptyString => (EmptyString, EmptyString)
  | String c t =>
      if p c then let (a, b) := span p t in (String c a, b)
      else (EmptyString, s)
  end.

(** The text of a template: written here with a backquote wherever the
    source text has a double quote. *)
Definition tpl (s : string) : string := replace "`" dq s.

(** [sep.join(parts)] on strings. *)
Fixpoint join (sep : string) (parts : list string) : string :=
  match parts with
  | [] => EmptyString
  | [p] => p
  | p :: rest => p ++ sep ++ join sep rest
  end.

(** ** Integers as decimal text *)

Definition digit_char (d : Z) : ascii := ascii_of_nat (48 + Z.to_nat d).

Fixpoint digits_fuel (fuel : nat) (n : Z) (acc : string) : string :=
  match fuel with
  | O => acc
  | S k =>
      let acc' := String (digit_char (n mod 10)) acc in
      if n <? 10 then acc' else digits_fuel k (n / 10) acc'
  end.

(** [str(n)] for an integer. *)
Definition str_of_Z (n : Z) : string :=
  let a := Z.abs n in
  let body := digits_fuel (S (Z.to_nat (Z.log2 a))) a EmptyString in
  if n <? 0 then "-" ++ body else body.

(** [int(s)] for a non-empty string of ASCII digits. *)
Fixpoint int_acc (s : string) (acc : Z) : Z :=
  match s with
  | EmptyString => acc
  | String c t => int_acc t (10 * acc + (Z.of_nat (nat_of_ascii c) - 48))
  end.

Definition int_of_digits (s : string) : Z := int_acc s 0.

(** ** JSON values as Python objects *)

(** What [json.loads] builds: [None], [bool], [int], [float], [str], [list]
    and [dict] (string keys, insertion order). *)
Inductive json : Type :=
| JNull
| JBool (b : bool)
| JInt (n : Z)
| JFloat (f : float)
| JStr (s : string)
| JArr (l : list json)
| JObj (d : list (string * json)).

Definition dict : Type := list (string * json).

Fixpoint lookup (k : string) (d : dict) : option json :=
  match d with
  | [] => None
  | (k', v) :: d' => if String.eqb k' k then Some v else lookup k d'
  end.

(** [d[k] = v]: an existing key keeps its place, a new key goes last. *)
Fixpoint dict_set (k : string) (v : json) (d : dict) : dict :=
  match d with
  | [] => [(k, v)]
  | (k', v') :: d' =>
      if String.eqb k' k then (k, v) :: d' else (k', v') :: dict_set k v d'
  end.

Definition has_key (k : string) (d : dict) : bool :=
  match lookup k d with Some _ => true | None => false end.

(** [obj.get(k, default)]: only a [dict] has the method. *)
Definition py_get (obj : json) (k : string) (default : json) : result json :=
  match obj with
  | JObj d => ret (match lookup k d with Some v => v | None => default end)
  | _ => raise AttributeError
  end.

(** [k in obj] for a string [k]: key membership on a dict, element
    membership on a list, substring test on a string. *)
Definition py_in (k : string) (obj : json) : result bool :=
  match obj with
  | JObj d => ret (has_key k d)
  | JArr l =>
      ret (existsb (fun x => match x with JStr s => String.eqb s k | _ => false end) l)
  | JStr s => ret (contains k s)
  | _ => raise TypeError
  end.

(** [obj[k]] for a string [k]. *)
Definition py_getitem (obj : json) (k : string) : result json :=
  match obj with
  | JObj d => match lookup k d with Some v => ret v | None => raise KeyError end
  | _ => raise TypeError
  end.

Fixpoint chars (s : string) : list json :=
  match s with
  | EmptyString => []
  | String c t => JStr (String c EmptyString) :: chars t
  end.

(** What a [for] loop visits: the elements of a list, the keys of a dict,
    the characters of a string. *)
Definition py_iter (obj : json) : result (list json) :=
  match obj with
  | JArr l => ret l
  | JObj d => ret (map (fun kv => JStr (fst kv)) d)
  | JStr s => ret (chars s)
  | _ => raise TypeError
  end.

(** Truth value of an object ([if obj:]). *)
Definition truthy (obj : json) : bool :=
  match obj with
  | JNull => false
  | JBool b => b
  | JInt n => negb (n =? 0)
  | JFloat f => match Prim2SF f with S754_zero _ => false | _ => true end
  | JStr s => negb (String.eqb s EmptyString)
  | JArr l => match l with [] => false | _ => true end
  | JObj d => match d with [] => false | _ => true end
  end.

Definition is_dict (obj : json) : bool :=
  match obj with JObj _ => true | _ => false end.
Definition is_list (obj : json) : bool :=
  match obj with JArr _ => true | _ => false end.
Definition is_str (obj : json) : bool :=
  match obj with JStr _ => true | _ => false end.
(** [isinstance(obj, int)]: [bool] is a subclass of [int]. *)
Definition is_int (obj : json) : bool :=
  match obj with JInt _ | JBool _ => true | _ => false end.

(** [type(obj).__name__] *)
Definition type_name (obj : json) : string :=
  match obj with
  | JNull => "NoneType"
  | JBool _ => "bool"
  | JInt _ => "int"
  | JFloat _ => "float"
  | JStr _ => "str"
  | JArr _ => "list"
  | JObj _ => "dict"
  end.

(** [str(obj)], which is also what a bare [{obj}] in an f-string gives.
    The text of a float, a list or a dict is left to [repr], a parameter:
    no property below depends on it. *)
Definition py_str (repr : json -> string) (obj : json) : string :=
  match obj with
  | JStr s => s
  | JInt n => str_of_Z n
  | JBool b => if b then "True" else "False"
  | JNull => "None"
  | other => repr other
  end.

(** A stand-in for the parameter [repr], for running the scripts on
    inputs in which no float, list or dict is formatted as text. *)
Definition plain_repr : json -> string := fun _ => EmptyString.

(** [sep.join(parts)] on objects: every part must be a [str]. *)
Fixpoint strs (parts : list json) : result (list string) :=
  match parts with
  | [] => ret []
  | JStr s :: rest => ss <- strs rest ;; ret (s :: ss)
  | _ :: _ => raise TypeError
  end.

Definition py_join (sep : string) (parts : list json) : result string :=
  ss <- strs parts ;; ret (join sep ss).

(** ** The format specification [.1f] *)

(** [num / den] rounded to the nearest integer, ties to even. *)
Definition round_half_even (num den : Z) : Z :=
  let q := num / den in
  let r := num mod den in
  match 2 * r ?= den with
  | Lt => q
  | Gt => q + 1
  | Eq => if Z.even q then q else q + 1
  end.

(** Ten times [m * 2^e], rounded to the nearest integer, ties to even. *)
Definition tenths (m : positive) (e : Z) : Z :=
  if 0 <=? e then Zpos m * 2 ^ e * 10
  else round_half_even (Zpos m * 10) (2 ^ (- e)).

Definition fixed1 (t : Z) : string :=
  str_of_Z (t / 10) ++ "." ++ str_of_Z (t mod 10).

(** [format(f, '.1f')] for a float: the exact binary value, correctly
    rounded to one decimal. *)
Definition format_float_1f (f : float) : string :=
  match Prim2SF f with
  | S754_nan => "nan"
  | S754_infinity s => if s then "-inf" else "inf"
  | S754_zero s => if s then "-0.0" else "0.0"
  | S754_finite s m e => (if s then "-" else "") ++ fixed1 (tenths m e)
  end.

(** The integer value of the binary64 nearest to [n >= 0]; [None] when it
    is out of the range of floats. *)
Definition nearest_double (n : Z) : option Z :=
  let bits := Z.log2 n + 1 in
  if bits <=? 53 then Some n
  else
    let sh := bits - 53 in
    let v := round_half_even n (2 ^ sh) * 2 ^ sh in
    if v <? 2 ^ 1024 then Some v else None.

(** [format(obj, '.1f')]: floats and integers (so booleans) have the format
    code; a string rejects it with [ValueError], the other types with
    [TypeError]. *)
Definition format_1f (obj : json) : result string :=
  match obj with
  | JFloat f => ret (format_float_1f f)
  | JInt n =>
      match nearest_double (Z.abs n) with
      | Some v => ret ((if n <? 0 then "-" else "") ++ str_of_Z v ++ ".0")
      | None => raise OverflowError
      end
  | JBool b => ret (if b then "1.0" else "0.0")
  | JStr _ => raise ValueError
  | _ => raise TypeError
  end.

End Py.

(* ================================================================== *)
(** * generate_zuul_comments.py *)
(* ================================================================== *)

Module ZuulComments.
Import Py.

(** ** Location parsing *)

Definition zuul_prefixes : list string :=
  [ "/home/zuul/src/review.opendev.org/";
    "/home/zuul/src/opendev.org/";
    "/home/zuul/src/" ].

(** The removal of the organisation and project segments:
    [parts = p.split('/', 2)], then [parts[2]] when there are three parts. *)
Definition after_two_segments (p : string) : option string :=
  match split "/" 2 p with
  | [_; _; rest] => Some rest
  | _ => None
  end.

(** The [for prefix in zuul_prefixes] loop: [Some] at the [break], [None]
    when the loop runs to its end (the [else] branch of the [for]). *)
Fixpoint strip_zuul_prefix (prefixes : list string) (file_path : string)
  : option string :=
  match prefixes with
  | [] => None
  | prefix :: rest =>
      if startswith prefix file_path then
        let file_path := replace_first prefix "" file_path in
        Some (match after_two_segments file_path with
              | Some tail => tail
              | None => file_path
              end)
      else strip_zuul_prefix rest file_path
  end.

Definition normalize_file_path (file_path : string) : string :=
  match strip_zuul_prefix zuul_prefixes file_path with
  | Some p => p
  | None =>
      if startswith "/" file_path then
        match after_two_segments (lstrip "/" file_path) with
        | Some tail => tail
        | None => lstrip "/" file_path
        end
      else file_path
  end.

(** [$] without [re.MULTILINE]: the end of the string, or just before a
    line feed that ends the string. *)
Definition at_end (s : string) : bool :=
  (String.eqb s EmptyString || String.eqb s nl)%bool.

Definition not_colon (c : ascii) : bool := negb (Ascii.eqb c ":").

(** [(?:-\d+)?$] at [s]: the end at once, or a hyphen, digits, and then
    the end. *)
Definition range_then_end (s : string) : bool :=
  (at_end s ||
   match s with
   | String c r =>
       let (d, r') := span is_digit r in
       Ascii.eqb c "-" && negb (String.eqb d EmptyString) && at_end r'
   | EmptyString => false
   end)%bool.

(** [re.match(r'^([^:]+):(\d+)(?:-\d+)?$', location)]: groups 1 and 2 of the
    match, if any.  [[^:]+] stops at the first colon and nowhere else, and
    [\d+] at the first non-digit, so the greedy reading is the only one that
    can reach the end. *)
Definition location_match (location : string) : option (string * string) :=
  let (g1, r1) := span not_colon location in
  match r1 with
  | String c r2 =>
      let (g2, r3) := span is_digit r2 in
      if (negb (String.eqb g1 EmptyString) && Ascii.eqb c ":"
          && negb (String.eqb g2 EmptyString) && range_then_end r3)%bool
      then Some (g1, g2)
      else None
  | EmptyString => None
  end.

Definition parse_location (location : string) : option string * option Z :=
  match location_match location with
  | Some (g1, g2) => (Some (normalize_file_path g1), Some (int_of_digits g2))
  | None => (None, None)
  end.

(** ** Severity *)

Definition severity_map : list (string * string) :=
  [ ("critical", "error"); ("high", "error");
    ("warning", "warning"); ("suggestion", "info") ].

Fixpoint assoc (k : string) (m : list (string * string)) : option string :=
  match m with
  | [] => None
  | (k', v) :: m' => if String.eqb k' k then Some v else assoc k m'
  end.

Definition map_severity_to_level (severity : string) : string :=
  match assoc (lower severity) severity_map with
  | Some level => level
  | None => "info"
  end.

(** ** Comment records *)

Section Comments.

(** Python's text for a float, a list or a dict inside an f-string. *)
Variable repr : json -> string.

(** [if key in issue: parts.append(...)]: [parts] extended by [add
    issue[key]] when the key is there. *)
Definition if_key (key : string) (issue : json) (parts : list json)
    (add : json -> list json) : result (list json) :=
  present <- py_in key issue ;;
  if (present : bool) then v <- py_getitem issue key ;; ret (parts ++ add v)%list
  else ret parts.

Definition format_issue_message (issue : json) (severity : string)
  : result string :=
  description <- py_get issue "description" (JStr "No description") ;;
  confidence <- py_get issue "confidence" (JFloat 0.0) ;;
  (* Start with description *)
  let parts := [description; JStr ""] in
  (* Add severity and confidence *)
  conf <- format_1f confidence ;;
  let parts := (parts ++
    [JStr ("**Severity**: " ++ upper severity ++ " | **Confidence**: " ++ conf)])%list in
  let parts := (parts ++ [JStr ""])%list in
  (* Add severity-specific fields *)
  parts <-
    (if (String.eqb severity "critical" || String.eqb severity "high")%bool then
       parts <- if_key "risk" issue parts
                  (fun v => [JStr ("**Risk**: " ++ py_str repr v); JStr ""]) ;;
       parts <- if_key "remediation_priority" issue parts
                  (fun v => [JStr ("**Priority**: " ++ py_str repr v)]) ;;
       parts <- if_key "why_matters" issue parts
                  (fun v => [JStr ("**Why This Matters**: " ++ py_str repr v); JStr ""]) ;;
       if_key "recommendation" issue parts
                  (fun v => [JStr "**Recommendation**:"; v])
     else if String.eqb severity "warning" then
       parts <- if_key "impact" issue parts
                  (fun v => [JStr ("**Impact**: " ++ py_str repr v); JStr ""]) ;;
       if_key "suggestion" issue parts
                  (fun v => [JStr "**Suggestion**:"; v])
     else if String.eqb severity "suggestion" then
       parts <- if_key "benefit" issue parts
                  (fun v => [JStr ("**Benefit**: " ++ py_str repr v); JStr ""]) ;;
       if_key "recommendation" issue parts
                  (fun v => [JStr "**Recommendation**:"; v])
     else ret parts) ;;
  py_join nl parts.

(** [Dict[str, List[Dict[str, Any]]]]: per file, the comments in the order
    they were appended; files in the order they were first seen. *)
Definition file_comments_t : Type := list (string * list json).

(** [if file_path not in file_comments: file_comments[file_path] = []]
    followed by [file_comments[file_path].append(comment)]. *)
Fixpoint append_comment (file_path : string) (comment : json)
    (file_comments : file_comments_t) : file_comments_t :=
  match file_comments with
  | [] => [(file_path, [comment])]
  | (p, cs) :: rest =>
      if String.eqb p file_path then (p, (cs ++ [comment])%list) :: rest
      else (p, cs) :: append_comment file_path comment rest
  end.

(** [not file_path] and [not line_number] on the two halves of the tuple
    [parse_location] returns. *)
Definition not_path (file_path : option string) : bool :=
  match file_path with
  | None => true
  | Some p => String.eqb p EmptyString
  end.

Definition not_line (line_number : option Z) : bool :=
  match line_number with
  | None => true
  | Some n => n =? 0
  end.

(** The body of the inner loop of [extract_file_comments], for one issue. *)
Definition extract_issue (severity_label : string)
    (file_comments : file_comments_t) (issue : json) : result file_comments_t :=
  location <- py_get issue "location" (JStr "") ;;
  if negb (truthy location) then ret file_comments (* continue *)
  else
    match location with
    | JStr loc =>
        let (file_path, line_number) := parse_location loc in
        if (not_path file_path || not_line line_number)%bool
        then ret file_comments (* continue *)
        else
          match file_path, line_number with
          | Some file_path, Some line_number =>
              message <- format_issue_message issue severity_label ;;
              let level := map_severity_to_level severity_label in
              let comment :=
                JObj [ ("line", JInt line_number);
                       ("message", JStr message);
                       ("level", JStr level) ] in
              ret (append_comment file_path comment file_comments)
          | _, _ => ret file_comments
          end
    | _ => raise TypeError (* re.match on an object that is not a string *)
    end.

(** One turn of the outer loop: the issues filed under one severity key. *)
Definition extract_severity (issues : json)
    (file_comments : file_comments_t) (severity : string)
  : result file_comments_t :=
  let severity_key := severity in
  let severity_label := rstrip "s" severity in
  listed <- py_get issues severity_key (JArr []) ;;
  elements <- py_iter listed ;;
  foldM (extract_issue severity_label) elements file_comments.

Definition severities : list string :=
  [ "critical"; "high"; "warnings"; "suggestions" ].

Definition extract_file_comments (review_data : json) : result file_comments_t :=
  issues <- py_get review_data "issues" (JObj []) ;;
  foldM (extract_severity issues) severities [].

Definition file_comments_json (file_comments : file_comments_t) : json :=
  JObj (map (fun pc => (fst pc, JArr (snd pc))) file_comments).

Definition generate_zuul_return_data (review_data : json) : result json :=
  file_comments <- extract_file_comments review_data ;;
  ret (JObj [ ("zuul", JObj [ ("file_comments", file_comments_json file_comments) ]) ]).

(** ** The summary on stderr *)

(** [level_counts], as far as it is read: the counts under the keys that
    are strings.  A level that is hashable and is not a string (a number,
    [None]) gets a key of its own in the source; the lines printed read the
    keys [error], [warning] and [info] only, so such a key is left out
    here. *)
Definition level_counts_t : Type := list (string * Z).

(** [level_counts.get(k, default)] *)
Fixpoint counts_get (k : string) (default : Z) (level_counts : level_counts_t) : Z :=
  match level_counts with
  | [] => default
  | (k', n) :: rest => if String.eqb k' k then n else counts_get k default rest
  end.

(** [level_counts[k] = n] *)
Fixpoint counts_set (k : string) (n : Z) (level_counts : level_counts_t)
  : level_counts_t :=
  match level_counts with
  | [] => [(k, n)]
  | (k', n') :: rest =>
      if String.eqb k' k then (k, n) :: rest else (k', n') :: counts_set k n rest
  end.

(** [level_counts[k]] *)
Fixpoint counts_getitem (level_counts : level_counts_t) (k : string) : result Z :=
  match level_counts with
  | [] => raise KeyError
  | (k', n) :: rest => if String.eqb k' k then ret n else counts_getitem rest k
  end.

(** The body of the inner loop of [print_summary], for one comment; a level
    that is a list or a dict cannot be hashed. *)
Definition count_comment (level_counts : level_counts_t) (comment : json)
  : result level_counts_t :=
  level <- py_get comment "level" (JStr "info") ;;
  match level with
  | JArr _ | JObj _ => raise TypeError
  | JStr level => ret (counts_set level (counts_get level 0 level_counts + 1) level_counts)
  | _ => ret level_counts
  end.

(** [sum(len(comments) for comments in file_comments.values())] *)
Definition total_comments (file_comments : file_comments_t) : Z :=
  fold_right (fun pc acc => Z.of_nat (List.length (snd pc)) + acc) 0 file_comments.

(** The lines written to stderr, in order, and the exception that ends the
    function, if any: the first line is printed before the levels are
    counted. *)
Definition print_summary (file_comments : file_comments_t)
  : list string * option exn :=
  let first :=
    "Extracted " ++ str_of_Z (total_comments file_comments) ++ " comments across "
    ++ str_of_Z (Z.of_nat (List.length file_comments)) ++ " files" in
  (* Count by level *)
  let level_counts := [ ("error", 0); ("warning", 0); ("info", 0) ] in
  match (level_counts <-
           foldM (fun level_counts pc => foldM count_comment (snd pc) level_counts)
             file_comments level_counts ;;
         errors <- counts_getitem level_counts "error" ;;
         warnings <- counts_getitem level_counts "warning" ;;
         info <- counts_getitem level_counts "info" ;;
         ret ("Breakdown: " ++ str_of_Z errors ++ " errors, "
              ++ str_of_Z warnings ++ " warnings, " ++ str_of_Z info ++ " info")) with
  | inr second => ([first; second], None)
  | inl e => ([first], Some e)
  end.

(** ** The generator's own schema check *)

Definition valid_levels : list string := [ "error"; "warning"; "info" ].

Definition level_ok (level : json) : bool :=
  match level with
  | JStr s => existsb (String.eqb s) valid_levels
  | _ => false
  end.

(** The checks on one comment: [None] when it passes, the line printed to
    stderr when it does not. *)
Definition check_comment (file_path : string) (idx : nat) (comment : json)
  : result (option string) :=
  let i := str_of_Z (Z.of_nat idx) in
  if negb (is_dict comment) then
    ret (Some ("Error: Comment " ++ i ++ " in '" ++ file_path ++ "' must be a dict"))
  else
    has_line <- py_in "line" comment ;;
    if negb has_line then
      ret (Some ("Error: Comment " ++ i ++ " in '" ++ file_path ++ "' missing 'line'"))
    else
      has_message <- py_in "message" comment ;;
      if negb has_message then
        ret (Some ("Error: Comment " ++ i ++ " in '" ++ file_path ++ "' missing 'message'"))
      else
        line <- py_getitem comment "line" ;;
        if negb (is_int line) then
          ret (Some ("Error: 'line' in comment " ++ i ++ " of '" ++ file_path
                     ++ "' must be int"))
        else
          message <- py_getitem comment "message" ;;
          if negb (is_str message) then
            ret (Some ("Error: 'message' in comment " ++ i ++ " of '" ++ file_path
                       ++ "' must be str"))
          else
            has_level <- py_in "level" comment ;;
            if (has_level : bool) then
              level <- py_getitem comment "level" ;;
              if negb (level_ok level) then
                ret (Some ("Error: 'level' in comment " ++ i ++ " of '" ++ file_path
                           ++ "' must be 'error', 'warning', or 'info', got '"
                           ++ py_str repr level ++ "'"))
              else ret None
            else ret None.

(** [for idx, comment in enumerate(comments)], left at the first failure. *)
Fixpoint check_comments (file_path : string) (idx : nat) (comments : list json)
  : result (option string) :=
  match comments with
  | [] => ret None
  | comment :: rest =>
      r <- check_comment file_path idx comment ;;
      match r with
      | Some err => ret (Some err)
      | None => check_comments file_path (S idx) rest
      end
  end.

(** [for file_path, comments in file_comments.items()], left at the first
    failure. *)
Fixpoint check_files (file_comments : dict) : result (option string) :=
  match file_comments with
  | [] => ret None
  | (file_path, comments) :: rest =>
      match comments with
      | JArr cs =>
          r <- check_comments file_path 0 cs ;;
          match r with
          | Some err => ret (Some err)
          | None => check_files rest
          end
      | _ => ret (Some ("Error: Comments for '" ++ file_path ++ "' must be a list"))
      end
  end.

(** Returns the boolean of the source together with the line it prints to
    stderr (empty when the data is valid). *)
Definition validate_zuul_schema (data : json) : result (bool * string) :=
  has_zuul <- py_in "zuul" data ;;
  if negb has_zuul then ret (false, "Error: Missing 'zuul' key in return data")
  else
    zuul <- py_getitem data "zuul" ;;
    has_fc <- py_in "file_comments" zuul ;;
    if negb has_fc then ret (false, "Error: Missing 'file_comments' key in zuul data")
    else
      file_comments <- py_getitem zuul "file_comments" ;;
      match file_comments with
      | JObj d =>
          r <- check_files d ;;
          match r with
          | Some err => ret (false, err)
          | None => ret (true, EmptyString)
          end
      | _ => ret (false, "Error: 'file_comments' must be a dictionary")
      end.

(** ** Reading the review *)

Definition extract_review_data (data : json) : result json :=
  present <- py_in "structured_output" data ;;
  if (present : bool) then
    inner <- py_getitem data "structured_output" ;;
    if is_dict inner then ret inner else ret data
  else ret data.

(** [json.JSONDecoder().raw_decode(s, idx)] of the Python standard library:
    the value that starts at [idx] and the index where it ends, or a
    [JSONDecodeError].  It is not code of this repository and is taken as
    given. *)
Variable raw_decode : string -> nat -> result (json * nat).

Definition is_ws (c : ascii) : bool :=
  let n := nat_of_ascii c in
  (Nat.eqb n 32 || Nat.eqb n 9 || Nat.eqb n 10 || Nat.eqb n 13)%bool.

(** The index after the JSON whitespace that starts at [idx]. *)
Definition skip_ws (s : string) (idx : nat) : nat :=
  (idx + String.length (fst (span is_ws (drop idx s))))%nat.

(** [json.loads(s)] as the standard library defines it from [raw_decode]:
    whitespace, one value, whitespace, end of text. *)
Definition loads (s : string) : result json :=
  r <- raw_decode s (skip_ws s 0) ;;
  let (obj, stop) := (r : json * nat) in
  let stop := skip_ws s stop in
  if Nat.eqb stop (String.length s) then ret obj
  else raise (JSONDecodeError "Extra data" stop).

(** On the text of the file ([filepath.read_text]). *)
Definition load_json_with_trailing_text (content : string) : result json :=
  (* Try standard parsing first *)
  match loads content with
  | inr data => ret data
  | inl (JSONDecodeError _ _) =>
      (* Try to parse just the JSON portion (handles trailing text) *)
      match raw_decode content 0 with
      | inr (data, _) => ret data
      | inl (JSONDecodeError msg pos) =>
          raise (JSONDecodeError ("No valid JSON found in file: " ++ msg) pos)
      | inl e => raise e
      end
  | inl e => raise e
  end.

(** How a run of [main] ends.  Every case but [Written] leaves the process
    with a non-zero status and nothing on the output. *)
Inductive outcome : Type :=
| FileNotFound
| InvalidJSON (msg : string) (pos : nat)
| WrapperNotDict
| SchemaInvalid (stderr : string)
| Uncaught (e : exn)
| Written (zuul_data : json).

(** The last steps of [main], once the review data are known: the comment
    data are generated, checked, and handed to [json.dumps].  [--validate]
    is a [store_true] flag whose default is [True], so the schema check
    always runs. *)
Definition emit (review_data : json) : outcome :=
  match generate_zuul_return_data review_data with
  | inl e => Uncaught e
  | inr zuul_data =>
      match validate_zuul_schema zuul_data with
      | inl e => Uncaught e
      | inr (false, err) => SchemaInvalid err
      | inr (true, _) => Written zuul_data
      end
  end.

(** [main]; [file] is the text of the input file, [None] when the file
    does not exist. *)
Definition main (file : option string) : outcome :=
  match file with
  | None => FileNotFound
  | Some content =>
      match load_json_with_trailing_text content with
      | inl (JSONDecodeError msg pos) => InvalidJSON msg pos
      | inl e => Uncaught e
      | inr raw_data =>
          (* Extract review data from Claude CLI wrapper if present *)
          match extract_review_data raw_data with
          | inl e => Uncaught e
          | inr review_data =>
              (* Check if structured_output was missing when expected *)
              match (present <- py_in "structured_output" raw_data ;;
                     if (present : bool) then
                       inner <- py_getitem raw_data "structured_output" ;;
                       ret (negb (is_dict inner))
                     else ret false) with
              | inl e => Uncaught e
              | inr true => WrapperNotDict
              | inr false => emit review_data
              end
          end
      end
  end.

End Comments.

End ZuulComments.

(* ================================================================== *)
(** * validate_zuul_schema.py *)
(* ================================================================== *)

Module SchemaValidator.
Import Py.

Section Validator.

Variable repr : json -> string.

Definition valid_levels : list string := [ "info"; "warning"; "error" ].

(** [level not in valid_levels], a membership test in a [set]: the object
    is hashed first, which a list or a dict refuses with [TypeError]. *)
Definition not_in_valid_levels (level : json) : result bool :=
  match level with
  | JArr _ | JObj _ => raise TypeError
  | JStr s => ret (negb (existsb (String.eqb s) valid_levels))
  | _ => ret true
  end.

(** The checks on one comment: [None] when it passes, the error message
    returned when it does not. *)
Definition check_comment (file_path : string) (i : nat) (comment : json)
  : result (option string) :=
  let idx := str_of_Z (Z.of_nat i) in
  if negb (is_dict comment) then
    ret (Some ("Comment " ++ idx ++ " in " ++ file_path ++ " must be a dict"))
  else
    has_message <- py_in "message" comment ;;
    if negb has_message then
      ret (Some ("Comment " ++ idx ++ " in " ++ file_path
                 ++ " missing required message field"))
    else
      has_level <- py_in "level" comment ;;
      bad_level <-
        (if (has_level : bool) then
           level <- py_getitem comment "level" ;; not_in_valid_levels level
         else ret false) ;;
      if (bad_level : bool) then
        level <- py_getitem comment "level" ;;
        ret (Some ("Invalid level " ++ py_str repr level ++ " in " ++ file_path
                   ++ ", must be info/warning/error"))
      else
        has_line <- py_in "line" comment ;;
        bad_line <-
          (if (has_line : bool) then
             line <- py_getitem comment "line" ;; ret (negb (is_int line))
           else ret false) ;;
        if (bad_line : bool) then
          line <- py_getitem comment "line" ;;
          ret (Some ("line must be integer in " ++ file_path ++ ", got "
                     ++ type_name line))
        else ret None.

(** [for i, comment in enumerate(comments)], left at the first failure. *)
Fixpoint check_comments (file_path : string) (i : nat) (comments : list json)
  : result (option string) :=
  match comments with
  | [] => ret None
  | comment :: rest =>
      r <- check_comment file_path i comment ;;
      match r with
      | Some err => ret (Some err)
      | None => check_comments file_path (S i) rest
      end
  end.

(** [for file_path, comments in file_comments.items()], left at the first
    failure. *)
Fixpoint check_files (file_comments : dict) : result (option string) :=
  match file_comments with
  | [] => ret None
  | (file_path, comments) :: rest =>
      match comments with
      | JArr cs =>
          r <- check_comments file_path 0 cs ;;
          match r with
          | Some err => ret (Some err)
          | None => check_files rest
          end
      | _ => ret (Some ("Comments for " ++ file_path ++ " must be a list"))
      end
  end.

Definition validate_schema (data : json) : result (bool * string) :=
  has_zuul <- py_in "zuul" data ;;
  if negb has_zuul then ret (false, "Missing required key: zuul")
  else
    zuul <- py_getitem data "zuul" ;;
    has_fc <- py_in "file_comments" zuul ;;
    if negb has_fc then ret (false, "Missing required key: zuul.file_comments")
    else
      file_comments <- py_getitem zuul "file_comments" ;;
      match file_comments with
      | JObj d =>
          r <- check_files d ;;
          match r with
          | Some err => ret (false, err)
          | None => ret (true, "Schema validation passed")
          end
      | other =>
          ret (false, "file_comments must be a dict, got " ++ type_name other)
      end.

(** ** The script's entry point *)

(** [json.JSONDecoder().raw_decode] of the Python standard library, from
    which [json.load] is defined. *)
Variable raw_decode : string -> nat -> result (json * nat).

(** How a run of [main] ends: [Passed] with exit status 0, every other
    case with status 1 ([Raised] by way of an uncaught exception). *)
Inductive run : Type :=
| Usage
| NoFile
| NotJSON (msg : string) (pos : nat)
| ReadFailed (e : exn)
| Passed (stderr : string)
| Rejected (stderr : string)
| Raised (e : exn).

(** [main]; [args] is [sys.argv[1:]] and [file] the text of the file
    [args] names first, [None] when that file does not exist. *)
Definition main (args : list string) (file : option string) : run :=
  match args with
  | [] => Usage
  | _ :: _ =>
      match file with
      | None => NoFile
      | Some content =>
          match ZuulComments.loads raw_decode content with
          | inl (JSONDecodeError msg pos) => NotJSON msg pos
          | inl e => ReadFailed e
          | inr data =>
              match validate_schema data with
              | inl e => Raised e
              | inr (true, message) => Passed (message ++ nl)
              | inr (false, message) =>
                  Rejected ("Schema validation failed: " ++ message ++ nl)
              end
          end
      end
  end.

End Validator.

End SchemaValidator.

(* ================================================================== *)
(** * render_html_from_json.py *)
(* ================================================================== *)

Module RenderHtml.
Import Py.

Section Renderer.

(** Python's text for a float, a list or a dict. *)
Variable repr : json -> string.

(** The stylesheet: a module-level string constant of some three hundred
    lines, interpolated as it is into the [<style>] element. *)
Variable CSS_STYLES : string.

Definition escape_html (text : json) : string :=
  let text := py_str repr text in
  replace "'" "&#39;"
    (replace dq "&quot;"
       (replace ">" "&gt;"
          (replace "<" "&lt;"
             (replace "&" "&amp;" text)))).

Definition render_context_section (context : json) : result string :=
  change <- py_get context "change" (JStr "N/A") ;;
  scope <- py_get context "scope" (JStr "N/A") ;;
  impact <- py_get context "impact" (JStr "N/A") ;;
  ret (tpl "<section role=`region` aria-label=`Review context`>
<h2>Context</h2>
<ul>
<li><strong>Change</strong>: " ++ escape_html change ++ "</li>
<li><strong>Scope</strong>: " ++ escape_html scope ++ "</li>
<li><strong>Impact</strong>: " ++ escape_html impact ++ "</li>
</ul>
</section>
").

Definition render_statistics_section (statistics : json) : result string :=
  critical <- py_get statistics "critical" (JInt 0) ;;
  high <- py_get statistics "high" (JInt 0) ;;
  warnings <- py_get statistics "warnings" (JInt 0) ;;
  suggestions <- py_get statistics "suggestions" (JInt 0) ;;
  total <- py_get statistics "total" (JInt 0) ;;
  let critical := py_str repr critical in
  let high := py_str repr high in
  let warnings := py_str repr warnings in
  let suggestions := py_str repr suggestions in
  let total := py_str repr total in
  ret (tpl "<div class=`summary-stats`>
<div class=`stats-container` role=`region` aria-label=`Summary statistics`>
    <div class=`stat-item stat-critical`>
        <div class=`stat-number` aria-label=`" ++ critical ++ tpl " critical issues`>" ++ critical ++ tpl "</div>
        <div class=`stat-label`>Critical</div>
    </div>
    <div class=`stat-item stat-high`>
        <div class=`stat-number` aria-label=`" ++ high ++ tpl " high issues`>" ++ high ++ tpl "</div>
        <div class=`stat-label`>High</div>
    </div>
    <div class=`stat-item stat-warning`>
        <div class=`stat-number` aria-label=`" ++ warnings ++ tpl " warnings`>" ++ warnings ++ tpl "</div>
        <div class=`stat-label`>Warnings</div>
    </div>
    <div class=`stat-item stat-suggestion`>
        <div class=`stat-number` aria-label=`" ++ suggestions ++ tpl " suggestions`>" ++ suggestions ++ tpl "</div>
        <div class=`stat-label`>Suggestions</div>
    </div>
    <div class=`stat-item`>
        <div class=`stat-number` aria-label=`" ++ total ++ tpl " total findings`>" ++ total ++ tpl "</div>
        <div class=`stat-label`>Total</div>
    </div>
</div>
</div>
").

(** [badge_map.get(severity, ('•', severity.upper()))].  The icons lie
    outside the 8-bit range; they stand here as their UTF-8 bytes, which
    nothing inspects. *)
Definition badge (severity : string) : string * string :=
  if String.eqb severity "critical" then ("⛔", "CRITICAL")
  else if String.eqb severity "high" then ("🔴", "HIGH")
  else if String.eqb severity "warning" then ("⚠️", "WARNING")
  else if String.eqb severity "suggestion" then ("ℹ️", "SUGGESTION")
  else ("•", upper severity).

(** [if key in issue: details_parts.append(f'<p><strong>Label</strong>:
    {escape_html(issue[key])}</p>')] *)
Definition detail (label key : string) (issue : json)
    (details_parts : list string) : result (list string) :=
  present <- py_in key issue ;;
  if (present : bool) then
    v <- py_getitem issue key ;;
    let line := "<p><strong>" ++ label ++ "</strong>: " ++ escape_html v ++ "</p>" in
    ret (details_parts ++ [line])%list
  else ret details_parts.

Definition render_issue_card (issue : json) (severity : string)
    (number total : nat) : result string :=
  description <- py_get issue "description" (JStr "No description") ;;
  let description := escape_html description in
  confidence <- py_get issue "confidence" (JFloat 0.0) ;;
  location <- py_get issue "location" (JStr "Unknown") ;;
  let location := escape_html location in
  (* Severity badge and icon *)
  let (icon, label) := badge severity in
  (* Build details section based on severity *)
  let details_parts :=
    ["<p><strong>Location</strong>: <code>" ++ location ++ "</code></p>"] in
  details_parts <-
    (if (String.eqb severity "critical" || String.eqb severity "high")%bool then
       details_parts <- detail "Risk" "risk" issue details_parts ;;
       details_parts <- detail "Remediation Priority" "remediation_priority"
                          issue details_parts ;;
       details_parts <- detail "Why This Matters" "why_matters" issue details_parts ;;
       detail "Recommendation" "recommendation" issue details_parts
     else if String.eqb severity "warning" then
       details_parts <- detail "Impact" "impact" issue details_parts ;;
       detail "Suggestion" "suggestion" issue details_parts
     else if String.eqb severity "suggestion" then
       details_parts <- detail "Benefit" "benefit" issue details_parts ;;
       detail "Recommendation" "recommendation" issue details_parts
     else ret details_parts) ;;
  let details_html := join nl details_parts in
  (* Collapsible card with enhanced visuals *)
  confidence <- format_1f confidence ;;
  ret (tpl "<details class=`issue-card " ++ severity ++ tpl "` open>
    <summary class=`issue-summary`>
        <span class=`severity-badge severity-" ++ severity ++ tpl "`>
            <span class=`severity-icon` aria-hidden=`true`>" ++ icon ++ "</span>
            " ++ label ++ tpl "
        </span>
        <span class=`issue-number`>" ++ str_of_Z (Z.of_nat number) ++ " of "
         ++ str_of_Z (Z.of_nat total) ++ tpl "</span>
        <span class=`issue-description`>" ++ description ++ tpl "</span>
        <span class=`confidence`>Confidence: " ++ confidence ++ tpl "</span>
    </summary>
    <div class=`issue-details`>
        " ++ details_html ++ "
    </div>
</details>
").

(** [len(obj)] for the objects a loop can run over. *)
Definition py_len (obj : json) : nat :=
  match obj with
  | JArr l => List.length l
  | JObj d => List.length d
  | JStr s => String.length s
  | _ => O
  end.

(** [for idx, issue in enumerate(listed, number)]: the cards of the issues,
    numbered from [number]. *)
Fixpoint render_cards (severity : string) (number total : nat)
    (listed : list json) : result (list string) :=
  match listed with
  | [] => ret []
  | issue :: rest =>
      card <- render_issue_card issue severity number total ;;
      cards <- render_cards severity (S number) total rest ;;
      ret (card :: cards)
  end.

(** One of the four blocks of [render_all_issues], which differ in the key
    read, the severity given to the cards, the label and the heading. *)
Definition render_issue_block (issues : json)
    (key severity aria heading : string) (html_parts : list string)
  : result (list string) :=
  listed <- py_get issues key (JArr []) ;;
  if truthy listed then
    elements <- py_iter listed ;;
    cards <- render_cards severity 1 (py_len listed) elements ;;
    let opening := tpl "<section role=`region` aria-label=`" ++ aria ++ tpl "`>" in
    let title := "<h2>" ++ heading ++ "</h2>" in
    ret (html_parts ++ [opening] ++ [title] ++ cards ++ ["</section>"])%list
  else
    let placeholder := "<h2>" ++ heading ++ "</h2><p>None found.</p>" in
    ret (html_parts ++ [placeholder])%list.

Definition render_all_issues (issues : json) : result string :=
  let html_parts := [] in
  (* Critical issues *)
  html_parts <- render_issue_block issues "critical" "critical"
                  "Critical issues" "Critical Issues" html_parts ;;
  (* High issues *)
  html_parts <- render_issue_block issues "high" "high"
                  "High severity issues" "High Issues" html_parts ;;
  (* Warnings *)
  html_parts <- render_issue_block issues "warnings" "warning"
                  "Warnings" "Warnings" html_parts ;;
  (* Suggestions *)
  html_parts <- render_issue_block issues "suggestions" "suggestion"
                  "Suggestions" "Suggestions" html_parts ;;
  ret (join nl html_parts).

Definition render_observation (obs : json) : result string :=
  category <- py_get obs "category" (JStr "General") ;;
  observation <- py_get obs "observation" (JStr "") ;;
  ret ("<li><strong>" ++ escape_html category ++ "</strong>: "
       ++ escape_html observation ++ "</li>").

Definition render_positive_observations (observations : json) : result string :=
  if negb (truthy observations) then ret EmptyString
  else
    elements <- py_iter observations ;;
    obs_html <- mapM render_observation elements ;;
    ret (tpl "<section role=`region` aria-label=`Positive observations`>
<h2>Positive Observations</h2>
<div class=`positive-observation`>
<ul>
" ++ join EmptyString obs_html ++ "
</ul>
</div>
</section>
").

Definition render_summary_section (summary statistics : json) : result string :=
  assessment <- py_get summary "assessment" (JStr "N/A") ;;
  priority_focus <- py_get summary "priority_focus" (JStr "N/A") ;;
  detailed_summary <- py_get summary "detailed_summary" (JStr "N/A") ;;
  critical <- py_get statistics "critical" (JInt 0) ;;
  high <- py_get statistics "high" (JInt 0) ;;
  warnings <- py_get statistics "warnings" (JInt 0) ;;
  suggestions <- py_get statistics "suggestions" (JInt 0) ;;
  ret (tpl "<section role=`region` aria-label=`Summary`>
<h2>Summary</h2>
<ul>
<li><strong>Total Issues</strong>: " ++ py_str repr critical ++ " Critical, "
       ++ py_str repr high ++ " High, " ++ py_str repr warnings ++ " Warnings, "
       ++ py_str repr suggestions ++ " Suggestions</li>
<li><strong>Overall Assessment</strong>: " ++ escape_html assessment ++ "</li>
<li><strong>Priority Focus</strong>: " ++ escape_html priority_focus ++ "</li>
</ul>
<p>" ++ escape_html detailed_summary ++ "</p>
</section>
").

Definition render_html_template (review_data : json) : result string :=
  context <- py_get review_data "context" (JObj []) ;;
  statistics <- py_get review_data "statistics" (JObj []) ;;
  issues <- py_get review_data "issues" (JObj []) ;;
  positive_observations <- py_get review_data "positive_observations" (JArr []) ;;
  summary <- py_get review_data "summary" (JObj []) ;;
  (* Build HTML sections *)
  context_html <- render_context_section context ;;
  stats_html <- render_statistics_section statistics ;;
  issues_html <- render_all_issues issues ;;
  positive_html <- render_positive_observations positive_observations ;;
  summary_html <- render_summary_section summary statistics ;;
  (* Complete HTML document *)
  ret (tpl "<!DOCTYPE html>
<html lang=`en`>
<head>
    <meta charset=`UTF-8`>
    <meta name=`viewport` content=`width=device-width, initial-scale=1.0`>
    <meta name=`description` content=`AI Code Review Report - WCAG 2.1 Level AA Accessible`>
    <title>Code Review Report</title>
    <style>
" ++ CSS_STYLES ++ tpl "
    </style>
</head>
<body>
    <div class=`container` role=`main`>
        <h1>Code Review Report</h1>

        " ++ stats_html ++ "
        " ++ context_html ++ "
        " ++ issues_html ++ "
        " ++ positive_html ++ "
        " ++ summary_html ++ "
    </div>
</body>
</html>
").

(** ** The script's entry point *)

(** [json.JSONDecoder().raw_decode] of the Python standard library, from
    which [json.load] is defined. *)
Variable raw_decode : string -> nat -> result (json * nat).

Definition required_keys : list string :=
  [ "context"; "statistics"; "issues"; "summary" ].

(** [[key for key in keys if key not in review_data]] *)
Fixpoint missing_keys (keys : list string) (review_data : json)
  : result (list string) :=
  match keys with
  | [] => ret []
  | key :: rest =>
      present <- py_in key review_data ;;
      others <- missing_keys rest review_data ;;
      ret (if (present : bool) then others else key :: others)
  end.

(** How a run of [main] ends.  Every case but [Report] leaves the process
    with a non-zero status and no HTML file; the writing of the file itself,
    which the file system can refuse, is outside the model. *)
Inductive run : Type :=
| NoInput
| NotJSON (msg : string) (pos : nat)
| BadStructure (stderr : string)
| Failed (e : exn)
| Report (html_content : string).

(** [main]; [file] is the text of the input file, [None] when the file
    does not exist. *)
Definition main (file : option string) : run :=
  match file with
  | None => NoInput
  | Some content =>
      (* Read JSON file *)
      match ZuulComments.loads raw_decode content with
      | inl (JSONDecodeError msg pos) => NotJSON msg pos
      | inl e => Failed e
      | inr review_data =>
          (* Validate required structure *)
          match missing_keys required_keys review_data with
          | inl e => Failed e
          | inr [] =>
              (* Generate HTML *)
              match render_html_template review_data with
              | inl e => Failed e
              | inr html_content => Report html_content
              end
          | inr missing =>
              BadStructure
                ("Error: Invalid review data structure. Missing required keys: "
                 ++ join ", " missing)
          end
      end
  end.

End Renderer.

End RenderHtml.

(* ================================================================== *)
(** * The specification's vocabulary *)
(* ================================================================== *)

(** Definitions that follow the words of the specification, to be compared
    with the code above. *)
Module Spec.
Import Py.

(** ** Locations and paths *)

Fixpoint all_chars (p : ascii -> bool) (s : string) : bool :=
  match s with
  | EmptyString => true
  | String c t => (p c && all_chars p t)%bool
  end.

(** A decimal integer: one digit or more. *)
Definition digits (s : string) : Prop :=
  s <> EmptyString /\ all_chars is_digit s = true.

(** A path: not empty, no colon. *)
Definition path_ok (s : string) : Prop :=
  s <> EmptyString /\ all_chars ZuulComments.not_colon s = true.

(** The optional range suffix [-<end>]. *)
Definition range_ok (s : string) : Prop :=
  s = EmptyString \/ exists e, s = "-" ++ e /\ digits e.

(** [location] is [<path>:<line>[-<end>]]. *)
Definition location_grammar (location path line : string) : Prop :=
  exists range,
    location = path ++ ":" ++ line ++ range /\
    path_ok path /\ digits line /\ range_ok range.

Definition matches_grammar (location : string) : Prop :=
  exists path line, location_grammar location path line.

(** The last character, for telling a string of the grammar from one with
    a line feed after it. *)
Fixpoint last_char (s : string) : option ascii :=
  match s with
  | EmptyString => None
  | String c EmptyString => Some c
  | String _ t => last_char t
  end.

Definition last_is_digit (s : string) : bool :=
  match last_char s with Some c => is_digit c | None => false end.

(** The path segments: the pieces between the separators. *)
Definition segments (p : string) : list string := split_all "/" p.

(** "Strip the next two path segments if at least three segments remain". *)
Definition strip_two_segments (p : string) : string :=
  match segments p with
  | _ :: _ :: third :: more => join "/" (third :: more)
  | _ => p
  end.

(** The first execution-root prefix of the ordered list that [path] begins
    with. *)
Definition known_prefix (path : string) : option string :=
  find (fun prefix => startswith prefix path) ZuulComments.zuul_prefixes.

(** What [maxsplit] does to the full list of pieces: the first [n] pieces
    stay, the others are joined back. *)
Fixpoint regroup (sep : ascii) (n : nat) (l : list string) {struct l}
  : list string :=
  match l with
  | [] => []
  | x :: l' =>
      match l' with
      | [] => [x]
      | _ :: _ =>
          match n with
          | O => [join (String sep EmptyString) l]
          | S k => x :: regroup sep k l'
          end
      end
  end.

(** ** Severities and levels *)

(** The severities of the input side. *)
Definition known_severities : list string :=
  [ "critical"; "high"; "warning"; "suggestion" ].

(** The levels of the output side. *)
Definition ci_levels : list string := [ "error"; "warning"; "info" ].

(** ** File comment sets *)

(** A comment record as the CI channel takes it: an integer line of at
    least 1, a string message, one of the three levels. *)
Definition comment_record (c : json) : Prop :=
  exists line message level,
    c = JObj [ ("line", JInt line); ("message", JStr message);
               ("level", JStr level) ] /\
    1 <= line /\ In level [ "error"; "warning"; "info" ].

(** A file comment set all of whose records are comment records. *)
Definition comment_set (file_comments : ZuulComments.file_comments_t) : Prop :=
  Forall (fun pc => Forall comment_record (snd pc)) file_comments.

(** The data [generate_zuul_return_data] returns for a file comment set. *)
Definition zuul_return (file_comments : ZuulComments.file_comments_t) : json :=
  JObj [ ("zuul", JObj [ ("file_comments", ZuulComments.file_comments_json file_comments) ]) ].

(** An issue the CI channel leaves out: a mapping with no [location], or
    with one that is a string the location pattern does not accept. *)
Definition unlocated (issue : json) : Prop :=
  exists d, issue = JObj d /\
    (lookup "location" d = None \/
     exists loc, lookup "location" d = Some (JStr loc) /\
                 ZuulComments.parse_location loc = (None, None)).

(** A sample review: one critical issue. *)
Definition sample_issue : dict :=
  [ ("description", JStr "d"); ("confidence", JFloat 0.95%float);
    ("location", JStr "x.py:10"); ("risk", JStr "High") ].

Definition sample_review : dict :=
  [ ("issues", JObj [ ("critical", JArr [ JObj sample_issue ]) ]) ].

Definition sample_message : string :=
  "d

**Severity**: CRITICAL | **Confidence**: 0.9

**Risk**: High
".

Definition sample_comments : ZuulComments.file_comments_t :=
  [ ("x.py", [ JObj [ ("line", JInt 10); ("message", JStr sample_message);
                      ("level", JStr "error") ] ]) ].

(** A review with one warning, whose location is not a location. *)
Definition unlocated_sample : json :=
  JObj [ ("description", JStr "w"); ("location", JStr "not-a-location") ].

Definition unlocated_review : dict :=
  [ ("issues", JObj [ ("warnings", JArr [ unlocated_sample ]) ]) ].

(** ** Decoders *)

(** A decoder for the texts that begin with the empty object, to run the
    pipeline on a concrete text: [{}] at [idx], or "Expecting value". *)
Definition decode_empty_object (s : string) (idx : nat) : result (json * nat) :=
  if startswith "{}" (drop idx s) then ret (JObj [], (idx + 2)%nat)
  else raise (JSONDecodeError "Expecting value" idx).

(** What the documentation of [raw_decode] says of a decoder, for a grammar
    [valid] of the texts of JSON values: at index 0 it succeeds exactly on
    the texts a prefix of which is the text of a value, and then returns the
    value of the longest such prefix and the index where that prefix
    ends. *)
Definition decodes_longest_prefix (valid : string -> json -> Prop)
    (raw_decode : string -> nat -> result (json * nat)) : Prop :=
  (forall s v stop,
     raw_decode s O = inr (v, stop) ->
     exists p rest,
       s = p ++ rest /\ String.length p = stop /\ valid p v /\
       forall p' rest' v', s = p' ++ rest' -> valid p' v' ->
                           (String.length p' <= String.length p)%nat) /\
  (forall p rest v,
     valid p v -> exists v' stop, raw_decode (p ++ rest) O = inr (v', stop)).

(** The grammar whose one text is the empty object. *)
Definition empty_object_text (p : string) (v : json) : Prop :=
  p = "{}" /\ v = JObj [].

(** ** What the stand-alone validator lets through *)

(** A level the stand-alone validator lets through. *)
Definition level_accepted (level : json) : bool :=
  match level with
  | JStr s => existsb (String.eqb s) SchemaValidator.valid_levels
  | _ => false
  end.

(** An object that can be looked up in a [set]: anything but a list or a
    dict. *)
Definition hashable (obj : json) : bool := negb (is_list obj || is_dict obj).

(** A record the stand-alone validator lets through: a mapping with a
    [message], whose [level], if any, is accepted and whose [line], if any,
    is an integer. *)
Definition record_passes (c : json) : bool :=
  match c with
  | JObj d =>
      has_key "message" d
      && match lookup "level" d with Some l => level_accepted l | None => true end
      && match lookup "line" d with Some n => is_int n | None => true end
  | _ => false
  end.

Definition file_passes (entry : string * json) : bool :=
  match snd entry with
  | JArr cs => forallb record_passes cs
  | _ => false
  end.

(** The payload [{"zuul": {"file_comments": {path: comments}}}]. *)
Definition one_file (path : string) (comments : json) : json :=
  JObj [ ("zuul", JObj [ ("file_comments", JObj [ (path, comments) ]) ]) ].

(** A payload with two files; the second record of the second file has a
    level outside the three. *)
Definition sample_files : dict :=
  [ ("a.py", JArr [ JObj [ ("message", JStr "ok"); ("line", JInt 3) ] ]);
    ("b.py", JArr [ JObj [ ("message", JStr "one") ];
                    JObj [ ("message", JStr "two"); ("level", JStr "fatal") ] ]) ].

Definition sample_payload : dict :=
  [ ("zuul", JObj [ ("file_comments", JObj sample_files) ]) ].

(** ** Escaping and markup *)

(** The entity that stands for a character in escaped text; a character
    other than the five stands for itself. *)
Definition entity (c : ascii) : string :=
  if Ascii.eqb c "&" then "&amp;"
  else if Ascii.eqb c "<" then "&lt;"
  else if Ascii.eqb c ">" then "&gt;"
  else if Ascii.eqb c dq_char then "&quot;"
  else if Ascii.eqb c "'" then "&#39;"
  else String c EmptyString.

(** Text with each of its characters replaced by its entity. *)
Fixpoint escaped (s : string) : string :=
  match s with
  | EmptyString => EmptyString
  | String c t => entity c ++ escaped t
  end.

(** [s.replace(c, r)] for a one-character [c], character by character. *)
Fixpoint subst_char (c : ascii) (r : string) (s : string) : string :=
  match s with
  | EmptyString => EmptyString
  | String x t =>
      if Ascii.eqb c x then r ++ subst_char c r t else String x (subst_char c r t)
  end.

(** The characters that open or close a tag or an attribute value. *)
Definition markup_char (c : ascii) : bool :=
  (Ascii.eqb c "<" || Ascii.eqb c ">" || Ascii.eqb c dq_char || Ascii.eqb c "'")%bool.

(** The markup characters of a text, in order. *)
Fixpoint markup (s : string) : string :=
  match s with
  | EmptyString => EmptyString
  | String c t => if markup_char c then String c (markup t) else markup t
  end.

(** The markup of a rendering, or the exception it raised. *)
Definition markup_of (r : result string) : result string :=
  match r with
  | inl e => inl e
  | inr html => inr (markup html)
  end.

Definition same_markup (a b : string) : Prop := markup a = markup b.
Definition same_markups (l l' : list string) : Prop :=
  map markup l = map markup l'.

(** Two runs that raise the same exception, or return related values. *)
Definition rel_result {A} (R : A -> A -> Prop) (r r' : result A) : Prop :=
  match r, r' with
  | inl e, inl e' => e = e'
  | inr a, inr a' => R a a'
  | _, _ => False
  end.

(** ** Rewriting the free text of a review *)

(** A mapping with the values under [keys] changed by [f]. *)
Definition map_values (keys : list string) (f : json -> json) (d : dict) : dict :=
  map (fun kv => if existsb (String.eqb (fst kv)) keys
                 then (fst kv, f (snd kv)) else kv) d.

Definition on_dict (f : dict -> dict) (obj : json) : json :=
  match obj with JObj d => JObj (f d) | _ => obj end.

Definition on_list (f : json -> json) (obj : json) : json :=
  match obj with JArr l => JArr (map f l) | _ => obj end.

(** The free-text fields of an issue, of the context, of the summary and of
    a positive observation. *)
Definition issue_text_keys : list string :=
  [ "description"; "location"; "risk"; "remediation_priority"; "why_matters";
    "recommendation"; "impact"; "suggestion"; "benefit" ].
Definition context_text_keys : list string := [ "change"; "scope"; "impact" ].
Definition summary_text_keys : list string :=
  [ "assessment"; "priority_focus"; "detailed_summary" ].
Definition observation_text_keys : list string := [ "category"; "observation" ].

(** A review with every free-text field it has rewritten by [g], and
    nothing else changed. *)
Definition retext_issue (g : json -> json) : json -> json :=
  on_dict (map_values issue_text_keys g).

Definition retext_issues (g : json -> json) : json -> json :=
  on_dict (map_values ZuulComments.severities (on_list (retext_issue g))).

Definition retext_observation (g : json -> json) : json -> json :=
  on_dict (map_values observation_text_keys g).

Definition retext_review (g : json -> json) : json -> json :=
  on_dict (fun d =>
    map_values [ "context" ] (on_dict (map_values context_text_keys g))
      (map_values [ "issues" ] (retext_issues g)
         (map_values [ "positive_observations" ] (on_list (retext_observation g))
            (map_values [ "summary" ] (on_dict (map_values summary_text_keys g)) d)))).

(** A review whose one issue has a script element for description. *)
Definition script_review : json :=
  JObj [ ("issues", JObj [ ("critical", JArr
           [ JObj [ ("description", JStr "<script>alert(1)</script>");
                    ("location", JStr "x.py:10") ] ]) ]) ].

(** ** Cards and their fields *)

(** The line of the details of a card for the field [key], if the issue
    has it. *)
Definition detail_line (repr : json -> string) (label key : string) (d : dict)
  : list string :=
  match lookup key d with
  | Some v => [ "<p><strong>" ++ label ++ "</strong>: " ++ RenderHtml.escape_html repr v
                ++ "</p>" ]
  | None => []
  end.

(** The detail fields of a card, label and key, in the order they are
    rendered: risk, priority, why-matters, recommendation for critical and
    high; impact, suggestion for warning; benefit, recommendation for
    suggestion. *)
Definition detail_fields (severity : string) : list (string * string) :=
  if (String.eqb severity "critical" || String.eqb severity "high")%bool then
    [ ("Risk", "risk"); ("Remediation Priority", "remediation_priority");
      ("Why This Matters", "why_matters"); ("Recommendation", "recommendation") ]
  else if String.eqb severity "warning" then
    [ ("Impact", "impact"); ("Suggestion", "suggestion") ]
  else if String.eqb severity "suggestion" then
    [ ("Benefit", "benefit"); ("Recommendation", "recommendation") ]
  else [].

(** The value of a field, or the default the renderer shows in its
    place. *)
Definition field (d : dict) (key : string) (default : string) : json :=
  match lookup key d with Some v => v | None => JStr default end.

(** The confidence of an issue can be formatted: it is a number, or
    absent. *)
Definition confidence_ok (d : dict) : Prop :=
  exists text,
    format_1f (match lookup "confidence" d with
               | Some c => c
               | None => JFloat 0.0%float
               end) = inr text.

(** An issue as the data model has it, as far as the HTML renderer reads
    it: a mapping whose confidence can be formatted. *)
Definition well_formed_issue (issue : json) : Prop :=
  exists d, issue = JObj d /\ confidence_ok d.

(** A list of such issues, or nothing, under each severity key. *)
Definition issues_ok (issues : dict) : Prop :=
  forall key, In key ZuulComments.severities ->
    match lookup key issues with
    | Some v => exists l, v = JArr l /\ Forall well_formed_issue l
    | None => True
    end.

Definition dict_or_absent (o : option json) : Prop :=
  match o with Some v => is_dict v = true | None => True end.

Definition observations_ok (o : option json) : Prop :=
  match o with
  | Some v => exists l, v = JArr l /\ Forall (fun obs => is_dict obs = true) l
  | None => True
  end.

(** A review document the HTML renderer renders without an exception. *)
Definition well_formed_review (review_data : dict) : Prop :=
  dict_or_absent (lookup "context" review_data) /\
  dict_or_absent (lookup "statistics" review_data) /\
  (exists issues, lookup "issues" review_data = Some (JObj issues) /\ issues_ok issues) /\
  observations_ok (lookup "positive_observations" review_data) /\
  dict_or_absent (lookup "summary" review_data).

(** ** The statistics section *)

(** A number of the statistics block as it is rendered: the element that
    shows [n], labelled [n what]. *)
Definition stat_number (n what : string) : string :=
  tpl "<div class=`stat-number` aria-label=`" ++ n ++ what ++ tpl "`>" ++ n
  ++ "</div>".

(** What the statistics block shows for a key: the declared value, 0 when
    the key is absent. *)
Definition shown (repr : json -> string) (statistics : dict) (key : string)
  : string :=
  py_str repr (match lookup key statistics with Some v => v | None => JInt 0 end).

(** The statistics block, laid out around its five numbers. *)
Definition stats_block (critical high warnings suggestions total : string)
  : string :=
  tpl "<div class=`summary-stats`>
<div class=`stats-container` role=`region` aria-label=`Summary statistics`>
    <div class=`stat-item stat-critical`>
        " ++ stat_number critical " critical issues" ++ tpl "
        <div class=`stat-label`>Critical</div>
    </div>
    <div class=`stat-item stat-high`>
        " ++ stat_number high " high issues" ++ tpl "
        <div class=`stat-label`>High</div>
    </div>
    <div class=`stat-item stat-warning`>
        " ++ stat_number warnings " warnings" ++ tpl "
        <div class=`stat-label`>Warnings</div>
    </div>
    <div class=`stat-item stat-suggestion`>
        " ++ stat_number suggestions " suggestions" ++ tpl "
        <div class=`stat-label`>Suggestions</div>
    </div>
    <div class=`stat-item`>
        " ++ stat_number total " total findings" ++ tpl "
        <div class=`stat-label`>Total</div>
    </div>
</div>
</div>
".

(** Statistics whose declared total is not the sum of the counts. *)
Definition sample_statistics : dict :=
  [ ("critical", JInt 2); ("high", JInt 3); ("warnings", JInt 5);
    ("suggestions", JInt 1); ("total", JInt 7) ].
(** ** The comments of the located issues *)

(** The value under [issues] of a review, with the default of the code. *)
Definition issues_of (review_data : dict) : json :=
  match lookup "issues" review_data with Some v => v | None => JObj [] end.

(** The issues a loop visits under a severity key. *)
Definition elements (issues : dict) (key : string) : list json :=
  match lookup key issues with
  | Some v => match py_iter v with inr l => l | inl _ => [] end
  | None => []
  end.

(** An issue that gets a comment: its location is a string that parses to
    a path that is not empty and a line that is not zero. *)
Definition located (issue : json) : bool :=
  match issue with
  | JObj d =>
      match lookup "location" d with
      | Some (JStr loc) =>
          match ZuulComments.parse_location loc with
          | (Some path, Some line) =>
              (negb (String.eqb path EmptyString) && negb (line =? 0))%bool
          | _ => false
          end
      | _ => false
      end
  | _ => false
  end.

(** The comments of all files, in the order of the files. *)
Definition all_comments (file_comments : ZuulComments.file_comments_t)
  : list json :=
  concat (map snd file_comments).

(** [c] is filed under [path]. *)
Definition filed (file_comments : ZuulComments.file_comments_t) (path : string)
    (c : json) : Prop :=
  exists cs, In (path, cs) file_comments /\ In c cs.

(** [c] is the comment of [issue] for the severity label [label], and
    belongs to the file [path]. *)
Definition comment_of (repr : json -> string) (label : string) (issue : json)
    (path : string) (c : json) : Prop :=
  exists d loc line message,
    issue = JObj d /\ lookup "location" d = Some (JStr loc) /\
    ZuulComments.parse_location loc = (Some path, Some line) /\
    ZuulComments.format_issue_message repr issue label = inr message /\
    c = JObj [ ("line", JInt line); ("message", JStr message);
               ("level", JStr (ZuulComments.map_severity_to_level label)) ].

(** The place of a level in the order error, warning, info. *)
Definition rank_of_level (level : string) : nat :=
  if String.eqb level "error" then 0%nat
  else if String.eqb level "warning" then 1%nat else 2%nat.

Definition level_rank (c : json) : nat :=
  match c with
  | JObj d =>
      match lookup "level" d with
      | Some (JStr level) => rank_of_level level
      | _ => 2%nat
      end
  | _ => 2%nat
  end.

(** [cs] is in the order of the levels: no comment comes after one of a
    lower level. *)
Definition by_level (cs : list json) : Prop :=
  forall before c between c' after,
    cs = (before ++ c :: between ++ c' :: after)%list ->
    (level_rank c <= level_rank c')%nat.

(** Every list is in the order of the levels and holds no level after the
    one of rank [r]. *)
Definition ordered_up_to (r : nat) (fc : ZuulComments.file_comments_t) : Prop :=
  forall p cs, In (p, cs) fc ->
    by_level cs /\ forall c, In c cs -> (level_rank c <= r)%nat.

(** No path twice, no empty path, no empty list. *)
Definition keyed (fc : ZuulComments.file_comments_t) : Prop :=
  NoDup (map fst fc) /\
  forall path cs, In (path, cs) fc -> path <> EmptyString /\ cs <> [].

(** The keys whose values [format_issue_message] puts into the message as
    they are, on a line of their own. *)
Definition verbatim_keys (severity : string) : list string :=
  if (String.eqb severity "critical" || String.eqb severity "high")%bool
  then [ "recommendation" ]
  else if String.eqb severity "warning" then [ "suggestion" ]
  else if String.eqb severity "suggestion" then [ "recommendation" ]
  else [].

(** The description, or its default, is a string, and so is each value
    that goes into the message as it is. *)
Definition message_ok (d : dict) (severity : string) : bool :=
  (is_str (field d "description" "No description")
   && forallb (fun key => match lookup key d with
                          | Some v => is_str v
                          | None => true
                          end) (verbatim_keys severity))%bool.

(** The confidence of an issue, or its default, has the format code. *)
Definition formats (d : dict) : bool :=
  match format_1f (match lookup "confidence" d with
                   | Some c => c
                   | None => JFloat 0.0%float
                   end) with
  | inr _ => true
  | inl _ => false
  end.

(** An issue the inner loop gets through: a mapping whose location is
    absent, or false as a truth value, or a string; and when that string
    makes it a located issue, its message can be built. *)
Definition processable (label : string) (issue : json) : bool :=
  match issue with
  | JObj d =>
      match lookup "location" d with
      | None => true
      | Some v =>
          if truthy v then
            match v with
            | JStr _ =>
                if located issue then (formats d && message_ok d label)%bool
                else true
            | _ => false
            end
          else true
      end
  | _ => false
  end.

(** What a [for] loop can run over. *)
Definition iterable (v : json) : bool :=
  match v with JArr _ | JObj _ | JStr _ => true | _ => false end.

(** What is under a severity key can be run over, and every element is
    processable. *)
Definition listed_ok (issues : dict) (key : string) : bool :=
  match lookup key issues with
  | None => true
  | Some v =>
      (iterable v && forallb (processable (rstrip "s" key)) (elements issues key))%bool
  end.

(** ** The summary *)

(** A comment [print_summary] can count: a mapping whose level, if any,
    can be hashed. *)
Definition countable (c : json) : bool :=
  match c with
  | JObj d =>
      match lookup "level" d with
      | Some (JArr _) | Some (JObj _) => false
      | _ => true
      end
  | _ => false
  end.

(** The comment counts under [level]: its level is that string, or it has
    no level and [level] is [info]. *)
Definition level_is (level : string) (c : json) : bool :=
  match c with
  | JObj d =>
      match lookup "level" d with
      | Some (JStr l) => String.eqb l level
      | Some _ => false
      | None => String.eqb "info" level
      end
  | _ => false
  end.

Definition with_level (level : string) (comments : list json) : Z :=
  Z.of_nat (List.length (filter (level_is level) comments)).

(** The two lines of the summary. *)
Definition extracted_line (comments files : Z) : string :=
  "Extracted " ++ str_of_Z comments ++ " comments across " ++ str_of_Z files
  ++ " files".

Definition breakdown_line (errors warnings info : Z) : string :=
  "Breakdown: " ++ str_of_Z errors ++ " errors, " ++ str_of_Z warnings
  ++ " warnings, " ++ str_of_Z info ++ " info".

(** ** What the generator's own check lets through *)

(** A record the generator's own check lets through: a mapping with an
    integer [line] and a string [message], whose [level], if any, is one of
    the three. *)
Definition strict_record (c : json) : bool :=
  match c with
  | JObj d =>
      match lookup "line" d, lookup "message" d with
      | Some line, Some message =>
          is_int line && is_str message
          && match lookup "level" d with
             | Some l => ZuulComments.level_ok l
             | None => true
             end
      | _, _ => false
      end
  | _ => false
  end.

Definition strict_file (entry : string * json) : bool :=
  match snd entry with
  | JArr cs => forallb strict_record cs
  | _ => false
  end.

(** The payload has the shape [{"zuul": {"file_comments": {...}}}] and
    every entry of the inner mapping satisfies [ok]. *)
Definition payload_of (ok : string * json -> bool) (data : json) : Prop :=
  exists d z fc,
    data = JObj d /\ lookup "zuul" d = Some (JObj z) /\
    lookup "file_comments" z = Some (JObj fc) /\ forallb ok fc = true.

(** A decoder for the texts that begin with the empty list. *)
Definition decode_empty_list (s : string) (idx : nat) : result (json * nat) :=
  if startswith "[]" (drop idx s) then ret (JArr [], (idx + 2)%nat)
  else raise (JSONDecodeError "Expecting value" idx).

(** ** The parts of the report *)

(** The number of a card as it is rendered: [number of total]. *)
Definition issue_number (number total : nat) : string :=
  tpl "<span class=`issue-number`>" ++ str_of_Z (Z.of_nat number) ++ " of "
  ++ str_of_Z (Z.of_nat total) ++ "</span>".

(** What stands for a severity that has no issue. *)
Definition none_found (heading : string) : string :=
  "<h2>" ++ heading ++ "</h2><p>None found.</p>".

(** The severity keys with the severity given to the cards, the label of
    the section and its heading. *)
Definition blocks : list (string * (string * (string * string))) :=
  [ ("critical", ("critical", ("Critical issues", "Critical Issues")));
    ("high", ("high", ("High severity issues", "High Issues")));
    ("warnings", ("warning", ("Warnings", "Warnings")));
    ("suggestions", ("suggestion", ("Suggestions", "Suggestions"))) ].

(** The five characters [escape_html] replaces. *)
Definition special (c : ascii) : bool :=
  (Ascii.eqb c "&" || Ascii.eqb c "<" || Ascii.eqb c ">" || Ascii.eqb c dq_char
   || Ascii.eqb c "'")%bool.

Definition not_special (c : ascii) : bool := negb (special c).

End Spec.

(* ================================================================== *)
(** * Facts about the Python layer *)
(* ================================================================== *)

Module PyFacts.
Import Py Spec.

Lemma append_nil_r (s : string) : s ++ EmptyString = s.
Proof. induction s as [|c s IH]; simpl; [reflexivity | now rewrite IH]. Qed.

Lemma append_assoc (a b c : string) : (a ++ b) ++ c = a ++ (b ++ c).
Proof. induction a as [|x a IH]; simpl; [reflexivity | now rewrite IH]. Qed.

Lemma prefix_app (n b : string) : String.prefix n (n ++ b) = true.
Proof.
  induction n as [|c n IH]; simpl.
  - now destruct b.
  - destruct (ascii_dec c c) as [_|ne]; [exact IH | now elim ne].
Qed.

Lemma prefix_inv (n h : string) :
  String.prefix n h = true -> exists b, h = n ++ b.
Proof.
  revert h; induction n as [|c n IH]; intros h H.
  - now exists h.
  - destruct h as [|d h]; simpl in H; [discriminate|].
    destruct (ascii_dec c d) as [->|]; [|discriminate].
    destruct (IH _ H) as [b ->]. now exists b.
Qed.

Lemma prefix_nil (s : string) : String.prefix EmptyString s = true.
Proof. now destruct s. Qed.

Lemma prefix_cons (c d : ascii) (p s : string) :
  String.prefix (String c p) (String d s) = (Ascii.eqb c d && String.prefix p s)%bool.
Proof.
  cbn [String.prefix].
  destruct (ascii_dec c d) as [->|ne].
  - now rewrite Ascii.eqb_refl.
  - apply Ascii.eqb_neq in ne. now rewrite ne.
Qed.

Lemma drop_app (n b : string) : drop (String.length n) (n ++ b) = b.
Proof. induction n as [|c n IH]; simpl; [now destruct b | exact IH]. Qed.

Lemma contains_prefix (n h : string) :
  String.prefix n h = true -> contains n h = true.
Proof. destruct h; simpl; intros ->; reflexivity. Qed.

(** [needle in hay] holds exactly when [hay] splits around [needle]. *)
Lemma contains_app (a n b : string) : contains n (a ++ n ++ b) = true.
Proof.
  induction a as [|c a IH].
  - change (contains n (n ++ b) = true). apply contains_prefix, prefix_app.
  - simpl append. simpl contains. rewrite IH. apply orb_true_r.
Qed.

Lemma contains_inv (n h : string) :
  contains n h = true -> exists a b, h = a ++ n ++ b.
Proof.
  induction h as [|c h IH]; intros H; cbn [contains] in H.
  - rewrite orb_false_r in H. destruct (prefix_inv _ _ H) as [b ->].
    now exists EmptyString, b.
  - apply orb_true_iff in H as [H|H].
    + destruct (prefix_inv _ _ H) as [b ->]. now exists EmptyString, b.
    + destruct (IH H) as (a & b & ->). now exists (String c a), b.
Qed.

Lemma contains_trans (a b c : string) :
  contains a b = true -> contains b c = true -> contains a c = true.
Proof.
  intros H1 H2.
  destruct (contains_inv _ _ H1) as (x & y & ->).
  destruct (contains_inv _ _ H2) as (u & v & ->).
  rewrite !append_assoc, <- append_assoc. apply contains_app.
Qed.

Lemma contains_app_l (n a b : string) :
  contains n a = true -> contains n (a ++ b) = true.
Proof.
  intros H. destruct (contains_inv _ _ H) as (x & y & ->).
  rewrite !append_assoc. apply contains_app.
Qed.

Lemma contains_app_r (n a b : string) :
  contains n b = true -> contains n (a ++ b) = true.
Proof.
  intros H. destruct (contains_inv _ _ H) as (x & y & ->).
  rewrite <- append_assoc. apply contains_app.
Qed.

Lemma contains_refl (n : string) : contains n n = true.
Proof.
  rewrite <- (append_nil_r n) at 2.
  exact (contains_app EmptyString n EmptyString).
Qed.

End PyFacts.

Module MonadFacts.
Import Py.

Lemma bind_inr {A B} (m : result A) (k : A -> result B) (b : B) :
  bind m k = inr b -> exists a, m = inr a /\ k a = inr b.
Proof. destruct m as [e|a]; [discriminate|]. intros H. now exists a. Qed.

Lemma foldM_app {A B} (f : B -> A -> result B) (l1 l2 : list A) (b : B) :
  foldM f (l1 ++ l2) b = bind (foldM f l1 b) (foldM f l2).
Proof.
  revert b; induction l1 as [|a l1 IH]; intros b; [reflexivity|].
  cbn [app foldM]. destruct (f b a) as [e|b']; [reflexivity|]. apply IH.
Qed.

Lemma foldM_ext {A B} (f g : B -> A -> result B) (l : list A) (b : B) :
  (forall a b, In a l -> f b a = g b a) -> foldM f l b = foldM g l b.
Proof.
  revert b; induction l as [|a l IH]; intros b H; [reflexivity|].
  cbn [foldM]. rewrite (H a b (or_introl eq_refl)).
  destruct (g b a) as [e|b']; [reflexivity|].
  apply IH. intros a' b'' Hin. apply H. now right.
Qed.

(** An invariant of the accumulator holds after the loop. *)
Lemma foldM_invariant {A B} (P : B -> Prop) (f : B -> A -> result B)
    (l : list A) (b b' : B) :
  (forall a x y, P x -> f x a = inr y -> P y) ->
  P b -> foldM f l b = inr b' -> P b'.
Proof.
  intros Hf. revert b; induction l as [|a l IH]; intros b Hb; cbn [foldM].
  - intros [= <-]. exact Hb.
  - intros H. apply bind_inr in H as (y & Hy & H).
    exact (IH y (Hf _ _ _ Hb Hy) H).
Qed.

Lemma lookup_dict_set_same (k : string) (v : json) (d : dict) :
  lookup k (dict_set k v d) = Some v.
Proof.
  induction d as [|[k' v'] d IH]; cbn [dict_set lookup].
  - now rewrite String.eqb_refl.
  - destruct (String.eqb k' k) eqn:E; cbn [lookup].
    + now rewrite String.eqb_refl.
    + now rewrite E.
Qed.

Lemma lookup_dict_set_other (k k' : string) (v : json) (d : dict) :
  k <> k' -> lookup k' (dict_set k v d) = lookup k' d.
Proof.
  intros ne. induction d as [|[k0 v0] d IH]; cbn [dict_set lookup].
  - apply String.eqb_neq in ne. now rewrite ne.
  - destruct (String.eqb_spec k0 k) as [->|ne0]; cbn [lookup].
    + apply String.eqb_neq in ne. now rewrite ne.
    + now rewrite IH.
Qed.

End MonadFacts.

(* ================================================================== *)
(** * The comment generator *)
(* ================================================================== *)

Module ZuulFacts.
Import Py Spec PyFacts ZuulComments.

(** ** Splitting *)

Lemma split_all_nonempty (sep : ascii) (s : string) : split_all sep s <> [].
Proof.
  induction s as [|c t IH]; simpl; [discriminate|].
  destruct (Ascii.eqb c sep); [discriminate|].
  destruct (split_all sep t); discriminate.
Qed.

Lemma join_cons (sep : string) (x y : string) (l : list string) :
  join sep (x :: y :: l) = x ++ sep ++ join sep (y :: l).
Proof. reflexivity. Qed.

Lemma join_split_all (sep : ascii) (s : string) :
  join (String sep EmptyString) (split_all sep s) = s.
Proof.
  induction s as [|c t IH]; simpl; [reflexivity|].
  destruct (Ascii.eqb_spec c sep) as [->|ne].
  - destruct (split_all sep t) as [|h r] eqn:E; [now elim (split_all_nonempty sep t)|].
    rewrite join_cons, IH. reflexivity.
  - destruct (split_all sep t) as [|h r] eqn:E; [now elim (split_all_nonempty sep t)|].
    destruct r as [|y r].
    + simpl in *. now rewrite IH.
    + rewrite join_cons in IH. rewrite join_cons. cbn [append] in IH |- *. now rewrite IH.
Qed.

Lemma split_regroup (sep : ascii) (s : string) (n : nat) :
  split sep n s = regroup sep n (split_all sep s).
Proof.
  revert n; induction s as [|c t IH]; intros n; [reflexivity|].
  destruct n as [|k].
  - assert (J := join_split_all sep (String c t)).
    cbn [split].
    destruct (split_all sep (String c t)) as [|x [|y l]] eqn:E.
    + now elim (split_all_nonempty sep (String c t)).
    + simpl in J. now subst.
    + cbn [regroup]. now rewrite J.
  - cbn [split split_all].
    destruct (Ascii.eqb c sep).
    + rewrite IH.
      destruct (split_all sep t) as [|h r] eqn:E; [now elim (split_all_nonempty sep t)|].
      reflexivity.
    + rewrite (IH (S k)).
      destruct (split_all sep t) as [|h [|y r]] eqn:E;
        [now elim (split_all_nonempty sep t) | reflexivity | reflexivity].
Qed.

(** The code's [split('/', 2)] test against the words of the
    specification. *)
Lemma after_two_segments_spec (p : string) :
  match after_two_segments p with Some tail => tail | None => p end
  = strip_two_segments p.
Proof.
  unfold after_two_segments, strip_two_segments, segments.
  rewrite split_regroup.
  destruct (split_all "/" p) as [|x [|y [|z more]]]; try reflexivity.
  cbn [regroup]. destruct more; reflexivity.
Qed.

(** ** Prefixes *)

Lemma replace_first_prefix (p s : string) :
  startswith p s = true -> replace_first p EmptyString s = drop (String.length p) s.
Proof.
  unfold startswith. destruct s as [|c t]; intros H.
  - destruct p; [reflexivity | discriminate].
  - cbn [replace_first]. now rewrite H.
Qed.

Lemma strip_zuul_prefix_find (prefixes : list string) (path : string) :
  strip_zuul_prefix prefixes path =
  match find (fun prefix => startswith prefix path) prefixes with
  | Some prefix => Some (strip_two_segments (drop (String.length prefix) path))
  | None => None
  end.
Proof.
  induction prefixes as [|p l IH]; [reflexivity|].
  cbn [strip_zuul_prefix find].
  destruct (startswith p path) eqn:E; [|exact IH].
  now rewrite replace_first_prefix, after_two_segments_spec.
Qed.

Lemma relative_no_prefix (path : string) :
  startswith "/" path = false -> known_prefix path = None.
Proof.
  unfold known_prefix, startswith. destruct path as [|c t]; [reflexivity|].
  rewrite prefix_cons, prefix_nil, andb_true_r. intros H.
  cbn [find zuul_prefixes]. now rewrite !prefix_cons, H.
Qed.

Lemma normalize_known_prefix (path prefix : string) :
  known_prefix path = Some prefix ->
  normalize_file_path path = strip_two_segments (drop (String.length prefix) path).
Proof.
  unfold known_prefix, normalize_file_path. intros H.
  now rewrite strip_zuul_prefix_find, H.
Qed.

(** C5.  A path that begins with a known execution-root prefix loses the
    first such prefix of the ordered list and then, when at least three
    segments remain, the next two segments; a path that does not begin with
    the separator is returned as it is; and the two locations the
    specification works out normalise as it says. *)
Theorem normalize_file_path_policy :
  (forall path,
     (exists p, In p zuul_prefixes /\ startswith p path = true) ->
     exists prefix rest,
       In prefix zuul_prefixes /\ path = prefix ++ rest /\
       known_prefix path = Some prefix /\
       normalize_file_path path = strip_two_segments rest) /\
  (forall path, startswith "/" path = false -> normalize_file_path path = path) /\
  parse_location "/home/zuul/src/opendev.org/openstack/nova/nova/compute/manager.py:140"
    = (Some "nova/compute/manager.py", Some 140) /\
  parse_location "roles/ai_code_review/tasks/main.yaml:25"
    = (Some "roles/ai_code_review/tasks/main.yaml", Some 25).
Proof.
  split; [|split; [|split; reflexivity]].
  - intros path (p & Hin & Hp).
    destruct (known_prefix path) as [prefix|] eqn:E.
    + pose proof E as E'. unfold known_prefix in E'.
      apply find_some in E' as [Hin' Hpre].
      destruct (prefix_inv _ _ Hpre) as [rest ->].
      exists prefix, rest. repeat split; try assumption.
      now rewrite (normalize_known_prefix _ _ E), drop_app.
    + unfold known_prefix in E.
      apply (find_none _ _ E) in Hin. congruence.
  - intros path H. unfold normalize_file_path.
    rewrite strip_zuul_prefix_find.
    fold (known_prefix path). now rewrite (relative_no_prefix _ H), H.
Qed.

(** C5, an instance: a path under the shortest prefix, with exactly three
    segments after it. *)
Lemma normalize_file_path_policy_witness :
  exists prefix rest,
    In prefix zuul_prefixes /\ "/home/zuul/src/org/proj/a.py" = prefix ++ rest /\
    known_prefix "/home/zuul/src/org/proj/a.py" = Some prefix /\
    normalize_file_path "/home/zuul/src/org/proj/a.py" = strip_two_segments rest.
Proof.
  apply (proj1 normalize_file_path_policy).
  exists "/home/zuul/src/". split; [right; right; now left | reflexivity].
Defined.

(** ** The location pattern *)

Lemma span_spec (p : ascii -> bool) (s a r : string) :
  span p s = (a, r) ->
  s = a ++ r /\ all_chars p a = true /\
  match r with String c _ => p c = false | EmptyString => True end.
Proof.
  revert a r; induction s as [|c t IH]; intros a r; cbn [span].
  - intros [= <- <-]. now repeat split.
  - destruct (p c) eqn:E.
    + destruct (span p t) as [a' r'] eqn:E'. intros [= <- <-].
      destruct (IH _ _ eq_refl) as (-> & Ha & Hr).
      cbn [append all_chars]. now rewrite E, Ha.
    + intros [= <- <-]. now repeat split.
Qed.

Lemma span_app (p : ascii -> bool) (a r : string) :
  all_chars p a = true ->
  match r with String c _ => p c = false | EmptyString => True end ->
  span p (a ++ r) = (a, r).
Proof.
  intros Ha Hr. induction a as [|c a IH]; cbn [append span].
  - destruct r as [|c r]; [reflexivity|]. cbn [span]. now rewrite Hr.
  - cbn [all_chars] in Ha. apply andb_true_iff in Ha as [Hc Ha].
    now rewrite Hc, (IH Ha).
Qed.

Lemma span_all (p : ascii -> bool) (a : string) :
  all_chars p a = true -> span p a = (a, EmptyString).
Proof.
  intros Ha. rewrite <- (append_nil_r a) at 1. now apply span_app.
Qed.

Lemma eqb_empty_false (s : string) :
  s <> EmptyString -> String.eqb s EmptyString = false.
Proof. intros H. now apply String.eqb_neq. Qed.

Lemma range_then_end_ok (range : string) :
  range_ok range -> range_then_end range = true.
Proof.
  intros [-> | (e & -> & Hne & He)]; [reflexivity|].
  unfold range_then_end. cbn [append].
  rewrite (span_all _ _ He), (eqb_empty_false _ Hne).
  apply orb_true_r.
Qed.

Lemma range_first_not_digit (range : string) :
  range_ok range ->
  match range with String c _ => is_digit c = false | EmptyString => True end.
Proof. intros [-> | (e & -> & _)]; [exact I | reflexivity]. Qed.

Lemma location_match_complete (location path line : string) :
  location_grammar location path line ->
  location_match location = Some (path, line).
Proof.
  intros (range & -> & [Hp Hpc] & [Hl Hld] & Hr).
  unfold location_match.
  rewrite (span_app not_colon path (":" ++ line ++ range) Hpc eq_refl).
  cbn [append].
  rewrite (span_app is_digit line range Hld (range_first_not_digit _ Hr)).
  now rewrite (eqb_empty_false _ Hp), (eqb_empty_false _ Hl), (range_then_end_ok _ Hr).
Qed.

Lemma at_end_inv (s : string) :
  at_end s = true -> s = EmptyString \/ s = nl.
Proof.
  unfold at_end. intros H. apply orb_true_iff in H as [H|H];
    apply String.eqb_eq in H; auto.
Qed.

(** What the pattern accepts: a string of the grammar, possibly followed
    by one line feed. *)
Lemma location_match_sound (location g1 g2 : string) :
  location_match location = Some (g1, g2) ->
  exists s eol, location = s ++ eol /\ (eol = EmptyString \/ eol = nl) /\
                location_grammar s g1 g2.
Proof.
  unfold location_match.
  destruct (span not_colon location) as [a r1] eqn:E1.
  destruct r1 as [|c r2]; [discriminate|].
  destruct (span is_digit r2) as [b r3] eqn:E2.
  destruct (negb (String.eqb a EmptyString)) eqn:Ha; [|discriminate].
  destruct (Ascii.eqb_spec c ":") as [->|]; [|discriminate].
  destruct (negb (String.eqb b EmptyString)) eqn:Hb; [|discriminate].
  destruct (range_then_end r3) eqn:Hr; [|discriminate].
  intros [= <- <-]. cbn [andb] in *.
  apply negb_true_iff, String.eqb_neq in Ha, Hb.
  apply span_spec in E1 as (-> & Hac & _).
  apply span_spec in E2 as (-> & Hbd & _).
  unfold range_then_end in Hr. apply orb_true_iff in Hr as [Hr|Hr].
  - exists (a ++ ":" ++ b), r3. split; [|split].
    + now rewrite !append_assoc.
    + now apply at_end_inv.
    + exists EmptyString. rewrite append_nil_r.
      repeat split; try assumption. now left.
  - destruct r3 as [|d r4]; [discriminate|].
    destruct (span is_digit r4) as [e r5] eqn:E3.
    apply andb_true_iff in Hr as [Hr Hend].
    apply andb_true_iff in Hr as [Hd He].
    apply Ascii.eqb_eq in Hd as ->.
    apply negb_true_iff, String.eqb_neq in He.
    apply span_spec in E3 as (-> & Hed & _).
    exists (a ++ ":" ++ b ++ "-" ++ e), r5. split; [|split].
    + now rewrite !append_assoc.
    + now apply at_end_inv.
    + exists ("-" ++ e). repeat split; try assumption.
      right. exists e. now repeat split.
Qed.

Lemma digit_value (c : ascii) :
  is_digit c = true -> 0 <= Z.of_nat (nat_of_ascii c) - 48 <= 9.
Proof.
  unfold is_digit. intros H. apply andb_true_iff in H as [H1 H2].
  apply Nat.leb_le in H1, H2. lia.
Qed.

Lemma int_acc_nonneg (s : string) (acc : Z) :
  all_chars is_digit s = true -> 0 <= acc -> 0 <= int_acc s acc.
Proof.
  revert acc; induction s as [|c t IH]; intros acc H Hacc; [exact Hacc|].
  cbn [all_chars] in H. apply andb_true_iff in H as [Hc Ht].
  cbn [int_acc]. apply (IH _ Ht). pose proof (digit_value _ Hc). lia.
Qed.

Lemma last_char_app (a b : string) :
  b <> EmptyString -> last_char (a ++ b) = last_char b.
Proof.
  intros Hb. induction a as [|c a IH]; [reflexivity|].
  cbn [append last_char]. rewrite IH.
  destruct (a ++ b) eqn:E; [|reflexivity].
  destruct a; [now elim Hb | discriminate].
Qed.

Lemma last_is_digit_app (a b : string) :
  b <> EmptyString -> last_is_digit (a ++ b) = last_is_digit b.
Proof. intros Hb. unfold last_is_digit. now rewrite last_char_app. Qed.

Lemma digits_last (s : string) : digits s -> last_is_digit s = true.
Proof.
  intros [Hne Hd]. unfold last_is_digit.
  induction s as [|c t IH]; [now elim Hne|].
  cbn [all_chars] in Hd. apply andb_true_iff in Hd as [Hc Ht].
  destruct t as [|d t]; [exact Hc|].
  cbn [last_char]. apply IH; [discriminate | exact Ht].
Qed.

Lemma grammar_last_digit (location : string) :
  matches_grammar location -> last_is_digit location = true.
Proof.
  intros (path & line & range & -> & _ & Hl & Hr).
  destruct Hr as [-> | (e & -> & He)].
  - rewrite append_nil_r. rewrite (last_is_digit_app path (":" ++ line)) by discriminate.
    rewrite (last_is_digit_app ":" line) by (destruct Hl; assumption).
    now apply digits_last.
  - rewrite <- !append_assoc.
    rewrite last_is_digit_app by (destruct He; assumption).
    now apply digits_last.
Qed.




(** ** Severity *)

Lemma lower_char_idem (c : ascii) : lower_char (lower_char c) = lower_char c.
Proof. destruct c as [[] [] [] [] [] [] [] []]; reflexivity. Qed.

Lemma lower_idem (s : string) : lower (lower s) = lower s.
Proof.
  induction s as [|c t IH]; [reflexivity|].
  cbn [lower]. now rewrite lower_char_idem, IH.
Qed.

Lemma map_severity_cases (severity : string) :
  map_severity_to_level severity =
  if (String.eqb (lower severity) "critical" || String.eqb (lower severity) "high")%bool
  then "error"
  else if String.eqb (lower severity) "warning" then "warning" else "info".
Proof.
  unfold map_severity_to_level, severity_map. cbn [assoc].
  rewrite !(String.eqb_sym _ (lower severity)).
  destruct (String.eqb (lower severity) "critical"); [reflexivity|].
  destruct (String.eqb (lower severity) "high"); [reflexivity|].
  destruct (String.eqb (lower severity) "warning"); [reflexivity|].
  destruct (String.eqb (lower severity) "suggestion"); reflexivity.
Qed.

Lemma map_severity_range (severity : string) :
  In (map_severity_to_level severity) ci_levels.
Proof.
  rewrite map_severity_cases. unfold ci_levels.
  destruct (_ || _)%bool; [now left|].
  destruct (String.eqb _ _); [right; now left | right; right; now left].
Qed.

(** C9 (as the code has it).  The mapping is a total function into
    [{error, warning, info}]; it reads its input without regard to case:
    [critical] and [high] give [error], [warning] gives [warning],
    [suggestion] gives [info], and an input whose lower-case form is none of
    the four gives [info]. *)
Theorem map_severity_to_level_total (severity : string) :
  In (map_severity_to_level severity) ci_levels /\
  map_severity_to_level "critical" = "error" /\
  map_severity_to_level "high" = "error" /\
  map_severity_to_level "warning" = "warning" /\
  map_severity_to_level "suggestion" = "info" /\
  map_severity_to_level severity = map_severity_to_level (lower severity) /\
  (~ In (lower severity) known_severities ->
   map_severity_to_level severity = "info").
Proof.
  repeat split; try reflexivity.
  - apply map_severity_range.
  - now rewrite !map_severity_cases, lower_idem.
  - intros H. rewrite map_severity_cases. unfold known_severities in H.
    destruct (String.eqb_spec (lower severity) "critical") as [e|_];
      [elim H; rewrite e; now left|].
    destruct (String.eqb_spec (lower severity) "high") as [e|_];
      [elim H; rewrite e; right; now left|].
    destruct (String.eqb_spec (lower severity) "warning") as [e|_];
      [elim H; rewrite e; right; right; now left|].
    reflexivity.
Qed.

(** C9, an instance: an input the four-entry table does not list, sent to
    [info]. *)
Lemma map_severity_to_level_total_witness :
  map_severity_to_level "blocker" = "info".
Proof.
  apply (proj2 (proj2 (proj2 (proj2 (proj2 (proj2
          (map_severity_to_level_total "blocker"))))))).
  unfold known_severities. cbn. intuition discriminate.
Defined.

(** C9 as the specification words it fails: [HIGH] is none of the four
    strings of the table, yet it is not sent to [info]. *)
Lemma map_severity_upper_case_not_info :
  ~ In "HIGH" known_severities /\ map_severity_to_level "HIGH" = "error".
Proof.
  split; [|reflexivity].
  unfold known_severities. cbn. intuition discriminate.
Qed.

End ZuulFacts.

Module GenFacts.
Import Py Spec PyFacts MonadFacts ZuulComments ZuulFacts.

Section Generator.

Variable repr : json -> string.

(** ** The loop body *)

Lemma append_comment_set (path : string) (c : json) (fc : file_comments_t) :
  comment_record c -> comment_set fc -> comment_set (append_comment path c fc).
Proof.
  intros Hc. unfold comment_set. induction fc as [|[p cs] fc IH]; intros H.
  - cbn [append_comment]. repeat constructor. exact Hc.
  - inversion H as [|? ? Hcs Hfc]; subst. cbn [append_comment].
    destruct (String.eqb p path).
    + constructor; [|exact Hfc]. cbn [snd] in *.
      apply Forall_app. split; [exact Hcs | now constructor].
    + constructor; [exact Hcs | now apply IH].
Qed.

Lemma parse_location_line (loc path : string) (n : Z) :
  parse_location loc = (Some path, Some n) -> 0 <= n.
Proof.
  unfold parse_location.
  destruct (location_match loc) as [[g1 g2]|] eqn:E; [|discriminate].
  intros [= _ <-].
  apply location_match_sound in E as (s & eol & _ & _ & G).
  destruct G as (_ & _ & _ & [_ Hd] & _). now apply int_acc_nonneg.
Qed.

Lemma extract_issue_comment_set (label : string) (fc fc' : file_comments_t)
    (issue : json) :
  comment_set fc -> extract_issue repr label fc issue = inr fc' -> comment_set fc'.
Proof.
  intros Hfc. unfold extract_issue. intros H.
  apply bind_inr in H as (location & _ & H).
  destruct (negb (truthy location)); [now injection H as <-|].
  destruct location as [| | | |loc| |]; try discriminate.
  destruct (parse_location loc) as [file_path line_number] eqn:E.
  destruct (not_path file_path || not_line line_number)%bool eqn:Hn;
    [now injection H as <-|].
  destruct file_path as [path|]; [|now injection H as <-].
  destruct line_number as [n|]; [|now injection H as <-].
  apply bind_inr in H as (message & _ & H). injection H as <-.
  apply append_comment_set; [|exact Hfc].
  exists n, message, (map_severity_to_level label). split; [reflexivity|].
  apply orb_false_iff in Hn as [_ Hn]. cbn [not_line] in Hn.
  apply Z.eqb_neq in Hn. pose proof (parse_location_line _ _ _ E).
  split; [lia | apply map_severity_range].
Qed.

Lemma extract_severity_comment_set (issues : json) (fc fc' : file_comments_t)
    (severity : string) :
  comment_set fc -> extract_severity repr issues fc severity = inr fc' ->
  comment_set fc'.
Proof.
  intros Hfc. unfold extract_severity. intros H.
  apply bind_inr in H as (listed & _ & H).
  apply bind_inr in H as (elements & _ & H).
  revert H. apply foldM_invariant; [|exact Hfc].
  intros a x y Hx. now apply extract_issue_comment_set.
Qed.

Lemma extract_file_comments_comment_set (review_data : json) (fc : file_comments_t) :
  extract_file_comments repr review_data = inr fc -> comment_set fc.
Proof.
  unfold extract_file_comments. intros H.
  apply bind_inr in H as (issues & _ & H).
  revert H. apply foldM_invariant; [|constructor].
  intros a x y Hx. now apply extract_severity_comment_set.
Qed.

(** ** The generator's schema check on comment records *)

Lemma check_comment_record (path : string) (idx : nat) (c : json) :
  comment_record c -> check_comment repr path idx c = inr None.
Proof.
  intros (n & m & l & -> & _ & Hl).
  destruct Hl as [<- | [<- | [<- | []]]]; reflexivity.
Qed.

Lemma check_comments_records (path : string) (idx : nat) (cs : list json) :
  Forall comment_record cs -> check_comments repr path idx cs = inr None.
Proof.
  intros H. revert idx. induction H as [|c cs Hc _ IH]; intros idx; [reflexivity|].
  cbn [check_comments]. rewrite (check_comment_record _ _ _ Hc). apply IH.
Qed.

Lemma check_files_comment_set (fc : file_comments_t) :
  comment_set fc ->
  check_files repr (map (fun pc => (fst pc, JArr (snd pc))) fc) = inr None.
Proof.
  intros H. induction H as [|[p cs] fc Hcs _ IH]; [reflexivity|].
  cbn [map check_files fst snd].
  now rewrite (check_comments_records _ _ _ Hcs).
Qed.

(** The same records under the stand-alone validator. *)
Lemma validator_comment_record (path : string) (idx : nat) (c : json) :
  comment_record c -> SchemaValidator.check_comment repr path idx c = inr None.
Proof.
  intros (n & m & l & -> & _ & Hl).
  destruct Hl as [<- | [<- | [<- | []]]]; reflexivity.
Qed.

Lemma validator_comments_records (path : string) (idx : nat) (cs : list json) :
  Forall comment_record cs ->
  SchemaValidator.check_comments repr path idx cs = inr None.
Proof.
  intros H. revert idx. induction H as [|c cs Hc _ IH]; intros idx; [reflexivity|].
  cbn [SchemaValidator.check_comments].
  rewrite (validator_comment_record _ _ _ Hc). apply IH.
Qed.

Lemma validator_files_comment_set (fc : file_comments_t) :
  comment_set fc ->
  SchemaValidator.check_files repr (map (fun pc => (fst pc, JArr (snd pc))) fc)
  = inr None.
Proof.
  intros H. induction H as [|[p cs] fc Hcs _ IH]; [reflexivity|].
  cbn [map SchemaValidator.check_files fst snd].
  now rewrite (validator_comments_records _ _ _ Hcs).
Qed.

Lemma generated_data_shape (review_data zuul_data : json) :
  generate_zuul_return_data repr review_data = inr zuul_data ->
  exists file_comments,
    zuul_data = zuul_return file_comments /\ comment_set file_comments.
Proof.
  unfold generate_zuul_return_data. intros H.
  apply bind_inr in H as (fc & Hfc & H). injection H as <-.
  exists fc. split; [reflexivity|].
  now apply extract_file_comments_comment_set in Hfc.
Qed.

Lemma validate_zuul_schema_comment_set (fc : file_comments_t) :
  comment_set fc ->
  validate_zuul_schema repr (zuul_return fc) = inr (true, EmptyString).
Proof.
  intros Hfc. unfold validate_zuul_schema, zuul_return, file_comments_json.
  cbn [py_in py_getitem has_key lookup String.eqb Ascii.eqb Bool.eqb negb bind ret].
  now rewrite (check_files_comment_set _ Hfc).
Qed.

Lemma validate_schema_comment_set (fc : file_comments_t) :
  comment_set fc ->
  SchemaValidator.validate_schema repr (zuul_return fc)
  = inr (true, "Schema validation passed").
Proof.
  intros Hfc.
  unfold SchemaValidator.validate_schema, zuul_return, file_comments_json.
  cbn [py_in py_getitem has_key lookup String.eqb Ascii.eqb Bool.eqb negb bind ret].
  now rewrite (validator_files_comment_set _ Hfc).
Qed.

(** C10.  Whenever [generate_zuul_return_data] returns, what it returns is
    [{zuul: {file_comments: ...}}] over a file comment set whose every
    record has an integer line of at least 1, a string message and one of
    the three levels; the generator's own [validate_zuul_schema] accepts
    it, and so does the stand-alone [validate_schema]. *)
Theorem generated_data_passes_schema (review_data zuul_data : json) :
  generate_zuul_return_data repr review_data = inr zuul_data ->
  (exists file_comments,
     zuul_data = JObj [ ("zuul", JObj [ ("file_comments",
                                         file_comments_json file_comments) ]) ] /\
     comment_set file_comments) /\
  validate_zuul_schema repr zuul_data = inr (true, EmptyString) /\
  SchemaValidator.validate_schema repr zuul_data
    = inr (true, "Schema validation passed").
Proof.
  intros H. destruct (generated_data_shape _ _ H) as (fc & -> & Hfc).
  split; [now exists fc|]. split.
  - now apply validate_zuul_schema_comment_set.
  - now apply validate_schema_comment_set.
Qed.

(** The schema check of [main] cannot fail: no run ends in
    [SchemaInvalid]. *)
Lemma emit_never_schema_invalid (review_data : json) (err : string) :
  emit repr review_data <> SchemaInvalid err.
Proof.
  unfold emit.
  destruct (generate_zuul_return_data repr review_data) as [e|z] eqn:E;
    [discriminate|].
  destruct (generated_data_shape _ _ E) as (fc & -> & Hfc).
  now rewrite (validate_zuul_schema_comment_set _ Hfc).
Qed.

(** ** The message of a comment *)

Lemma if_key_dict (key : string) (d : dict) (parts : list json)
    (add : json -> list json) :
  if_key key (JObj d) parts add
  = inr (parts ++ match lookup key d with Some v => add v | None => [] end)%list.
Proof.
  unfold if_key, py_in, py_getitem, has_key. cbn [bind ret].
  destruct (lookup key d); cbn [bind ret]; [reflexivity | now rewrite app_nil_r].
Qed.

Lemma strs_all_str (parts : list json) :
  Forall (fun p => is_str p = true) parts ->
  exists ss, parts = map JStr ss /\ strs parts = inr ss.
Proof.
  induction 1 as [|p parts Hp _ (ss & -> & IH)]; [now exists []|].
  destruct p as [| | | |s| |]; try discriminate.
  exists (s :: ss). split; [reflexivity|]. cbn [strs]. now rewrite IH.
Qed.

Lemma join_contains (sep x : string) (l : list string) :
  In x l -> contains x (join sep l) = true.
Proof.
  induction l as [|y l IH]; [intros []|].
  intros [-> | Hin].
  - destruct l as [|z l]; [apply contains_refl|].
    cbn [join]. apply contains_app_l, contains_refl.
  - destruct l as [|z l]; [destruct Hin|].
    cbn [join]. rewrite <- append_assoc. apply contains_app_r. now apply IH.
Qed.

Lemma py_join_contains (sep x : string) (parts : list json) :
  Forall (fun p => is_str p = true) parts -> In (JStr x) parts ->
  exists m, py_join sep parts = inr m /\ contains x m = true.
Proof.
  intros Hall Hin. destruct (strs_all_str _ Hall) as (ss & -> & Hs).
  exists (join sep ss). unfold py_join. rewrite Hs. split; [reflexivity|].
  apply join_contains. apply in_map_iff in Hin as (y & [= ->] & Hy). exact Hy.
Qed.

(** [0.95] is the binary64 value nearest to 95/100, a little below it, and
    [.1f] rounds it down. *)
Lemma confidence_095 :
  Prim2SF 0.95%float = S754_finite false 8556839292003942 (-53) /\
  Z.abs (100 * 8556839292003942 - 95 * 2 ^ 53) * 2 <= 100 /\
  100 * 8556839292003942 < 95 * 2 ^ 53 /\
  format_1f (JFloat 0.95%float) = inr "0.9".
Proof. repeat split; vm_compute; congruence. Qed.

Lemma critical_message (d : dict) :
  lookup "confidence" d = Some (JFloat 0.95%float) ->
  lookup "risk" d = Some (JStr "High") ->
  (forall v, lookup "description" d = Some v -> is_str v = true) ->
  (forall v, lookup "recommendation" d = Some v -> is_str v = true) ->
  exists m,
    format_issue_message repr (JObj d) "critical" = inr m /\
    contains "**Severity**: CRITICAL | **Confidence**: 0.9" m = true /\
    contains "**Risk**: High" m = true.
Proof.
  intros Hconf Hrisk Hdesc Hrec.
  unfold format_issue_message. cbn [py_get bind ret].
  rewrite Hconf. destruct confidence_095 as (_ & _ & _ & ->). cbn [bind].
  change (String.eqb "critical" "critical" || String.eqb "critical" "high")%bool
    with true. cbn iota.
  repeat (rewrite if_key_dict; cbn [bind]). rewrite Hrisk.
  match goal with |- exists m, py_join nl ?P = _ /\ _ => set (parts := P) end.
  assert (Hall : Forall (fun p => is_str p = true) parts).
  { subst parts. repeat (apply Forall_app; split); repeat constructor.
    - destruct (lookup "description" d) eqn:E; [now apply Hdesc | reflexivity].
    - destruct (lookup "remediation_priority" d); repeat constructor.
    - destruct (lookup "why_matters" d); repeat constructor.
    - destruct (lookup "recommendation" d) eqn:E; repeat constructor.
      now apply Hrec. }
  destruct (py_join_contains nl "**Severity**: CRITICAL | **Confidence**: 0.9"
              parts Hall) as (m & Hm & Hsev).
  { subst parts. rewrite !in_app_iff. do 5 left. right. now left. }
  destruct (py_join_contains nl "**Risk**: High" parts Hall) as (m' & Hm' & Hr).
  { subst parts. rewrite !in_app_iff. do 3 left. right. now left. }
  exists m. rewrite Hm in Hm'. injection Hm' as <-. now repeat split.
Qed.

Lemma rstrip_labels :
  rstrip "s" "critical" = "critical" /\ rstrip "s" "high" = "high" /\
  rstrip "s" "warnings" = "warning" /\ rstrip "s" "suggestions" = "suggestion".
Proof. repeat split; reflexivity. Qed.

(** C1 (as the code has it).  A review whose only issue is filed under
    [critical] with confidence 0.95, location [x.py:10] and risk [High]
    (its description and recommendation, when present, being strings)
    gives exactly one comment record, under [x.py], with line 10, level
    [error], and a message that holds the line
    [**Severity**: CRITICAL | **Confidence**: 0.9] and the line
    [**Risk**: High]: the labels carry Markdown emphasis, and 0.95, stored
    as the binary64 value just below it, is formatted as 0.9. *)
Theorem critical_issue_comment (review_data d : dict) :
  lookup "issues" review_data = Some (JObj [ ("critical", JArr [ JObj d ]) ]) ->
  lookup "confidence" d = Some (JFloat 0.95%float) ->
  lookup "location" d = Some (JStr "x.py:10") ->
  lookup "risk" d = Some (JStr "High") ->
  (forall v, lookup "description" d = Some v -> is_str v = true) ->
  (forall v, lookup "recommendation" d = Some v -> is_str v = true) ->
  exists message,
    extract_file_comments repr (JObj review_data)
    = inr [ ("x.py", [ JObj [ ("line", JInt 10); ("message", JStr message);
                             ("level", JStr "error") ] ]) ] /\
    contains "**Severity**: CRITICAL | **Confidence**: 0.9" message = true /\
    contains "**Risk**: High" message = true.
Proof.
  intros Hissues Hconf Hloc Hrisk Hdesc Hrec.
  destruct (critical_message d Hconf Hrisk Hdesc Hrec) as (m & Hm & Hsev & Hr).
  exists m. split; [|now split].
  unfold extract_file_comments. cbn [py_get bind ret]. rewrite Hissues.
  unfold severities. cbn [foldM].
  assert (Hfirst : extract_severity repr (JObj [ ("critical", JArr [ JObj d ]) ])
                     [] "critical"
                   = inr [ ("x.py", [ JObj [ ("line", JInt 10); ("message", JStr m);
                                            ("level", JStr "error") ] ]) ]).
  { unfold extract_severity. destruct rstrip_labels as (-> & _).
    cbn [py_get lookup String.eqb Ascii.eqb Bool.eqb bind ret py_iter foldM].
    unfold extract_issue. cbn [py_get bind ret]. rewrite Hloc.
    cbn [truthy String.eqb negb].
    change (parse_location "x.py:10") with (Some "x.py", Some 10).
    cbn [not_path not_line String.eqb Z.eqb orb]. rewrite Hm. reflexivity. }
  rewrite Hfirst. reflexivity.
Qed.

(** ** Issues without a usable location *)

Lemma extract_issue_unlocated (label : string) (fc : file_comments_t)
    (issue : json) :
  unlocated issue -> extract_issue repr label fc issue = inr fc.
Proof.
  intros (d & -> & [Hnone | (loc & Hloc & Hparse)]);
    unfold extract_issue; cbn [py_get bind ret].
  - now rewrite Hnone.
  - rewrite Hloc. destruct (negb (truthy (JStr loc))); [reflexivity|].
    now rewrite Hparse.
Qed.

Lemma extract_severity_without (issues : dict) (key : string)
    (l1 l2 : list json) (issue : json) (fc : file_comments_t) (severity : string) :
  lookup key issues = Some (JArr (l1 ++ issue :: l2)) ->
  unlocated issue ->
  extract_severity repr (JObj issues) fc severity
  = extract_severity repr (JObj (dict_set key (JArr (l1 ++ l2)) issues)) fc severity.
Proof.
  intros Hkey Hun. unfold extract_severity. cbn [py_get bind ret].
  destruct (String.eqb_spec key severity) as [<-|ne].
  - rewrite lookup_dict_set_same, Hkey. cbn [py_iter bind ret].
    rewrite !foldM_app. cbn [foldM].
    destruct (foldM (extract_issue repr (rstrip "s" key)) l1 fc) as [e|fc1];
      [reflexivity|].
    cbn [bind]. now rewrite (extract_issue_unlocated _ _ _ Hun).
  - now rewrite (lookup_dict_set_other _ _ _ _ ne).
Qed.

Lemma extract_file_comments_without (review_data issues : dict) (key : string)
    (l1 l2 : list json) (issue : json) :
  lookup "issues" review_data = Some (JObj issues) ->
  lookup key issues = Some (JArr (l1 ++ issue :: l2)) ->
  unlocated issue ->
  extract_file_comments repr (JObj review_data)
  = extract_file_comments repr
      (JObj (dict_set "issues" (JObj (dict_set key (JArr (l1 ++ l2)) issues))
               review_data)).
Proof.
  intros Hissues Hkey Hun. unfold extract_file_comments. cbn [py_get bind ret].
  rewrite lookup_dict_set_same, Hissues.
  apply foldM_ext. intros severity fc _.
  now apply (extract_severity_without issues key l1 l2 issue).
Qed.

(** ** Reading the review *)

Variable raw_decode : string -> nat -> result (json * nat).
Variable valid : string -> json -> Prop.
Hypothesis raw_decode_contract : decodes_longest_prefix valid raw_decode.


End Generator.

(** ** Instances *)

(** C1, an instance: the issue with description [d]. *)
Lemma critical_issue_comment_witness :
  exists message,
    extract_file_comments plain_repr (JObj sample_review)
    = inr [ ("x.py", [ JObj [ ("line", JInt 10); ("message", JStr message);
                             ("level", JStr "error") ] ]) ] /\
    contains "**Severity**: CRITICAL | **Confidence**: 0.9" message = true /\
    contains "**Risk**: High" message = true.
Proof.
  apply (critical_issue_comment plain_repr sample_review sample_issue);
    try reflexivity.
  - intros v [= <-]. reflexivity.
  - intros v [=].
Defined.

(** C1 as the specification words it fails: on the issue with description
    [d] the one record is as specified but for its message, which holds
    neither [Severity: CRITICAL | Confidence: 1.0] nor [Risk: High]. *)
Lemma critical_issue_message_not_as_specified :
  extract_file_comments plain_repr (JObj sample_review) = inr sample_comments /\
  contains "Severity: CRITICAL | Confidence: 1.0" sample_message = false /\
  contains "Risk: High" sample_message = false.
Proof. repeat split; vm_compute; reflexivity. Qed.

(** C10, an instance: the data generated from the sample review. *)
Lemma generated_data_passes_schema_witness :
  (exists file_comments,
     zuul_return sample_comments
     = JObj [ ("zuul", JObj [ ("file_comments",
                               file_comments_json file_comments) ]) ] /\
     comment_set file_comments) /\
  validate_zuul_schema plain_repr (zuul_return sample_comments)
    = inr (true, EmptyString) /\
  SchemaValidator.validate_schema plain_repr (zuul_return sample_comments)
    = inr (true, "Schema validation passed").
Proof.
  apply (generated_data_passes_schema plain_repr (JObj sample_review)).
  vm_compute. reflexivity.
Defined.

(** The decoder of the empty object meets the contract for its grammar. *)
Lemma decode_empty_object_contract :
  decodes_longest_prefix empty_object_text decode_empty_object.
Proof.
  split.
  - intros s v stop. unfold decode_empty_object. cbn [drop].
    destruct (startswith "{}" s) eqn:E; [|discriminate].
    intros [= <- <-]. destruct (prefix_inv _ _ E) as [rest ->].
    exists "{}", rest. repeat split.
    intros p' rest' v' _ [-> _]. apply Nat.le_refl.
  - intros p rest v [-> ->]. exists (JObj []), 2%nat.
    unfold decode_empty_object, startswith. cbn [drop append].
    rewrite !prefix_cons, prefix_nil. reflexivity.
Qed.


(** The second attempt starts at index 0 and skips nothing, where the first
    skips white space: a text whose value comes after a space and before
    other text is refused, with the position of the second attempt. *)
Lemma leading_space_is_refused :
  loads decode_empty_object " {} done" = inl (JSONDecodeError "Extra data" 4) /\
  load_json_with_trailing_text decode_empty_object " {} done"
  = inl (JSONDecodeError "No valid JSON found in file: Expecting value" 0).
Proof. split; reflexivity. Qed.

End GenFacts.

(* ================================================================== *)
(** * The stand-alone validator *)
(* ================================================================== *)

Module ValidatorFacts.
Import Py Spec PyFacts MonadFacts SchemaValidator.

Section Validator.

Variable repr : json -> string.

Lemma level_accepted_in (level : json) :
  level_accepted level = true -> not_in_valid_levels level = inr false.
Proof.
  destruct level; try discriminate. cbn [level_accepted not_in_valid_levels].
  now intros ->.
Qed.

Lemma level_refused (level : json) :
  hashable level = true -> level_accepted level = false ->
  not_in_valid_levels level = inr true.
Proof.
  destruct level; try discriminate; try reflexivity.
  cbn [level_accepted not_in_valid_levels]. now intros _ ->.
Qed.

Lemma check_comment_passes (path : string) (i : nat) (c : json) :
  record_passes c = true -> check_comment repr path i c = inr None.
Proof.
  destruct c as [| | | | | |d]; try discriminate.
  unfold record_passes, check_comment.
  cbn [is_dict negb py_in py_getitem bind ret]. unfold has_key.
  destruct (lookup "message" d); [|discriminate]. cbn [negb andb].
  destruct (lookup "level" d) as [l|]; cbn [bind ret].
  - destruct (level_accepted l) eqn:E; [|discriminate].
    rewrite (level_accepted_in _ E). cbn [bind ret andb].
    destruct (lookup "line" d) as [n|]; cbn [bind ret]; [|reflexivity].
    now intros ->.
  - destruct (lookup "line" d) as [n|]; cbn [bind ret andb]; [|reflexivity].
    now intros ->.
Qed.

Lemma check_comments_skip (path : string) (cs1 rest : list json) (i : nat) :
  forallb record_passes cs1 = true ->
  check_comments repr path i (cs1 ++ rest)
  = check_comments repr path (i + List.length cs1) rest.
Proof.
  revert i; induction cs1 as [|c cs1 IH]; intros i H.
  - cbn [app List.length]. now rewrite Nat.add_0_r.
  - cbn [forallb] in H. apply andb_true_iff in H as [Hc Hcs].
    cbn [app check_comments List.length].
    rewrite (check_comment_passes _ _ _ Hc). cbn [bind].
    rewrite (IH _ Hcs). f_equal. lia.
Qed.

Lemma check_files_skip (before rest : dict) :
  forallb file_passes before = true ->
  check_files repr (before ++ rest)%list = check_files repr rest.
Proof.
  induction before as [|[p v] before IH]; intros H; [reflexivity|].
  cbn [forallb] in H. apply andb_true_iff in H as [Hv Hb].
  unfold file_passes in Hv. cbn [snd] in Hv.
  destruct v as [| | | | |cs|]; try discriminate.
  cbn [app check_files].
  rewrite <- (app_nil_r cs), (check_comments_skip _ _ _ _ Hv).
  cbn [check_comments bind]. now apply IH.
Qed.

(** The validator on a payload whose [file_comments] is a dict. *)
Lemma validate_schema_files (d z fc : dict) :
  lookup "zuul" d = Some (JObj z) ->
  lookup "file_comments" z = Some (JObj fc) ->
  validate_schema repr (JObj d)
  = match check_files repr fc with
    | inl e => inl e
    | inr (Some err) => inr (false, err)
    | inr None => inr (true, "Schema validation passed")
    end.
Proof.
  intros Hz Hfc. unfold validate_schema, py_in, py_getitem, has_key.
  cbn [bind ret]. rewrite Hz. cbn [bind ret negb]. rewrite Hfc. cbn [bind ret negb].
  destruct (check_files repr fc) as [e|[err|]]; reflexivity.
Qed.

(** The validator at the first record that does not pass. *)
Lemma validate_schema_at (d z before after : dict) (path : string)
    (cs1 cs2 : list json) (c : json) :
  lookup "zuul" d = Some (JObj z) ->
  lookup "file_comments" z
    = Some (JObj (before ++ (path, JArr (cs1 ++ c :: cs2)) :: after)%list) ->
  forallb file_passes before = true ->
  forallb record_passes cs1 = true ->
  forall err,
    check_comment repr path (List.length cs1) c = inr (Some err) ->
    validate_schema repr (JObj d) = inr (false, err).
Proof.
  intros Hz Hfc Hb Hcs err Hc.
  rewrite (validate_schema_files _ _ _ Hz Hfc), (check_files_skip _ _ Hb).
  cbn [check_files]. rewrite (check_comments_skip _ _ _ _ Hcs).
  cbn [check_comments Nat.add]. now rewrite Hc.
Qed.


(** The payloads without a violation are accepted. *)
Lemma validate_schema_accepts (d z fc : dict) :
  lookup "zuul" d = Some (JObj z) ->
  lookup "file_comments" z = Some (JObj fc) ->
  forallb file_passes fc = true ->
  validate_schema repr (JObj d) = inr (true, "Schema validation passed").
Proof.
  intros Hz Hfc H. rewrite (validate_schema_files _ _ _ Hz Hfc).
  rewrite <- (app_nil_r fc), (check_files_skip _ _ H). reflexivity.
Qed.

End Validator.



End ValidatorFacts.

(* ================================================================== *)
(** * The HTML renderer *)
(* ================================================================== *)

Module HtmlFacts.
Import Py Spec PyFacts MonadFacts RenderHtml.

(** ** Escaping *)

Lemma replace_from_char (c : ascii) (r s : string) :
  replace_from (String c EmptyString) r s 0 = subst_char c r s.
Proof.
  induction s as [|x t IH]; [reflexivity|].
  cbn [replace_from subst_char]. rewrite prefix_cons, prefix_nil, andb_true_r.
  cbn [String.length Nat.sub]. rewrite IH. reflexivity.
Qed.

Lemma replace_char (c : ascii) (r s : string) :
  replace (String c EmptyString) r s = subst_char c r s.
Proof. apply replace_from_char. Qed.

(** The five replacements in sequence replace each character by its
    entity: the ampersands the later replacements bring in are not escaped
    again, because the ampersand is replaced first. *)
Lemma escape_chain (s : string) :
  subst_char "'" "&#39;"
    (subst_char dq_char "&quot;"
       (subst_char ">" "&gt;"
          (subst_char "<" "&lt;"
             (subst_char "&" "&amp;" s))))
  = escaped s.
Proof.
  induction s as [|x t IH]; [reflexivity|].
  cbn [escaped]. rewrite <- IH. unfold entity.
  destruct (Ascii.eqb_spec x "&") as [->|n1]; [reflexivity|].
  destruct (Ascii.eqb_spec x "<") as [->|n2]; [reflexivity|].
  destruct (Ascii.eqb_spec x ">") as [->|n3]; [reflexivity|].
  destruct (Ascii.eqb_spec x dq_char) as [->|n4]; [reflexivity|].
  destruct (Ascii.eqb_spec x "'") as [->|n5]; [reflexivity|].
  cbn [subst_char append].
  rewrite (proj2 (Ascii.eqb_neq "&" x)) by congruence. cbn [subst_char].
  rewrite (proj2 (Ascii.eqb_neq "<" x)) by congruence. cbn [subst_char].
  rewrite (proj2 (Ascii.eqb_neq ">" x)) by congruence. cbn [subst_char].
  rewrite (proj2 (Ascii.eqb_neq dq_char x)) by congruence. cbn [subst_char].
  rewrite (proj2 (Ascii.eqb_neq "'" x)) by congruence. reflexivity.
Qed.

Lemma escaped_app (a b : string) : escaped (a ++ b) = escaped a ++ escaped b.
Proof.
  induction a as [|c a IH]; [reflexivity|].
  cbn [append escaped]. now rewrite IH, append_assoc.
Qed.

Lemma markup_app (a b : string) : markup (a ++ b) = markup a ++ markup b.
Proof.
  induction a as [|x a IH]; [reflexivity|].
  cbn [append markup]. rewrite IH. now destruct (markup_char x).
Qed.

Lemma markup_entity (c : ascii) : markup (entity c) = EmptyString.
Proof.
  unfold entity.
  destruct (Ascii.eqb_spec c "&"); [reflexivity|].
  destruct (Ascii.eqb_spec c "<") as [|n2]; [reflexivity|].
  destruct (Ascii.eqb_spec c ">") as [|n3]; [reflexivity|].
  destruct (Ascii.eqb_spec c dq_char) as [|n4]; [reflexivity|].
  destruct (Ascii.eqb_spec c "'") as [|n5]; [reflexivity|].
  cbn [markup]. unfold markup_char.
  apply Ascii.eqb_neq in n2, n3, n4, n5. now rewrite n2, n3, n4, n5.
Qed.

Lemma markup_escaped (s : string) : markup (escaped s) = EmptyString.
Proof.
  induction s as [|c t IH]; [reflexivity|].
  cbn [escaped]. now rewrite markup_app, markup_entity, IH.
Qed.

(** ** Rewritten mappings *)

Lemma lookup_map_values (keys : list string) (f : json -> json) (d : dict)
    (k : string) :
  lookup k (map_values keys f d)
  = option_map (if existsb (String.eqb k) keys then f else fun v => v) (lookup k d).
Proof.
  induction d as [|[k' v] d IH]; [reflexivity|].
  cbn [map_values map fst snd] in *.
  destruct (String.eqb_spec k' k) as [->|ne].
  - destruct (existsb (String.eqb k) keys); cbn [lookup fst snd];
      rewrite String.eqb_refl; reflexivity.
  - assert (E : String.eqb k' k = false) by now apply String.eqb_neq.
    destruct (existsb (String.eqb k') keys); cbn [lookup]; rewrite E; exact IH.
Qed.

Lemma markup_join (sep : string) (l : list string) :
  markup (join sep l) = join (markup sep) (map markup l).
Proof.
  induction l as [|a l IH]; [reflexivity|].
  destruct l as [|b l]; [reflexivity|].
  cbn [join map] in *. now rewrite !markup_app, IH.
Qed.

Lemma rel_result_bind {A B} (RA : A -> A -> Prop) (RB : B -> B -> Prop)
    (m m' : result A) (k k' : A -> result B) :
  rel_result RA m m' ->
  (forall a a', RA a a' -> rel_result RB (k a) (k' a')) ->
  rel_result RB (bind m k) (bind m' k').
Proof.
  destruct m as [e|a], m' as [e'|a']; cbn [rel_result bind]; try contradiction.
  - now intros -> _.
  - intros H Hk. now apply Hk.
Qed.

Lemma markup_of_rel (r r' : result string) :
  markup_of r = markup_of r' <-> rel_result same_markup r r'.
Proof.
  unfold same_markup.
  destruct r as [e|a], r' as [e'|a']; cbn [markup_of rel_result];
    split; intros H; try discriminate; try contradiction;
    try (now injection H); now rewrite H.
Qed.

Section Renderer.

Variable repr : json -> string.
Variable CSS_STYLES : string.

Lemma escape_html_escaped (v : json) :
  escape_html repr v = escaped (py_str repr v).
Proof.
  unfold escape_html. unfold dq. rewrite !replace_char. apply escape_chain.
Qed.

Lemma markup_escape_html (v : json) : markup (escape_html repr v) = EmptyString.
Proof. rewrite escape_html_escaped. apply markup_escaped. Qed.

(** ** Sections whose free text is rewritten *)

Variable g : json -> json.

Lemma context_section_markup (context : json) :
  markup_of (render_context_section repr
               (on_dict (map_values context_text_keys g) context))
  = markup_of (render_context_section repr context).
Proof.
  destruct context as [| | | | | |d]; [reflexivity ..|].
  unfold render_context_section. cbn [on_dict py_get bind ret markup_of].
  rewrite !markup_app, !markup_escape_html. reflexivity.
Qed.

Lemma summary_section_markup (summary statistics : json) :
  markup_of (render_summary_section repr
               (on_dict (map_values summary_text_keys g) summary) statistics)
  = markup_of (render_summary_section repr summary statistics).
Proof.
  destruct summary as [| | | | | |d]; [reflexivity ..|].
  unfold render_summary_section. cbn [on_dict py_get bind ret].
  destruct statistics as [| | | | | |st]; [reflexivity ..|].
  cbn [py_get bind ret markup_of].
  rewrite !markup_app, !markup_escape_html. reflexivity.
Qed.

Lemma detail_dict (label key : string) (d : dict) (parts : list string) :
  detail repr label key (JObj d) parts
  = inr (parts ++ detail_line repr label key d)%list.
Proof.
  unfold detail, detail_line, py_in, py_getitem, has_key. cbn [bind ret].
  destruct (lookup key d); cbn [bind ret]; [reflexivity | now rewrite app_nil_r].
Qed.

Lemma detail_line_markup (label key : string) (d : dict) :
  existsb (String.eqb key) issue_text_keys = true ->
  map markup (detail_line repr label key (map_values issue_text_keys g d))
  = map markup (detail_line repr label key d).
Proof.
  intros Hk. unfold detail_line. rewrite lookup_map_values, Hk.
  destruct (lookup key d); [|reflexivity].
  cbn [option_map map]. now rewrite !markup_app, !markup_escape_html.
Qed.

Lemma issue_card_markup (issue : json) (severity : string) (number total : nat) :
  markup_of (render_issue_card repr (retext_issue g issue) severity number total)
  = markup_of (render_issue_card repr issue severity number total).
Proof.
  destruct issue as [| | | | | |d]; [reflexivity ..|].
  unfold render_issue_card, retext_issue. cbn [on_dict py_get bind ret].
  rewrite !lookup_map_values.
  change (existsb (String.eqb "confidence") issue_text_keys) with false.
  destruct (lookup "confidence" d) as [conf|]; cbn [option_map].
  all: destruct (badge severity) as [icon label].
  all: destruct (String.eqb severity "critical" || String.eqb severity "high")%bool;
    [|destruct (String.eqb severity "warning");
      [|destruct (String.eqb severity "suggestion")]].
  all: repeat (rewrite detail_dict; cbn [bind ret]).
  all: cbn [bind ret].
  all: match goal with
       | |- markup_of (bind ?r _) = _ =>
           destruct r as [e|c]; cbn [bind ret markup_of]; [reflexivity|]
       end.
  all: rewrite ?markup_app, ?markup_escape_html, ?markup_join, ?map_app.
  all: rewrite ?detail_line_markup by reflexivity.
  all: cbn [map]; rewrite !markup_app, !markup_escape_html; reflexivity.
Qed.

Lemma render_cards_markup (severity : string) (number total : nat)
    (listed : list json) :
  rel_result same_markups
    (render_cards repr severity number total (map (retext_issue g) listed))
    (render_cards repr severity number total listed).
Proof.
  revert number; induction listed as [|issue rest IH]; intros number;
    [reflexivity|].
  cbn [map render_cards].
  apply (rel_result_bind same_markup).
  - apply markup_of_rel, issue_card_markup.
  - intros card' card Hc. apply (rel_result_bind same_markups); [apply IH|].
    intros cards' cards Hcs. cbn [ret rel_result]. unfold same_markups in *.
    cbn [map]. now rewrite Hc, Hcs.
Qed.

Lemma truthy_on_list (f : json -> json) (obj : json) :
  truthy (on_list f obj) = truthy obj.
Proof. destruct obj as [| | | | |l|]; try reflexivity. now destruct l. Qed.

Lemma py_len_on_list (f : json -> json) (obj : json) :
  py_len (on_list f obj) = py_len obj.
Proof.
  destruct obj as [| | | | |l|]; try reflexivity.
  cbn [on_list py_len]. apply length_map.
Qed.

Lemma rel_result_refl {A} (R : A -> A -> Prop) (r : result A) :
  (forall a, R a a) -> rel_result R r r.
Proof. intros H. destruct r; cbn [rel_result]; auto. Qed.

Lemma issue_block_markup (issues : json) (key severity aria heading : string)
    (html_parts' html_parts : list string) :
  existsb (String.eqb key) ZuulComments.severities = true ->
  same_markups html_parts' html_parts ->
  rel_result same_markups
    (render_issue_block repr (retext_issues g issues) key severity aria heading
       html_parts')
    (render_issue_block repr issues key severity aria heading html_parts).
Proof.
  intros Hkey Hparts. unfold same_markups in Hparts.
  assert (Hsection : forall (opening title : string) cards' cards,
             same_markups cards' cards ->
             same_markups
               (html_parts' ++ [opening] ++ [title] ++ cards' ++ ["</section>"])%list
               (html_parts ++ [opening] ++ [title] ++ cards ++ ["</section>"])%list).
  { intros opening title cards' cards Hc. unfold same_markups in *.
    rewrite !map_app. now rewrite Hparts, Hc. }
  destruct issues as [| | | | | |d]; [reflexivity ..|].
  unfold render_issue_block, retext_issues. cbn [on_dict py_get bind ret].
  rewrite lookup_map_values, Hkey.
  destruct (lookup key d) as [listed|]; cbn [option_map].
  - rewrite truthy_on_list, py_len_on_list.
    destruct (truthy listed).
    + destruct listed as [| | | | |l|]; cbn [on_list py_iter ret raise bind];
        try exact eq_refl.
      * apply (rel_result_bind same_markups);
          [apply rel_result_refl; reflexivity|].
        intros cards' cards Hc. now apply Hsection.
      * apply (rel_result_bind same_markups); [apply render_cards_markup|].
        intros cards' cards Hc. now apply Hsection.
      * apply (rel_result_bind same_markups);
          [apply rel_result_refl; reflexivity|].
        intros cards' cards Hc. now apply Hsection.
    + cbv zeta. cbn [ret rel_result]. unfold same_markups.
      rewrite !map_app. now rewrite Hparts.
  - cbn [truthy]. cbv zeta. cbn [ret rel_result]. unfold same_markups.
    rewrite !map_app. now rewrite Hparts.
Qed.

Lemma all_issues_markup (issues : json) :
  markup_of (render_all_issues repr (retext_issues g issues))
  = markup_of (render_all_issues repr issues).
Proof.
  apply markup_of_rel. unfold render_all_issues.
  repeat (apply (rel_result_bind same_markups);
          [apply issue_block_markup; [reflexivity | assumption || reflexivity]
          | intros ? ? ?]).
  cbn [ret rel_result]. unfold same_markup, same_markups in *.
  rewrite !markup_join. congruence.
Qed.

Lemma observation_markup (obs : json) :
  rel_result same_markup (render_observation repr (retext_observation g obs))
    (render_observation repr obs).
Proof.
  destruct obs as [| | | | | |d]; [reflexivity ..|].
  unfold render_observation, retext_observation.
  cbn [on_dict py_get bind ret rel_result]. unfold same_markup.
  now rewrite !markup_app, !markup_escape_html.
Qed.

Lemma observations_list_markup (l : list json) :
  rel_result same_markups
    (mapM (render_observation repr) (map (retext_observation g) l))
    (mapM (render_observation repr) l).
Proof.
  induction l as [|obs l IH]; [reflexivity|].
  cbn [map mapM].
  apply (rel_result_bind same_markup); [apply observation_markup|].
  intros x' x Hx. apply (rel_result_bind same_markups); [apply IH|].
  intros xs' xs Hxs. cbn [ret rel_result]. unfold same_markup, same_markups in *.
  cbn [map]. now rewrite Hx, Hxs.
Qed.

Lemma positive_observations_markup (observations : json) :
  markup_of (render_positive_observations repr
               (on_list (retext_observation g) observations))
  = markup_of (render_positive_observations repr observations).
Proof.
  apply markup_of_rel. unfold render_positive_observations.
  rewrite truthy_on_list.
  destruct (truthy observations); cbn [negb]; [|reflexivity].
  assert (Hfinal : forall obs_html' obs_html,
             same_markups obs_html' obs_html ->
             rel_result same_markup
               (ret (tpl "<section role=`region` aria-label=`Positive observations`>
<h2>Positive Observations</h2>
<div class=`positive-observation`>
<ul>
" ++ join EmptyString obs_html' ++ "
</ul>
</div>
</section>
"))
               (ret (tpl "<section role=`region` aria-label=`Positive observations`>
<h2>Positive Observations</h2>
<div class=`positive-observation`>
<ul>
" ++ join EmptyString obs_html ++ "
</ul>
</div>
</section>
"))).
  { intros xs' xs Hxs. cbn [ret rel_result]. unfold same_markup, same_markups in *.
    rewrite !markup_app, !markup_join. now rewrite Hxs. }
  destruct observations as [| | | | |l|]; cbn [on_list py_iter ret raise bind];
    try exact eq_refl.
  - apply (rel_result_bind same_markups);
      [apply rel_result_refl; reflexivity | exact Hfinal].
  - apply (rel_result_bind same_markups);
      [apply observations_list_markup | exact Hfinal].
  - apply (rel_result_bind same_markups);
      [apply rel_result_refl; reflexivity | exact Hfinal].
Qed.

Lemma option_map_id {A} (o : option A) : option_map (fun v => v) o = o.
Proof. now destruct o. Qed.

Lemma get_default_map (f : json -> json) (o : option json) (dflt : json) :
  f dflt = dflt ->
  match option_map f o with Some v => v | None => dflt end
  = f (match o with Some v => v | None => dflt end).
Proof. intros H. now destruct o. Qed.

Lemma html_template_markup (review_data : json) :
  markup_of (render_html_template repr CSS_STYLES (retext_review g review_data))
  = markup_of (render_html_template repr CSS_STYLES review_data).
Proof.
  destruct review_data as [| | | | | |d]; [reflexivity ..|].
  unfold render_html_template, retext_review. cbn [on_dict py_get bind ret].
  rewrite !lookup_map_values.
  cbn [existsb String.eqb Ascii.eqb Bool.eqb orb andb].
  rewrite !option_map_id.
  rewrite !get_default_map by reflexivity.
  apply markup_of_rel.
  apply (rel_result_bind same_markup);
    [apply markup_of_rel, context_section_markup | intros context_html' context_html Hc].
  apply (rel_result_bind same_markup);
    [apply rel_result_refl; reflexivity | intros stats_html' stats_html Hs].
  apply (rel_result_bind same_markup);
    [apply markup_of_rel, all_issues_markup | intros issues_html' issues_html Hi].
  apply (rel_result_bind same_markup);
    [apply markup_of_rel, positive_observations_markup
    | intros positive_html' positive_html Hp].
  apply (rel_result_bind same_markup);
    [apply markup_of_rel, summary_section_markup
    | intros summary_html' summary_html Hm].
  cbn [ret rel_result]. unfold same_markup in *.
  rewrite !markup_app. now rewrite Hc, Hs, Hi, Hp, Hm.
Qed.

End Renderer.

(** The review with a script element for description, rendered: the
    description is there in its escaped form, and the document has no script
    tag. *)
Lemma script_description_rendered :
  exists html,
    render_html_template plain_repr EmptyString script_review = inr html /\
    contains "&lt;script&gt;alert(1)&lt;/script&gt;" html = true /\
    contains "<script" html = false.
Proof. eexists. repeat split; vm_compute; reflexivity. Qed.

End HtmlFacts.

Module StatFacts.
Import Py Spec PyFacts MonadFacts RenderHtml.

Section Renderer.

Variable repr : json -> string.

Lemma statistics_section_layout (d : dict) :
  render_statistics_section repr (JObj d)
  = inr (stats_block (shown repr d "critical") (shown repr d "high")
           (shown repr d "warnings") (shown repr d "suggestions")
           (shown repr d "total")).
Proof.
  unfold render_statistics_section, stats_block, stat_number, shown.
  cbn [py_get bind ret].
  generalize (py_str repr match lookup "critical" d with Some v => v | None => JInt 0 end).
  generalize (py_str repr match lookup "high" d with Some v => v | None => JInt 0 end).
  generalize (py_str repr match lookup "warnings" d with Some v => v | None => JInt 0 end).
  generalize (py_str repr match lookup "suggestions" d with Some v => v | None => JInt 0 end).
  generalize (py_str repr match lookup "total" d with Some v => v | None => JInt 0 end).
  intros t s w h c. apply f_equal.
  rewrite !append_assoc. vm_compute. reflexivity.
Qed.

(** C6 (as the code has it).  The statistics section renders five
    numbers, each the value declared under its key in the document's
    statistics (0 when the key is absent); the total shown is the declared
    [total], not a sum worked out by the renderer. *)
Theorem statistics_section_numbers (d : dict) :
  exists html,
    render_statistics_section repr (JObj d) = inr html /\
    contains (stat_number (shown repr d "critical") " critical issues") html = true /\
    contains (stat_number (shown repr d "high") " high issues") html = true /\
    contains (stat_number (shown repr d "warnings") " warnings") html = true /\
    contains (stat_number (shown repr d "suggestions") " suggestions") html = true /\
    contains (stat_number (shown repr d "total") " total findings") html = true.
Proof.
  eexists. split; [apply statistics_section_layout|].
  unfold stats_block.
  repeat split.
  - apply contains_app.
  - do 2 apply contains_app_r. apply contains_app.
  - do 4 apply contains_app_r. apply contains_app.
  - do 6 apply contains_app_r. apply contains_app.
  - do 8 apply contains_app_r. apply contains_app.
Qed.

End Renderer.

(** C6 as the specification words it fails: with counts 2, 3, 5 and 1 and a
    declared total of 7, the total shown is 7 and not the sum, 11. *)
Lemma statistics_total_is_declared :
  exists html,
    render_statistics_section plain_repr (JObj sample_statistics) = inr html /\
    contains (stat_number "7" " total findings") html = true /\
    contains (stat_number (str_of_Z (2 + 3 + 5 + 1)) " total findings") html = false.
Proof. eexists. repeat split; vm_compute; reflexivity. Qed.

End StatFacts.

(* ================================================================== *)
(** * Both channels *)
(* ================================================================== *)

Module CardFacts.
Import Py Spec PyFacts MonadFacts GenFacts RenderHtml HtmlFacts.

Section Renderer.

Variable repr : json -> string.
Variable CSS_STYLES : string.

Lemma render_issue_card_total (d : dict) (severity : string) (number total : nat) :
  confidence_ok d ->
  exists card, render_issue_card repr (JObj d) severity number total = inr card.
Proof.
  intros [text Hconf]. unfold render_issue_card. cbn [py_get bind ret].
  destruct (badge severity) as [icon label].
  destruct (String.eqb severity "critical" || String.eqb severity "high")%bool;
    [|destruct (String.eqb severity "warning");
      [|destruct (String.eqb severity "suggestion")]].
  all: repeat (rewrite detail_dict; cbn [bind ret]).
  all: cbn [bind ret]; rewrite Hconf; cbn [bind ret]; eexists; reflexivity.
Qed.

(** The cards of a list of well-formed issues: all of them render, and the
    card of each issue is among them under its number. *)
Lemma render_cards_at (severity : string) (number total : nat)
    (l1 l2 : list json) (issue : json) :
  Forall well_formed_issue (l1 ++ issue :: l2) ->
  exists card cards,
    render_issue_card repr issue severity (number + List.length l1) total = inr card /\
    render_cards repr severity number total (l1 ++ issue :: l2) = inr cards /\
    In card cards.
Proof.
  revert number; induction l1 as [|x l1 IH]; intros number H.
  - cbn [app List.length] in *. rewrite Nat.add_0_r.
    inversion H as [|? ? (d & -> & Hd) Hrest]; subst.
    destruct (render_issue_card_total d severity number total Hd) as [card Hc].
    assert (Hl2 : forall n, exists cards, render_cards repr severity n total l2 = inr cards).
    { clear - Hrest. induction Hrest as [|y l2 (dy & -> & Hy) _ IH2]; intros n.
      - now exists [].
      - destruct (render_issue_card_total dy severity n total Hy) as [cy Hcy].
        destruct (IH2 (S n)) as [cs Hcs].
        exists (cy :: cs). cbn [render_cards]. now rewrite Hcy, Hcs. }
    destruct (Hl2 (S number)) as [cards Hcards].
    exists card, (card :: cards). split; [exact Hc|]. split; [|now left].
    cbn [render_cards]. now rewrite Hc, Hcards.
  - cbn [app] in H. inversion H as [|? ? (d & -> & Hd) Hrest]; subst.
    destruct (render_issue_card_total d severity number total Hd) as [cx Hcx].
    destruct (IH (S number) Hrest) as (card & cards & Hc & Hcs & Hin).
    exists card, (cx :: cards).
    cbn [List.length]. rewrite Nat.add_succ_r. split; [exact Hc|].
    split; [|now right].
    cbn [app render_cards]. now rewrite Hcx, Hcs.
Qed.

Lemma render_cards_total (severity : string) (number total : nat) (l : list json) :
  Forall well_formed_issue l ->
  exists cards, render_cards repr severity number total l = inr cards.
Proof.
  intros H. revert number. induction H as [|y l (dy & -> & Hy) _ IH]; intros n.
  - now exists [].
  - destruct (render_issue_card_total dy severity n total Hy) as [cy Hcy].
    destruct (IH (S n)) as [cs Hcs].
    exists (cy :: cs). cbn [render_cards]. now rewrite Hcy, Hcs.
Qed.

(** A block of [render_all_issues] on well-formed issues: it returns, and
    keeps the parts it was given. *)
Lemma issue_block_total (issues : dict) (key severity aria heading : string)
    (html_parts : list string) :
  In key ZuulComments.severities -> issues_ok issues ->
  exists extra,
    render_issue_block repr (JObj issues) key severity aria heading html_parts
    = inr (html_parts ++ extra)%list.
Proof.
  intros Hkey Hok. specialize (Hok key Hkey).
  unfold render_issue_block. cbn [py_get bind ret].
  destruct (lookup key issues) as [v|].
  - destruct Hok as (l & -> & Hl).
    destruct l as [|x l]; cbn [truthy]; [eexists; reflexivity|].
    cbn [py_iter bind ret].
    destruct (render_cards_total severity 1 (py_len (JArr (x :: l))) (x :: l) Hl)
      as [cards ->].
    cbn [bind ret]. eexists. reflexivity.
  - cbn [truthy]. eexists. reflexivity.
Qed.

(** The block of the key under which an issue is listed has the card of
    the issue among its parts. *)
Lemma issue_block_card (issues : dict) (key severity aria heading : string)
    (html_parts : list string) (l1 l2 : list json) (issue : json) :
  In key ZuulComments.severities -> issues_ok issues ->
  lookup key issues = Some (JArr (l1 ++ issue :: l2)) ->
  exists card parts,
    render_issue_card repr issue severity (S (List.length l1))
      (List.length (l1 ++ issue :: l2)) = inr card /\
    render_issue_block repr (JObj issues) key severity aria heading html_parts
    = inr parts /\
    In card parts.
Proof.
  intros Hkey Hok Hl. specialize (Hok key Hkey). rewrite Hl in Hok.
  destruct Hok as (l & [= <-] & Hwf).
  destruct (render_cards_at severity 1 (List.length (l1 ++ issue :: l2)) l1 l2 issue Hwf)
    as (card & cards & Hc & Hcs & Hin).
  exists card. unfold render_issue_block. cbn [py_get bind ret]. rewrite Hl.
  assert (T : truthy (JArr (l1 ++ issue :: l2)) = true) by now destruct l1.
  rewrite T. cbn [py_iter py_len bind ret]. rewrite Hcs. cbn [bind ret].
  eexists. split; [exact Hc|]. split; [reflexivity|].
  rewrite !in_app_iff. right. right. right. left. exact Hin.
Qed.

Lemma severities_in :
  In "critical" ZuulComments.severities /\ In "high" ZuulComments.severities /\
  In "warnings" ZuulComments.severities /\ In "suggestions" ZuulComments.severities.
Proof. unfold ZuulComments.severities. cbn [In]. tauto. Qed.

(** The issues section of a well-formed review holds the card of each of
    its issues, numbered within its severity. *)
Lemma all_issues_card (issues : dict) (key : string) (l1 l2 : list json)
    (issue : json) :
  In key ZuulComments.severities -> issues_ok issues ->
  lookup key issues = Some (JArr (l1 ++ issue :: l2)) ->
  exists card html,
    render_issue_card repr issue (rstrip "s" key) (S (List.length l1))
      (List.length (l1 ++ issue :: l2)) = inr card /\
    render_all_issues repr (JObj issues) = inr html /\
    contains card html = true.
Proof.
  intros Hkey Hok Hl.
  destruct severities_in as (Hc & Hh & Hw & Hs).
  unfold render_all_issues.
  destruct Hkey as [<- | [<- | [<- | [<- | []]]]].
  - destruct (issue_block_card issues "critical" "critical" "Critical issues"
                "Critical Issues" [] l1 l2 issue Hc Hok Hl)
      as (card & parts & Hcard & -> & Hin).
    cbn [bind].
    destruct (issue_block_total issues "high" "high" "High severity issues"
                "High Issues" parts Hh Hok) as [e2 ->]. cbn [bind].
    destruct (issue_block_total issues "warnings" "warning" "Warnings" "Warnings"
                (parts ++ e2) Hw Hok) as [e3 ->]. cbn [bind].
    destruct (issue_block_total issues "suggestions" "suggestion" "Suggestions"
                "Suggestions" ((parts ++ e2) ++ e3) Hs Hok) as [e4 ->].
    cbn [bind ret]. exists card. eexists. split; [exact Hcard|].
    split; [reflexivity|]. apply join_contains. rewrite !in_app_iff. tauto.
  - destruct (issue_block_total issues "critical" "critical" "Critical issues"
                "Critical Issues" [] Hc Hok) as [e1 ->]. cbn [bind].
    destruct (issue_block_card issues "high" "high" "High severity issues"
                "High Issues" ([] ++ e1) l1 l2 issue Hh Hok Hl)
      as (card & parts & Hcard & -> & Hin).
    cbn [bind].
    destruct (issue_block_total issues "warnings" "warning" "Warnings" "Warnings"
                parts Hw Hok) as [e3 ->]. cbn [bind].
    destruct (issue_block_total issues "suggestions" "suggestion" "Suggestions"
                "Suggestions" (parts ++ e3) Hs Hok) as [e4 ->].
    cbn [bind ret]. exists card. eexists. split; [exact Hcard|].
    split; [reflexivity|]. apply join_contains. rewrite !in_app_iff. tauto.
  - destruct (issue_block_total issues "critical" "critical" "Critical issues"
                "Critical Issues" [] Hc Hok) as [e1 ->]. cbn [bind].
    destruct (issue_block_total issues "high" "high" "High severity issues"
                "High Issues" ([] ++ e1) Hh Hok) as [e2 ->]. cbn [bind].
    destruct (issue_block_card issues "warnings" "warning" "Warnings" "Warnings"
                (([] ++ e1) ++ e2) l1 l2 issue Hw Hok Hl)
      as (card & parts & Hcard & -> & Hin).
    cbn [bind].
    destruct (issue_block_total issues "suggestions" "suggestion" "Suggestions"
                "Suggestions" parts Hs Hok) as [e4 ->].
    cbn [bind ret]. exists card. eexists. split; [exact Hcard|].
    split; [reflexivity|]. apply join_contains. rewrite !in_app_iff. tauto.
  - destruct (issue_block_total issues "critical" "critical" "Critical issues"
                "Critical Issues" [] Hc Hok) as [e1 ->]. cbn [bind].
    destruct (issue_block_total issues "high" "high" "High severity issues"
                "High Issues" ([] ++ e1) Hh Hok) as [e2 ->]. cbn [bind].
    destruct (issue_block_total issues "warnings" "warning" "Warnings" "Warnings"
                (([] ++ e1) ++ e2) Hw Hok) as [e3 ->]. cbn [bind].
    destruct (issue_block_card issues "suggestions" "suggestion" "Suggestions"
                "Suggestions" ((([] ++ e1) ++ e2) ++ e3) l1 l2 issue Hs Hok Hl)
      as (card & parts & Hcard & -> & Hin).
    cbn [bind ret]. exists card. eexists. split; [exact Hcard|].
    split; [reflexivity|]. now apply join_contains.
Qed.

(** ** The other sections of a well-formed review *)

Lemma context_section_total (d : dict) :
  exists html, render_context_section repr (JObj d) = inr html.
Proof. unfold render_context_section. cbn [py_get bind ret]. eexists. reflexivity. Qed.

Lemma statistics_section_total (d : dict) :
  exists html, render_statistics_section repr (JObj d) = inr html.
Proof.
  unfold render_statistics_section. cbn [py_get bind ret]. eexists. reflexivity.
Qed.

Lemma summary_section_total (d st : dict) :
  exists html, render_summary_section repr (JObj d) (JObj st) = inr html.
Proof. unfold render_summary_section. cbn [py_get bind ret]. eexists. reflexivity. Qed.

Lemma observations_total (l : list json) :
  Forall (fun obs => is_dict obs = true) l ->
  exists html, mapM (render_observation repr) l = inr html.
Proof.
  induction 1 as [|obs l Hobs _ [html IH]]; [now exists []|].
  destruct obs as [| | | | | |d]; try discriminate.
  cbn [mapM]. unfold render_observation at 1. cbn [py_get bind ret].
  rewrite IH. cbn [bind ret]. eexists. reflexivity.
Qed.

Lemma positive_observations_total (l : list json) :
  Forall (fun obs => is_dict obs = true) l ->
  exists html, render_positive_observations repr (JArr l) = inr html.
Proof.
  intros H. unfold render_positive_observations.
  destruct l as [|x l]; cbn [truthy negb]; [eexists; reflexivity|].
  cbn [py_iter bind ret]. destruct (observations_total _ H) as [html ->].
  cbn [bind ret]. eexists. reflexivity.
Qed.

Lemma dict_or_absent_get (o : option json) :
  dict_or_absent o ->
  exists d, match o with Some v => v | None => JObj [] end = JObj d.
Proof.
  destruct o as [v|]; cbn [dict_or_absent]; [|now exists []].
  destruct v; try discriminate. intros _. now eexists.
Qed.

Lemma observations_ok_get (o : option json) :
  observations_ok o ->
  exists l, match o with Some v => v | None => JArr [] end = JArr l /\
            Forall (fun obs => is_dict obs = true) l.
Proof.
  destruct o as [v|]; cbn [observations_ok]; [|now exists []].
  intros (l & -> & H). now exists l.
Qed.

(** The document rendered from a well-formed review holds the card of each
    of its issues. *)
Lemma html_template_card (review_data issues : dict) (key : string)
    (l1 l2 : list json) (issue : json) :
  lookup "issues" review_data = Some (JObj issues) ->
  In key ZuulComments.severities ->
  lookup key issues = Some (JArr (l1 ++ issue :: l2)) ->
  well_formed_review review_data ->
  exists card html,
    render_issue_card repr issue (rstrip "s" key) (S (List.length l1))
      (List.length (l1 ++ issue :: l2)) = inr card /\
    render_html_template repr CSS_STYLES (JObj review_data) = inr html /\
    contains card html = true.
Proof.
  intros Hissues Hkey Hl (Hctx & Hst & (issues' & Hi & Hok) & Hobs & Hsum).
  rewrite Hissues in Hi. injection Hi as <-.
  destruct (all_issues_card issues key l1 l2 issue Hkey Hok Hl)
    as (card & issues_html & Hcard & Hall & Hin).
  exists card.
  unfold render_html_template. cbn [py_get bind ret]. rewrite Hissues.
  destruct (dict_or_absent_get _ Hctx) as [ctx ->].
  destruct (dict_or_absent_get _ Hst) as [st ->].
  destruct (dict_or_absent_get _ Hsum) as [sm ->].
  destruct (observations_ok_get _ Hobs) as (obs & -> & Hobs').
  destruct (context_section_total ctx) as [context_html ->]. cbn [bind].
  destruct (statistics_section_total st) as [stats_html ->]. cbn [bind].
  rewrite Hall. cbn [bind].
  destruct (positive_observations_total obs Hobs') as [positive_html ->]. cbn [bind].
  destruct (summary_section_total sm st) as [summary_html ->]. cbn [bind ret].
  eexists. split; [exact Hcard|]. split; [reflexivity|].
  do 7 apply contains_app_r. now apply contains_app_l.
Qed.

End Renderer.
End CardFacts.

Module PipelineFacts.
Import Py Spec PyFacts MonadFacts ZuulComments GenFacts RenderHtml CardFacts.

Section Channels.

Variable repr : json -> string.
Variable CSS_STYLES : string.


End Channels.

Lemma unlocated_sample_unlocated : unlocated unlocated_sample.
Proof.
  exists [ ("description", JStr "w"); ("location", JStr "not-a-location") ].
  split; [reflexivity|]. right. exists "not-a-location". now split.
Qed.

Lemma unlocated_review_well_formed : well_formed_review unlocated_review.
Proof.
  unfold well_formed_review, unlocated_review. cbn [lookup String.eqb Ascii.eqb Bool.eqb].
  repeat split.
  exists [ ("warnings", JArr [ unlocated_sample ]) ]. split; [reflexivity|].
  intros key [<- | [<- | [<- | [<- | []]]]]; cbn; try exact I.
  exists [ unlocated_sample ]. split; [reflexivity|].
  constructor; [|constructor].
  eexists. split; [reflexivity|]. exists "0.0". reflexivity.
Qed.


End PipelineFacts.

Module FieldFacts.
Import Py Spec PyFacts MonadFacts GenFacts RenderHtml HtmlFacts CardFacts.

Section Renderer.

Variable repr : json -> string.

Lemma detail_line_contains (label key : string) (d : dict) (v : json) :
  lookup key d = Some v ->
  exists line, In line (detail_line repr label key d) /\
               contains (escape_html repr v) line = true.
Proof.
  intros H. unfold detail_line. rewrite H. eexists. split; [now left|].
  do 3 apply contains_app_r. apply contains_app_l, contains_refl.
Qed.

(** The card of an issue whose confidence can be formatted: it renders,
    and holds the escaped description, the escaped location, and the escaped
    value of each detail field of its severity that the issue has. *)
Lemma render_issue_card_fields (d : dict) (severity : string) (number total : nat) :
  confidence_ok d ->
  exists card,
    render_issue_card repr (JObj d) severity number total = inr card /\
    contains (escape_html repr (field d "description" "No description")) card = true /\
    contains (escape_html repr (field d "location" "Unknown")) card = true /\
    (forall label key v,
       In (label, key) (detail_fields severity) -> lookup key d = Some v ->
       contains (escape_html repr v) card = true).
Proof.
  intros [text Hconf]. unfold render_issue_card, detail_fields, field.
  cbn [py_get bind ret].
  destruct (badge severity) as [icon label].
  destruct (String.eqb severity "critical" || String.eqb severity "high")%bool;
    [|destruct (String.eqb severity "warning");
      [|destruct (String.eqb severity "suggestion")]].
  all: repeat (rewrite detail_dict; cbn [bind ret]).
  all: cbn [bind ret]; rewrite Hconf; cbn [bind ret]; eexists.
  all: split; [reflexivity|].
  all: split; [do 13 apply contains_app_r; apply contains_app_l, contains_refl|].
  all: split;
    [ do 17 apply contains_app_r; apply contains_app_l;
      apply (contains_trans _ ("<p><strong>Location</strong>: <code>"
               ++ escape_html repr match lookup "location" d with
                                   | Some v => v
                                   | None => JStr "Unknown"
                                   end ++ "</code></p>"));
      [ apply contains_app_r, contains_app_l, contains_refl
      | apply join_contains; rewrite ?in_app_iff; cbn [In]; tauto ]
    | ].
  all: intros lab key v Hin Hv.
  all: destruct (detail_line_contains lab key d v Hv) as (line & Hline & Hc).
  all: do 17 apply contains_app_r; apply contains_app_l.
  all: apply (contains_trans _ line _ Hc), join_contains.
  all: rewrite ?in_app_iff.
  all: cbn [In] in Hin.
  all: repeat match goal with
         | H : _ \/ _ |- _ => destruct H as [H|H]
         | H : (_, _) = (_, _) |- _ => injection H as <- <-
         | H : False |- _ => destruct H
         end; tauto.
Qed.

Lemma context_section_fields (d : dict) :
  exists html,
    render_context_section repr (JObj d) = inr html /\
    (forall key, In key context_text_keys ->
       contains (escape_html repr (field d key "N/A")) html = true).
Proof.
  unfold render_context_section, field. cbn [py_get bind ret]. eexists.
  split; [reflexivity|].
  intros key [<- | [<- | [<- | []]]].
  - apply contains_app_r, contains_app_l, contains_refl.
  - do 3 apply contains_app_r. apply contains_app_l, contains_refl.
  - do 5 apply contains_app_r. apply contains_app_l, contains_refl.
Qed.

Lemma summary_section_fields (d st : dict) :
  exists html,
    render_summary_section repr (JObj d) (JObj st) = inr html /\
    (forall key, In key summary_text_keys ->
       contains (escape_html repr (field d key "N/A")) html = true).
Proof.
  unfold render_summary_section, field. cbn [py_get bind ret]. eexists.
  split; [reflexivity|].
  intros key [<- | [<- | [<- | []]]].
  - do 9 apply contains_app_r. apply contains_app_l, contains_refl.
  - do 11 apply contains_app_r. apply contains_app_l, contains_refl.
  - do 13 apply contains_app_r. apply contains_app_l, contains_refl.
Qed.

Lemma observation_fields (d : dict) :
  exists item,
    render_observation repr (JObj d) = inr item /\
    contains (escape_html repr (field d "category" "General")) item = true /\
    contains (escape_html repr (field d "observation" "")) item = true.
Proof.
  unfold render_observation, field. cbn [py_get bind ret]. eexists.
  split; [reflexivity|]. split.
  - apply contains_app_r, contains_app_l, contains_refl.
  - do 3 apply contains_app_r. apply contains_app_l, contains_refl.
Qed.

Variable CSS_STYLES : string.
Variable g : json -> json.


End Renderer.
End FieldFacts.

(* ================================================================== *)
(** * Further properties of the scripts *)
(* ================================================================== *)

(** ** Paths *)

Module PathFacts.
Import Py ZuulComments Spec PyFacts ZuulFacts.

(** ** Suffixes *)

Lemma drop_suffix (n : nat) (s : string) : exists a, s = a ++ drop n s.
Proof.
  revert s; induction n as [|n IH]; intros s.
  - now exists EmptyString.
  - destruct s as [|c t]; [now exists EmptyString|].
    destruct (IH t) as [a E]. exists (String c a). cbn [drop append]. now rewrite <- E.
Qed.

Lemma lstrip_suffix (ch : ascii) (s : string) : exists a, s = a ++ lstrip ch s.
Proof.
  induction s as [|c t [a E]]; [now exists EmptyString|].
  cbn [lstrip]. destruct (Ascii.eqb c ch).
  - exists (String c a). cbn [append]. now rewrite <- E.
  - now exists EmptyString.
Qed.

Lemma strip_two_segments_suffix (p : string) :
  exists a, p = a ++ strip_two_segments p.
Proof.
  unfold strip_two_segments, segments.
  pose proof (join_split_all "/" p) as J.
  destruct (split_all "/" p) as [|x [|y [|z more]]];
    try (now exists EmptyString).
  rewrite !join_cons in J.
  exists (x ++ "/" ++ y ++ "/"). rewrite <- J at 1.
  now rewrite !append_assoc.
Qed.

Lemma suffix_trans (s a b t u : string) :
  s = a ++ t -> t = b ++ u -> s = (a ++ b) ++ u.
Proof. intros -> ->. now rewrite append_assoc. Qed.

Lemma normalize_no_known_prefix (path : string) :
  known_prefix path = None ->
  normalize_file_path path
  = if startswith "/" path then strip_two_segments (lstrip "/" path) else path.
Proof.
  intros Hnone. unfold normalize_file_path.
  rewrite strip_zuul_prefix_find. unfold known_prefix in Hnone. rewrite Hnone.
  destruct (startswith "/" path); [apply after_two_segments_spec | reflexivity].
Qed.

(** X1.  An absolute path that begins with none of the known prefixes
    loses its leading slashes and then, when at least three segments remain,
    its first two segments. *)
Theorem normalize_other_absolute_path (path : string) :
  startswith "/" path = true ->
  known_prefix path = None ->
  normalize_file_path path = strip_two_segments (lstrip "/" path).
Proof.
  intros Habs Hnone. rewrite (normalize_no_known_prefix path Hnone).
  now rewrite Habs.
Qed.

Lemma normalize_other_absolute_path_witness :
  normalize_file_path "//opt/stack/nova/setup.py"
  = strip_two_segments (lstrip "/" "//opt/stack/nova/setup.py") /\
  normalize_file_path "//opt/stack/nova/setup.py" = "nova/setup.py" /\
  normalize_file_path "/tmp/x.py" = "tmp/x.py".
Proof.
  split; [|split; reflexivity].
  apply (normalize_other_absolute_path "//opt/stack/nova/setup.py"); reflexivity.
Defined.

(** X2.  Whatever the path, the result is a suffix of it: normalisation
    only removes characters from the front. *)
Theorem normalize_file_path_is_suffix (path : string) :
  exists removed, path = removed ++ normalize_file_path path.
Proof.
  destruct (known_prefix path) as [prefix|] eqn:K.
  - rewrite (normalize_known_prefix _ _ K).
    destruct (drop_suffix (String.length prefix) path) as [a Ea].
    destruct (strip_two_segments_suffix (drop (String.length prefix) path)) as [b Eb].
    exists (a ++ b). exact (suffix_trans _ _ _ _ _ Ea Eb).
  - rewrite (normalize_no_known_prefix path K).
    destruct (startswith "/" path).
    + destruct (lstrip_suffix "/" path) as [a Ea].
      destruct (strip_two_segments_suffix (lstrip "/" path)) as [b Eb].
      exists (a ++ b). exact (suffix_trans _ _ _ _ _ Ea Eb).
    + now exists EmptyString.
Qed.

End PathFacts.

(** ** Line numbers *)

Module NumberFacts.
Import Py ZuulComments Spec PyFacts ZuulFacts.

Lemma all_chars_app (p : ascii -> bool) (a b : string) :
  all_chars p (a ++ b) = (all_chars p a && all_chars p b)%bool.
Proof.
  induction a as [|c a IH]; [reflexivity|].
  cbn [append all_chars]. rewrite IH. now rewrite andb_assoc.
Qed.

Lemma int_acc_app (a b : string) (acc : Z) :
  int_acc (a ++ b) acc = int_acc b (int_acc a acc).
Proof.
  revert acc; induction a as [|c a IH]; intros acc; [reflexivity|].
  cbn [append int_acc]. apply IH.
Qed.

Lemma digit_char_spec (d : Z) :
  0 <= d <= 9 ->
  is_digit (digit_char d) = true /\
  Z.of_nat (nat_of_ascii (digit_char d)) - 48 = d.
Proof.
  intros H. unfold digit_char, is_digit.
  assert (E : nat_of_ascii (ascii_of_nat (48 + Z.to_nat d)) = (48 + Z.to_nat d)%nat)
    by (apply nat_ascii_embedding; lia).
  rewrite E. split.
  - apply andb_true_iff. split; apply Nat.leb_le; lia.
  - lia.
Qed.

(** The digits [digits_fuel] puts before [acc] are the decimal digits of
    [n], most significant first. *)
Lemma digits_fuel_spec (k : nat) (n : Z) (acc : string) :
  0 <= n < 2 ^ Z.of_nat (S k) ->
  exists d, digits_fuel (S k) n acc = d ++ acc /\ d <> EmptyString /\
            all_chars is_digit d = true /\ int_acc d 0 = n.
Proof.
  revert n acc; induction k as [|k IH]; intros n acc Hn;
    cbn [digits_fuel];
    assert (Hd : 0 <= n mod 10 <= 9) by (pose proof (Z.mod_pos_bound n 10); lia);
    destruct (digit_char_spec _ Hd) as [Hdig Hval];
    destruct (n <? 10) eqn:L.
  1, 3: apply Z.ltb_lt in L;
      exists (String (digit_char (n mod 10)) EmptyString); repeat split;
      [ discriminate
      | cbn [all_chars]; now rewrite Hdig
      | cbn [int_acc]; rewrite Hval; rewrite Z.mod_small by lia; lia ].
  - apply Z.ltb_ge in L. change (2 ^ Z.of_nat 1) with 2 in Hn. lia.
  - apply Z.ltb_ge in L.
    assert (Hq : 0 <= n / 10 < 2 ^ Z.of_nat (S k)).
    { split; [apply Z.div_pos; lia|].
      rewrite (Nat2Z.inj_succ (S k)), Z.pow_succ_r in Hn by lia.
      apply Z.div_lt_upper_bound; lia. }
    destruct (IH (n / 10) (String (digit_char (n mod 10)) acc) Hq)
      as (d & E & Hne & Hall & Hint).
    exists (d ++ String (digit_char (n mod 10)) EmptyString). repeat split.
    + change (digits_fuel (S k) (n / 10) (String (digit_char (n mod 10)) acc)
              = (d ++ String (digit_char (n mod 10)) EmptyString) ++ acc).
      rewrite E. now rewrite append_assoc.
    + destruct d; [contradiction|discriminate].
    + rewrite all_chars_app, Hall. cbn [all_chars]. now rewrite Hdig.
    + rewrite int_acc_app, Hint. cbn [int_acc]. rewrite Hval.
      pose proof (Z.div_mod n 10). lia.
Qed.

Lemma str_of_Z_digits (n : Z) :
  0 <= n -> digits (str_of_Z n) /\ int_of_digits (str_of_Z n) = n.
Proof.
  intros Hn. unfold str_of_Z, int_of_digits.
  assert (L : (n <? 0) = false) by (apply Z.ltb_ge; lia). rewrite L.
  rewrite Z.abs_eq by lia.
  destruct (digits_fuel_spec (Z.to_nat (Z.log2 n)) n EmptyString)
    as (d & E & Hne & Hall & Hint).
  { split; [lia|]. rewrite Nat2Z.inj_succ, Z2Nat.id by apply Z.log2_nonneg.
    destruct (Z.eq_dec n 0) as [->|]; [reflexivity|].
    apply Z.log2_spec. lia. }
  rewrite E, append_nil_r. split; [split|]; assumption.
Qed.



End NumberFacts.

(** ** The comments of a review *)

Module CommentFacts.
Import Py ZuulComments Spec PyFacts MonadFacts ZuulFacts.

Section Generator.
Variable repr : json -> string.

(** The two ways a turn of the inner loop ends without an exception. *)
Lemma extract_issue_cases (label : string) (fc fc' : file_comments_t)
    (issue : json) :
  extract_issue repr label fc issue = inr fc' ->
  (located issue = false /\ fc' = fc) \/
  (located issue = true /\
   exists d loc path line message,
     issue = JObj d /\ lookup "location" d = Some (JStr loc) /\
     parse_location loc = (Some path, Some line) /\
     path <> EmptyString /\ line <> 0 /\
     format_issue_message repr issue label = inr message /\
     fc' = append_comment path
             (JObj [ ("line", JInt line); ("message", JStr message);
                     ("level", JStr (map_severity_to_level label)) ]) fc).
Proof.
  unfold extract_issue, located.
  destruct issue as [| | | | |l|d]; try discriminate.
  cbn [py_get bind ret].
  destruct (lookup "location" d) as [v|] eqn:L.
  - destruct (truthy v) eqn:T; cbn [negb].
    + destruct v as [| | | |loc| |]; try discriminate.
      destruct (parse_location loc) as [[path|] [line|]] eqn:P;
        cbn [not_path not_line orb].
      * destruct (String.eqb_spec path EmptyString) as [->|ne]; cbn [orb negb andb].
        { intros [= <-]. now left. }
        destruct (Z.eqb_spec line 0) as [->|nz]; cbn [negb].
        { intros [= <-]. now left. }
        intros H. apply bind_inr in H as (message & Hm & [= <-]).
        right. split; [reflexivity|].
        exists d, loc, path, line, message. repeat split; auto.
      * rewrite orb_true_r. intros [= <-]. now left.
      * intros [= <-]. now left.
      * intros [= <-]. now left.
    + intros [= <-]. left. split; [|reflexivity].
      destruct v as [| | | |loc| |]; try reflexivity.
      cbn [truthy] in T. apply negb_false_iff, String.eqb_eq in T. subst loc.
      reflexivity.
  - cbn [truthy String.eqb negb]. intros [= <-]. now left.
Qed.

(** ** How many comments *)

Lemma all_comments_append (path : string) (c : json) (fc : file_comments_t) :
  List.length (all_comments (append_comment path c fc))
  = S (List.length (all_comments fc)).
Proof.
  unfold all_comments. induction fc as [|[p cs] fc IH]; [reflexivity|].
  cbn [append_comment]. destruct (String.eqb p path); cbn [map concat snd].
  - rewrite !length_app. cbn [List.length]. lia.
  - rewrite !length_app, IH. lia.
Qed.

Lemma extract_issues_count (label : string) (l : list json)
    (fc fc' : file_comments_t) :
  foldM (extract_issue repr label) l fc = inr fc' ->
  List.length (all_comments fc')
  = (List.length (all_comments fc) + List.length (filter located l))%nat.
Proof.
  revert fc; induction l as [|issue l IH]; intros fc; cbn [foldM filter].
  - intros [= <-]. now rewrite Nat.add_0_r.
  - intros H. apply bind_inr in H as (fc1 & H1 & H).
    rewrite (IH _ H).
    destruct (extract_issue_cases _ _ _ _ H1) as [[-> ->]|[-> (d & loc & path & line & m & _ & _ & _ & _ & _ & _ & ->)]].
    + reflexivity.
    + rewrite all_comments_append. cbn [List.length]. lia.
Qed.

(** A turn of the outer loop runs the inner loop over the elements under
    the key. *)
Lemma extract_severity_elements (issues : dict) (key : string)
    (fc fc' : file_comments_t) :
  extract_severity repr (JObj issues) fc key = inr fc' ->
  foldM (extract_issue repr (rstrip "s" key)) (elements issues key) fc = inr fc'.
Proof.
  unfold extract_severity, elements. cbn [py_get bind ret].
  destruct (lookup key issues) as [v|].
  - destruct (py_iter v) as [e|l]; [discriminate|]. exact (fun H => H).
  - exact (fun H => H).
Qed.

Lemma extract_severities_count (issues : dict) (keys : list string)
    (fc fc' : file_comments_t) :
  foldM (extract_severity repr (JObj issues)) keys fc = inr fc' ->
  List.length (all_comments fc')
  = (List.length (all_comments fc)
     + List.length (filter located (flat_map (elements issues) keys)))%nat.
Proof.
  revert fc; induction keys as [|key keys IH]; intros fc; cbn [foldM flat_map].
  - intros [= <-]. cbn. lia.
  - intros H. apply bind_inr in H as (fc1 & H1 & H).
    rewrite (IH _ H), filter_app, length_app.
    rewrite (extract_issues_count _ _ _ _ (extract_severity_elements _ _ _ _ H1)).
    lia.
Qed.

(** When the function returns, the value under [issues] is a mapping. *)
Lemma extract_file_comments_issues (review_data : dict) (fc : file_comments_t) :
  extract_file_comments repr (JObj review_data) = inr fc ->
  exists issues,
    issues_of review_data = JObj issues /\
    foldM (extract_severity repr (JObj issues)) severities [] = inr fc.
Proof.
  unfold extract_file_comments, issues_of. cbn [py_get bind ret].
  destruct (match lookup "issues" review_data with Some v => v | None => JObj [] end)
    as [| | | | |l|issues] eqn:E; try (intros H; now exists issues).
  all: cbn [severities foldM extract_severity py_get bind raise]; discriminate.
Qed.

(** X4.  When [extract_file_comments] returns, there are exactly as many
    comments, over all files, as there are located issues under the four
    severity keys: no located issue is dropped and none is counted twice. *)
Theorem comment_count (review_data : dict) (fc : file_comments_t) :
  extract_file_comments repr (JObj review_data) = inr fc ->
  exists issues,
    issues_of review_data = JObj issues /\
    List.length (all_comments fc)
    = List.length (filter located (flat_map (elements issues) severities)).
Proof.
  intros H. destruct (extract_file_comments_issues _ _ H) as (issues & E & F).
  exists issues. split; [exact E|].
  now rewrite (extract_severities_count _ _ _ _ F).
Qed.

(** ** Which comments *)

Lemma filed_append (path : string) (c : json) (fc : file_comments_t)
    (p : string) (c' : json) :
  filed (append_comment path c fc) p c' <->
  filed fc p c' \/ (p = path /\ c' = c).
Proof.
  unfold filed. induction fc as [|[q cs] fc IH]; cbn [append_comment].
  - split.
    + intros (cs & [[= <- <-]|[]] & [<-|[]]). now right.
    + intros [(cs & [] & _)|[-> ->]]. exists [c]. split; now left.
  - destruct (String.eqb_spec q path) as [->|ne].
    + split.
      * intros (cs' & [[= <- <-]|Hin] & Hc).
        -- apply in_app_or in Hc as [Hc|[<-|[]]].
           ++ left. exists cs. split; [now left | exact Hc].
           ++ now right.
        -- left. exists cs'. split; [now right | exact Hc].
      * intros [(cs' & [[= <- <-]|Hin] & Hc)|[-> ->]].
        -- exists (cs ++ [c])%list. split; [now left | apply in_or_app; now left].
        -- exists cs'. split; [now right | exact Hc].
        -- exists (cs ++ [c])%list. split; [now left|].
           apply in_or_app. right. now left.
    + split.
      * intros (cs' & [[= <- <-]|Hin] & Hc).
        -- left. exists cs. split; [now left | exact Hc].
        -- destruct (proj1 IH (ex_intro _ cs' (conj Hin Hc))) as [(cs2 & H2 & Hc2)|E].
           ++ left. exists cs2. split; [now right | exact Hc2].
           ++ now right.
      * intros [(cs' & [[= <- <-]|Hin] & Hc)|E].
        -- exists cs. split; [now left | exact Hc].
        -- destruct (proj2 IH (or_introl (ex_intro _ cs' (conj Hin Hc))))
             as (cs2 & H2 & Hc2).
           exists cs2. split; [now right | exact Hc2].
        -- destruct (proj2 IH (or_intror E)) as (cs2 & H2 & Hc2).
           exists cs2. split; [now right | exact Hc2].
Qed.

(** One turn of the inner loop: what was filed stays filed, and what is new
    is the comment of the issue. *)
Lemma extract_issue_filed (label : string) (fc fc' : file_comments_t)
    (issue : json) :
  extract_issue repr label fc issue = inr fc' ->
  (forall p c, filed fc p c -> filed fc' p c) /\
  (forall p c, filed fc' p c ->
     filed fc p c \/ (located issue = true /\ comment_of repr label issue p c)) /\
  (located issue = true ->
   exists p c, comment_of repr label issue p c /\ filed fc' p c).
Proof.
  intros H.
  destruct (extract_issue_cases _ _ _ _ H)
    as [[L ->]|[L (d & loc & path & line & m & E & Hl & Hp & _ & _ & Hm & ->)]].
  - split; [auto|]. split; [auto|]. rewrite L. discriminate.
  - assert (C : comment_of repr label issue path
                  (JObj [ ("line", JInt line); ("message", JStr m);
                          ("level", JStr (map_severity_to_level label)) ]))
      by (exists d, loc, line, m; auto).
    split; [|split].
    + intros p c F. apply filed_append. now left.
    + intros p c F. apply filed_append in F as [F|[-> ->]]; [now left|].
      right. now split.
    + intros _. eexists _, _. split; [exact C|]. apply filed_append. now right.
Qed.

Lemma extract_issues_filed (label : string) (l : list json)
    (fc fc' : file_comments_t) :
  foldM (extract_issue repr label) l fc = inr fc' ->
  (forall p c, filed fc p c -> filed fc' p c) /\
  (forall p c, filed fc' p c ->
     filed fc p c \/
     exists issue, In issue l /\ located issue = true /\
                   comment_of repr label issue p c) /\
  (forall issue, In issue l -> located issue = true ->
   exists p c, comment_of repr label issue p c /\ filed fc' p c).
Proof.
  revert fc; induction l as [|a l IH]; intros fc; cbn [foldM].
  - intros [= <-]. split; [auto|]. split; [auto|]. intros issue [].
  - intros H. apply bind_inr in H as (fc1 & H1 & H).
    destruct (extract_issue_filed _ _ _ _ H1) as (M1 & S1 & C1).
    destruct (IH _ H) as (M & S & C).
    split; [|split].
    + auto.
    + intros p c F. destruct (S p c F) as [F1|(issue & Hin & L & Hc)].
      * destruct (S1 p c F1) as [F0|[L Hc]]; [now left|].
        right. exists a. split; [now left | auto].
      * right. exists issue. split; [now right | auto].
    + intros issue [<-|Hin] L.
      * destruct (C1 L) as (p & c & Hc & F). exists p, c. auto.
      * exact (C issue Hin L).
Qed.

Lemma extract_severities_filed (issues : dict) (keys : list string)
    (fc fc' : file_comments_t) :
  foldM (extract_severity repr (JObj issues)) keys fc = inr fc' ->
  (forall p c, filed fc p c -> filed fc' p c) /\
  (forall p c, filed fc' p c ->
     filed fc p c \/
     exists key issue, In key keys /\ In issue (elements issues key) /\
                       located issue = true /\
                       comment_of repr (rstrip "s" key) issue p c) /\
  (forall key issue, In key keys -> In issue (elements issues key) ->
   located issue = true ->
   exists p c, comment_of repr (rstrip "s" key) issue p c /\ filed fc' p c).
Proof.
  revert fc; induction keys as [|k keys IH]; intros fc; cbn [foldM].
  - intros [= <-]. split; [auto|]. split; [auto|]. intros key issue [].
  - intros H. apply bind_inr in H as (fc1 & H1 & H).
    destruct (extract_issues_filed _ _ _ _ (extract_severity_elements _ _ _ _ H1))
      as (M1 & S1 & C1).
    destruct (IH _ H) as (M & S & C).
    split; [|split].
    + auto.
    + intros p c F. destruct (S p c F) as [F1|(key & issue & Hk & Hin & L & Hc)].
      * destruct (S1 p c F1) as [F0|(issue & Hin & L & Hc)]; [now left|].
        right. exists k, issue. split; [now left | auto].
      * right. exists key, issue. split; [now right | auto].
    + intros key issue [<-|Hk] Hin L.
      * destruct (C1 issue Hin L) as (p & c & Hc & F). exists p, c. auto.
      * exact (C key issue Hk Hin L).
Qed.

(** X5.  When [extract_file_comments] returns, the comments filed are
    exactly the comments of the located issues: every comment is the comment
    of a located issue listed under one of the four severity keys, filed
    under the normalised path of that issue with its line and the level of
    its severity; and every located issue has its comment filed. *)
Theorem comments_are_those_of_located_issues (review_data : dict)
    (fc : file_comments_t) :
  extract_file_comments repr (JObj review_data) = inr fc ->
  exists issues,
    issues_of review_data = JObj issues /\
    (forall path c, filed fc path c ->
       exists key issue,
         In key severities /\ In issue (elements issues key) /\
         located issue = true /\
         comment_of repr (rstrip "s" key) issue path c) /\
    (forall key issue,
       In key severities -> In issue (elements issues key) ->
       located issue = true ->
       exists path c,
         comment_of repr (rstrip "s" key) issue path c /\ filed fc path c).
Proof.
  intros H. destruct (extract_file_comments_issues _ _ H) as (issues & E & F).
  exists issues. split; [exact E|].
  destruct (extract_severities_filed _ _ _ _ F) as (_ & S & C).
  split; [|exact C].
  intros path c Hf. destruct (S path c Hf) as [(cs & [] & _)|Hx]. exact Hx.
Qed.

(** ** In which order *)

Lemma by_level_snoc (cs : list json) (x : json) (r : nat) :
  by_level cs -> (forall c, In c cs -> (level_rank c <= r)%nat) ->
  (r <= level_rank x)%nat -> by_level (cs ++ [x])%list.
Proof.
  intros Hs Hr Hx before c between c' after E.
  destruct after as [|z after _] using rev_ind.
  - change (before ++ c :: between ++ [c'])%list
      with (before ++ (c :: between) ++ [c'])%list in E.
    rewrite app_assoc in E. apply app_inj_tail in E as [-> <-].
    specialize (Hr c). rewrite in_app_iff in Hr.
    assert (level_rank c <= r)%nat by (apply Hr; right; now left). lia.
  - assert (E' : (before ++ c :: between ++ c' :: after ++ [z])%list
                 = ((before ++ c :: between ++ c' :: after) ++ [z])%list).
    { rewrite <- app_assoc. cbn [app]. rewrite <- app_assoc. reflexivity. }
    rewrite E' in E. apply app_inj_tail in E as [E _].
    exact (Hs before c between c' after E).
Qed.

Lemma ordered_up_to_le (r r' : nat) (fc : file_comments_t) :
  (r <= r')%nat -> ordered_up_to r fc -> ordered_up_to r' fc.
Proof.
  intros Hle H p cs Hin. destruct (H p cs Hin) as [Hs Hr].
  split; [exact Hs|]. intros c Hc. specialize (Hr c Hc). lia.
Qed.

Lemma by_level_one (c : json) : by_level [c].
Proof.
  intros before x between x' after E.
  apply (f_equal (@List.length json)) in E.
  rewrite length_app in E. cbn [List.length] in E.
  rewrite length_app in E. cbn [List.length] in E. lia.
Qed.

Lemma ordered_append (r : nat) (path : string) (c : json) (fc : file_comments_t) :
  ordered_up_to r fc -> (r <= level_rank c)%nat ->
  ordered_up_to (level_rank c) (append_comment path c fc).
Proof.
  intros H Hc. induction fc as [|[q cs] fc IH]; cbn [append_comment].
  - intros p cs [[= <- <-]|[]]. split; [apply by_level_one|].
    intros x [<-|[]]. lia.
  - assert (Hhead : by_level cs /\ forall x, In x cs -> (level_rank x <= r)%nat)
      by (apply (H q); now left).
    assert (Htail : ordered_up_to r fc)
      by (intros p cs' Hin; apply (H p); now right).
    destruct (String.eqb q path).
    + intros p cs' [[= <- <-]|Hin].
      * destruct Hhead as [Hs Hr]. split.
        -- exact (by_level_snoc cs c r Hs Hr Hc).
        -- intros x Hx. apply in_app_or in Hx as [Hx|[<-|[]]]; [|lia].
           specialize (Hr x Hx). lia.
      * apply (ordered_up_to_le r _ fc Hc Htail p cs' Hin).
    + intros p cs' [[= <- <-]|Hin].
      * destruct Hhead as [Hs Hr]. split; [exact Hs|].
        intros x Hx. specialize (Hr x Hx). lia.
      * exact (IH Htail p cs' Hin).
Qed.

Lemma extract_issues_ordered (label : string) (r : nat) (l : list json)
    (fc fc' : file_comments_t) :
  (r <= rank_of_level (map_severity_to_level label))%nat ->
  ordered_up_to r fc ->
  foldM (extract_issue repr label) l fc = inr fc' ->
  ordered_up_to (rank_of_level (map_severity_to_level label)) fc'.
Proof.
  intros Hr H0 H.
  apply (ordered_up_to_le r _ fc Hr) in H0.
  revert H0 H. apply foldM_invariant. clear fc fc'.
  intros issue fc fc' Hfc H.
  destruct (extract_issue_cases _ _ _ _ H)
    as [[_ ->]|[_ (d & loc & path & line & m & _ & _ & _ & _ & _ & _ & ->)]];
    [exact Hfc|].
  apply (ordered_append _ path
           (JObj [ ("line", JInt line); ("message", JStr m);
                   ("level", JStr (map_severity_to_level label)) ]) fc Hfc).
  apply Nat.le_refl.
Qed.


(** ** As a dictionary *)

Lemma append_comment_paths (path : string) (c : json) (fc : file_comments_t)
    (q : string) :
  In q (map fst (append_comment path c fc)) <-> q = path \/ In q (map fst fc).
Proof.
  induction fc as [|[p cs] fc IH]; cbn [append_comment map fst In].
  - split; [intros [<-|[]]; now left | intros [->|[]]; now left].
  - destruct (String.eqb_spec p path) as [->|ne]; cbn [map fst In].
    + split; [intros [<-|Hin]; auto | intros [->|[<-|Hin]]; auto].
    + rewrite IH. tauto.
Qed.

Lemma append_comment_NoDup (path : string) (c : json) (fc : file_comments_t) :
  NoDup (map fst fc) -> NoDup (map fst (append_comment path c fc)).
Proof.
  induction fc as [|[p cs] fc IH]; cbn [append_comment map fst].
  - intros _. constructor; [intros [] | constructor].
  - intros H. inversion H as [|x l Hx Hl]; subst.
    destruct (String.eqb_spec p path) as [->|ne]; cbn [map fst].
    + now constructor.
    + constructor; [|exact (IH Hl)].
      rewrite append_comment_paths. intros [->|Hin]; [now apply ne | now apply Hx].
Qed.

Lemma append_comment_entries (path : string) (c : json) (fc : file_comments_t)
    (p : string) (cs : list json) :
  path <> EmptyString ->
  (forall q qs, In (q, qs) fc -> q <> EmptyString /\ qs <> []) ->
  In (p, cs) (append_comment path c fc) -> p <> EmptyString /\ cs <> [].
Proof.
  intros Hpath. induction fc as [|[q qs] fc IH]; cbn [append_comment]; intros H.
  - intros [[= <- <-]|[]]. split; [exact Hpath | discriminate].
  - destruct (String.eqb_spec q path) as [->|ne].
    + intros [[= <- <-]|Hin].
      * split; [exact Hpath | now destruct qs].
      * apply (H p cs). now right.
    + intros [[= <- <-]|Hin].
      * apply (H q qs). now left.
      * apply IH; [|exact Hin]. intros q' qs' Hq. apply (H q' qs'). now right.
Qed.

(** X7.  When [extract_file_comments] returns, its result is a dictionary
    as Python keeps it: no path occurs twice, no path is the empty string,
    and no file has an empty list of comments. *)
Theorem file_comments_is_a_dictionary (review_data : dict) (fc : file_comments_t) :
  extract_file_comments repr (JObj review_data) = inr fc ->
  NoDup (map fst fc) /\
  forall path cs, In (path, cs) fc -> path <> EmptyString /\ cs <> [].
Proof.
  intros H. unfold extract_file_comments in H.
  apply bind_inr in H as (issues & _ & H).
  apply (foldM_invariant keyed _ _ _ _) with (3 := H).
  - intros key x y Hx Hy. unfold extract_severity in Hy.
    apply bind_inr in Hy as (listed & _ & Hy).
    apply bind_inr in Hy as (l & _ & Hy).
    apply (foldM_invariant keyed _ _ _ _) with (3 := Hy); [|exact Hx].
    intros issue x' y' [Hn He] Hy'.
    destruct (extract_issue_cases _ _ _ _ Hy')
      as [[_ ->]|[_ (d & loc & path & line & m & _ & _ & _ & Hp & _ & _ & ->)]];
      [now split|].
    split; [now apply append_comment_NoDup|].
    intros p cs. now apply append_comment_entries.
  - split; [constructor | intros path cs []].
Qed.

(** ** What is not read *)

Lemma extract_severity_other_key (issues : dict) (k : string) (v : json)
    (fc : file_comments_t) (key : string) :
  k <> key ->
  extract_severity repr (JObj (dict_set k v issues)) fc key
  = extract_severity repr (JObj issues) fc key.
Proof.
  intros ne. unfold extract_severity. cbn [py_get].
  now rewrite (lookup_dict_set_other k key v issues ne).
Qed.

Lemma extract_file_comments_other_keys (review_data issues : dict)
    (k : string) (v : json) :
  lookup "issues" review_data = Some (JObj issues) ->
  ~ In k severities ->
  extract_file_comments repr
    (JObj (dict_set "issues" (JObj (dict_set k v issues)) review_data))
  = extract_file_comments repr (JObj review_data).
Proof.
  intros Hi Hk. unfold extract_file_comments. cbn [py_get bind ret].
  rewrite lookup_dict_set_same, Hi.
  apply foldM_ext. intros key fc Hin.
  apply extract_severity_other_key. intros ->. now apply Hk.
Qed.

End Generator.

Lemma sample_review_comments :
  extract_file_comments plain_repr (JObj sample_review) = inr sample_comments.
Proof. vm_compute. reflexivity. Qed.

Lemma comment_count_witness :
  exists issues,
    issues_of sample_review = JObj issues /\
    List.length (all_comments sample_comments)
    = List.length (filter located (flat_map (elements issues) severities)).
Proof.
  exact (comment_count plain_repr sample_review sample_comments
           sample_review_comments).
Defined.

Lemma comments_are_those_of_located_issues_witness :
  exists issues,
    issues_of sample_review = JObj issues /\
    (forall path c, filed sample_comments path c ->
       exists key issue,
         In key severities /\ In issue (elements issues key) /\
         located issue = true /\
         comment_of plain_repr (rstrip "s" key) issue path c) /\
    (forall key issue,
       In key severities -> In issue (elements issues key) ->
       located issue = true ->
       exists path c,
         comment_of plain_repr (rstrip "s" key) issue path c /\
         filed sample_comments path c).
Proof.
  exact (comments_are_those_of_located_issues plain_repr sample_review
           sample_comments sample_review_comments).
Defined.

Lemma file_comments_is_a_dictionary_witness :
  NoDup (map fst sample_comments) /\
  forall path cs, In (path, cs) sample_comments -> path <> EmptyString /\ cs <> [].
Proof.
  exact (file_comments_is_a_dictionary plain_repr sample_review sample_comments
           sample_review_comments).
Defined.


End CommentFacts.

(** ** The summary of the comments *)

Module SummaryFacts.
Import Py ZuulComments Spec PyFacts MonadFacts ZuulFacts.

Lemma counts_getitem_set (k k' : string) (v : Z) (m : level_counts_t) :
  counts_getitem (counts_set k v m) k'
  = if String.eqb k k' then inr v else counts_getitem m k'.
Proof.
  induction m as [|[q n] m IH]; cbn [counts_set counts_getitem].
  - destruct (String.eqb k k'); reflexivity.
  - destruct (String.eqb_spec q k) as [->|ne]; cbn [counts_getitem].
    + destruct (String.eqb k k'); reflexivity.
    + rewrite IH. destruct (String.eqb_spec k k') as [<-|ne']; [|reflexivity].
      apply String.eqb_neq in ne. now rewrite ne.
Qed.

Lemma counts_get_getitem (k : string) (n : Z) (m : level_counts_t) :
  counts_getitem m k = inr n -> counts_get k 0 m = n.
Proof.
  induction m as [|[q x] m IH]; cbn [counts_get counts_getitem]; [discriminate|].
  destruct (String.eqb q k); [now intros [= ->] | exact IH].
Qed.

(** One comment more under its level, none more under the others. *)
Lemma count_comment_step (m : level_counts_t) (c : json) :
  countable c = true ->
  exists m', count_comment m c = inr m' /\
    forall k n, counts_getitem m k = inr n ->
      counts_getitem m' k = inr (n + (if level_is k c then 1 else 0)).
Proof.
  unfold countable, count_comment, level_is.
  destruct c as [| | | | | |d]; try discriminate. cbn [py_get bind ret].
  destruct (lookup "level" d) as [[|b|z|f|l|a|o]|]; try discriminate; intros _;
    try (eexists; split; [reflexivity|]; intros k x ->; now rewrite Z.add_0_r).
  - eexists; split; [reflexivity|]. intros k x H.
    rewrite counts_getitem_set. destruct (String.eqb_spec l k) as [->|ne].
    + now rewrite (counts_get_getitem _ _ _ H).
    + now rewrite H, Z.add_0_r.
  - eexists; split; [reflexivity|]. intros k x H.
    rewrite counts_getitem_set. destruct (String.eqb_spec "info" k) as [<-|ne].
    + now rewrite (counts_get_getitem _ _ _ H).
    + now rewrite H, Z.add_0_r.
Qed.

Lemma count_comments_all (l : list json) (m : level_counts_t) :
  Forall (fun c => countable c = true) l ->
  exists m', foldM count_comment l m = inr m' /\
    forall k n, counts_getitem m k = inr n ->
      counts_getitem m' k = inr (n + with_level k l).
Proof.
  intros H. revert m; induction H as [|c l Hc _ IH]; intros m; cbn [foldM].
  - exists m. split; [reflexivity|]. intros k n ->. unfold with_level. cbn.
    now rewrite Z.add_0_r.
  - destruct (count_comment_step m c Hc) as (m1 & E1 & H1). rewrite E1. cbn [bind].
    destruct (IH m1) as (m' & E & H'). exists m'. split; [exact E|].
    intros k n Hk. rewrite (H' k _ (H1 k n Hk)). f_equal.
    unfold with_level. cbn [filter]. destruct (level_is k c); cbn [List.length]; lia.
Qed.

(** The loop stops at the first comment it cannot count. *)
Lemma count_comments_stop (l1 l2 : list json) (c : json) (m : level_counts_t) :
  Forall (fun c => countable c = true) l1 -> countable c = false ->
  foldM count_comment (l1 ++ c :: l2) m
  = inl (if is_dict c then TypeError else AttributeError).
Proof.
  intros H1 Hc. rewrite foldM_app.
  destruct (count_comments_all l1 m H1) as (m1 & -> & _). cbn [bind foldM].
  unfold countable in Hc. unfold count_comment.
  destruct c as [| | | | | |d]; try reflexivity. cbn [py_get bind ret is_dict].
  destruct (lookup "level" d) as [[| | | | | |]|]; try discriminate; reflexivity.
Qed.

(** The two nested loops visit the comments of all files in order. *)
Lemma nested_loops (fc : file_comments_t) (m : level_counts_t) :
  foldM (fun level_counts pc => foldM count_comment (snd pc) level_counts) fc m
  = foldM count_comment (all_comments fc) m.
Proof.
  unfold all_comments. revert m; induction fc as [|[p cs] fc IH]; intros m;
    [reflexivity|].
  cbn [foldM map concat snd]. rewrite foldM_app.
  destruct (foldM count_comment cs m) as [e|m1]; [reflexivity|]. apply IH.
Qed.

Lemma total_comments_length (fc : file_comments_t) :
  total_comments fc = Z.of_nat (List.length (all_comments fc)).
Proof.
  unfold total_comments, all_comments. induction fc as [|[p cs] fc IH];
    [reflexivity|].
  cbn [fold_right map concat snd]. rewrite IH, length_app. lia.
Qed.

(** X8.  [print_summary] on comments that are mappings with hashable
    levels: it prints the number of comments and of files, and then, for
    each of the three levels, the number of comments of that level, a comment
    with no level being counted as info; other levels are in the total only.
    The first comment that is not a mapping, or whose level is a list or a
    mapping, ends the function with an exception after the first line. *)
Theorem print_summary_counts (fc : file_comments_t) :
  (Forall (fun c => countable c = true) (all_comments fc) ->
   print_summary fc
   = ([ extracted_line (Z.of_nat (List.length (all_comments fc)))
          (Z.of_nat (List.length fc));
        breakdown_line (with_level "error" (all_comments fc))
          (with_level "warning" (all_comments fc))
          (with_level "info" (all_comments fc)) ], None)) /\
  (forall l1 c l2,
     all_comments fc = (l1 ++ c :: l2)%list ->
     Forall (fun c => countable c = true) l1 -> countable c = false ->
     print_summary fc
     = ([ extracted_line (Z.of_nat (List.length (all_comments fc)))
            (Z.of_nat (List.length fc)) ],
        Some (if is_dict c then TypeError else AttributeError))).
Proof.
  unfold print_summary. rewrite nested_loops, total_comments_length. split.
  - intros H.
    destruct (count_comments_all _ [ ("error", 0); ("warning", 0); ("info", 0) ] H)
      as (m & -> & Hm). cbn [bind].
    rewrite (Hm "error" 0 eq_refl), (Hm "warning" 0 eq_refl), (Hm "info" 0 eq_refl).
    reflexivity.
  - intros l1 c l2 -> H1 Hc.
    rewrite (count_comments_stop l1 l2 c _ H1 Hc). reflexivity.
Qed.

Lemma comment_record_counted (c : json) :
  comment_record c ->
  countable c = true /\
  ((if level_is "error" c then 1 else 0) + (if level_is "warning" c then 1 else 0)
   + (if level_is "info" c then 1 else 0) = 1).
Proof.
  intros (line & message & level & -> & _ & Hl).
  split; [reflexivity|].
  destruct Hl as [<-|[<-|[<-|[]]]]; reflexivity.
Qed.

Lemma comment_records_counted (l : list json) :
  Forall comment_record l ->
  Forall (fun c => countable c = true) l /\
  with_level "error" l + with_level "warning" l + with_level "info" l
  = Z.of_nat (List.length l).
Proof.
  unfold with_level. induction 1 as [|c l Hc _ [IH1 IH2]].
  - split; [constructor | reflexivity].
  - destruct (comment_record_counted c Hc) as [Hk Hs].
    split; [now constructor|]. cbn [filter List.length].
    destruct (level_is "error" c), (level_is "warning" c), (level_is "info" c);
      cbn [List.length]; lia.
Qed.

Lemma comment_set_all (fc : file_comments_t) :
  comment_set fc -> Forall comment_record (all_comments fc).
Proof.
  unfold comment_set, all_comments. induction 1 as [|[p cs] fc Hc _ IH].
  - constructor.
  - cbn [map concat snd]. apply Forall_app. split; [exact Hc | exact IH].
Qed.

Section Generator.
Variable repr : json -> string.

(** X9.  The summary of the comments [extract_file_comments] returns never
    raises, and its three counts add up to the number of comments it
    announces. *)
Theorem summary_of_generated_comments (review_data : json) (fc : file_comments_t) :
  extract_file_comments repr review_data = inr fc ->
  exists errors warnings info,
    print_summary fc
    = ([ extracted_line (errors + warnings + info) (Z.of_nat (List.length fc));
         breakdown_line errors warnings info ], None) /\
    0 <= errors /\ 0 <= warnings /\ 0 <= info.
Proof.
  intros H. apply GenFacts.extract_file_comments_comment_set in H.
  destruct (comment_records_counted _ (comment_set_all _ H)) as [Hk Hs].
  exists (with_level "error" (all_comments fc)),
         (with_level "warning" (all_comments fc)),
         (with_level "info" (all_comments fc)).
  rewrite Hs. split; [|unfold with_level; lia].
  unfold print_summary. rewrite nested_loops, total_comments_length.
  destruct (count_comments_all _ [ ("error", 0); ("warning", 0); ("info", 0) ] Hk)
    as (m & -> & Hm). cbn [bind].
  rewrite (Hm "error" 0 eq_refl), (Hm "warning" 0 eq_refl), (Hm "info" 0 eq_refl).
  reflexivity.
Qed.

End Generator.

Lemma summary_of_generated_comments_witness :
  exists errors warnings info,
    print_summary sample_comments
    = ([ extracted_line (errors + warnings + info)
           (Z.of_nat (List.length sample_comments));
         breakdown_line errors warnings info ], None) /\
    0 <= errors /\ 0 <= warnings /\ 0 <= info.
Proof.
  apply (summary_of_generated_comments plain_repr (JObj sample_review)).
  vm_compute. reflexivity.
Defined.

End SummaryFacts.

(** ** The two schema checks *)

Module SchemaFacts.
Import Py Spec PyFacts MonadFacts.

Section Checks.
Variable repr : json -> string.

(** ** The generator's own check *)

Lemma zuul_check_comment (path : string) (idx : nat) (c : json) :
  exists r, ZuulComments.check_comment repr path idx c = inr r /\
    (r = None <-> strict_record c = true) /\
    (forall err, r = Some err -> startswith "Error: " err = true).
Proof.
  unfold ZuulComments.check_comment, strict_record, startswith.
  destruct c as [| | | | | |d];
    try (eexists; split; [reflexivity|]; split;
         [split; discriminate | intros err [= <-]; reflexivity]).
  cbn [is_dict negb py_in py_getitem bind ret]. unfold has_key.
  destruct (lookup "line" d) as [line|]; cbn [negb bind ret];
    [|eexists; split; [reflexivity|]; split;
      [split; discriminate | intros err [= <-]; reflexivity]].
  destruct (lookup "message" d) as [message|]; cbn [negb bind ret];
    [|eexists; split; [reflexivity|]; split;
      [split; discriminate | intros err [= <-]; reflexivity]].
  destruct (is_int line); cbn [negb andb bind ret];
    [|eexists; split; [reflexivity|]; split;
      [split; discriminate | intros err [= <-]; reflexivity]].
  destruct (is_str message); cbn [negb andb bind ret];
    [|eexists; split; [reflexivity|]; split;
      [split; discriminate | intros err [= <-]; reflexivity]].
  destruct (lookup "level" d) as [level|]; cbn [negb bind ret].
  - destruct (ZuulComments.level_ok level); cbn [negb].
    + eexists; split; [reflexivity|]. split; [now split | discriminate].
    + eexists; split; [reflexivity|]. split;
        [split; discriminate | intros err [= <-]; reflexivity].
  - eexists; split; [reflexivity|]. split; [now split | discriminate].
Qed.

Lemma zuul_check_comments (path : string) (idx : nat) (cs : list json) :
  exists r, ZuulComments.check_comments repr path idx cs = inr r /\
    (r = None <-> forallb strict_record cs = true) /\
    (forall err, r = Some err -> startswith "Error: " err = true).
Proof.
  revert idx; induction cs as [|c cs IH]; intros idx;
    cbn [ZuulComments.check_comments forallb].
  - exists None. split; [reflexivity|]. split; [now split | discriminate].
  - destruct (zuul_check_comment path idx c) as (r & -> & Hr & He). cbn [bind].
    destruct r as [err|].
    + exists (Some err). split; [reflexivity|]. split; [|exact He].
      split; [discriminate|]. intros H. apply andb_true_iff in H as [H _].
      apply Hr in H. discriminate.
    + rewrite (proj1 Hr eq_refl). exact (IH (S idx)).
Qed.

Lemma zuul_check_files (fc : dict) :
  exists r, ZuulComments.check_files repr fc = inr r /\
    (r = None <-> forallb strict_file fc = true) /\
    (forall err, r = Some err -> startswith "Error: " err = true).
Proof.
  induction fc as [|[path v] fc IH]; cbn [ZuulComments.check_files forallb].
  - exists None. split; [reflexivity|]. split; [now split | discriminate].
  - unfold strict_file at 1. cbn [snd].
    destruct v as [| | | | |cs|];
      try (eexists; split; [reflexivity|]; split;
           [split; discriminate | intros err [= <-]; reflexivity]).
    destruct (zuul_check_comments path 0 cs) as (r & -> & Hr & He). cbn [bind].
    destruct r as [err|].
    + exists (Some err). split; [reflexivity|]. split; [|exact He].
      split; [discriminate|]. intros H. apply andb_true_iff in H as [H _].
      apply Hr in H. discriminate.
    + rewrite (proj1 Hr eq_refl). exact IH.
Qed.

Lemma zuul_schema_payload (d z fc : dict) :
  lookup "zuul" d = Some (JObj z) -> lookup "file_comments" z = Some (JObj fc) ->
  ZuulComments.validate_zuul_schema repr (JObj d)
  = match ZuulComments.check_files repr fc with
    | inl e => inl e
    | inr (Some err) => inr (false, err)
    | inr None => inr (true, EmptyString)
    end.
Proof.
  intros Hz Hf. unfold ZuulComments.validate_zuul_schema.
  cbn [py_in py_getitem bind ret]. unfold has_key. rewrite Hz. cbn [negb bind ret py_in py_getitem].
  unfold has_key. rewrite Hf. cbn [negb bind ret].
  destruct (ZuulComments.check_files repr fc) as [e|[err|]]; reflexivity.
Qed.

(** When the check says yes, the payload is a mapping in a mapping. *)
Lemma zuul_schema_true_shape (data : json) (msg : string) :
  ZuulComments.validate_zuul_schema repr data = inr (true, msg) ->
  exists d z fc,
    data = JObj d /\ lookup "zuul" d = Some (JObj z) /\
    lookup "file_comments" z = Some (JObj fc).
Proof.
  unfold ZuulComments.validate_zuul_schema.
  destruct data as [| | | |s|l|d]; try discriminate.
  - cbn [py_in py_getitem bind ret]. destruct (contains "zuul" s); discriminate.
  - cbn [py_in py_getitem bind ret].
    destruct (existsb _ l); discriminate.
  - cbn [py_in py_getitem bind ret]. unfold has_key.
    destruct (lookup "zuul" d) as [zuul|] eqn:Hz; [|discriminate]. cbn [negb bind ret].
    destruct zuul as [| | | |s|l|z]; try discriminate.
    + cbn [py_in py_getitem bind ret]. destruct (contains "file_comments" s); discriminate.
    + cbn [py_in py_getitem bind ret]. destruct (existsb _ l); discriminate.
    + cbn [py_in py_getitem bind ret]. unfold has_key.
      destruct (lookup "file_comments" z) as [fc|] eqn:Hf; [|discriminate].
      cbn [negb bind ret].
      destruct fc as [| | | | | |fc]; try discriminate.
      intros _. now exists d, z, fc.
Qed.

(** X10.  [validate_zuul_schema] says yes exactly to the payloads
    [{"zuul": {"file_comments": {...}}}] in which every value is a list of
    mappings with an integer [line], a string [message] and, if any, a
    [level] among error, warning and info; it then prints nothing. *)
Theorem zuul_schema_accepts_exactly (data : json) (msg : string) :
  ZuulComments.validate_zuul_schema repr data = inr (true, msg) <->
  msg = EmptyString /\ payload_of strict_file data.
Proof.
  split.
  - intros H. destruct (zuul_schema_true_shape _ _ H) as (d & z & fc & -> & Hz & Hf).
    rewrite (zuul_schema_payload d z fc Hz Hf) in H.
    destruct (zuul_check_files fc) as (r & E & Hr & _). rewrite E in H.
    destruct r as [err|]; [discriminate|]. injection H as <-.
    split; [reflexivity|]. exists d, z, fc. repeat split; auto. now apply Hr.
  - intros [-> (d & z & fc & -> & Hz & Hf & Hall)].
    rewrite (zuul_schema_payload d z fc Hz Hf).
    destruct (zuul_check_files fc) as (r & E & Hr & _). rewrite E.
    now rewrite (proj2 Hr Hall).
Qed.

(** X11.  On a payload whose [zuul] and [file_comments] values are
    mappings, [validate_zuul_schema] never raises, whatever the entries
    hold: it says yes and prints nothing, or says no and prints one line
    that begins with [Error: ]. *)
Theorem zuul_schema_never_raises (d z fc : dict) :
  lookup "zuul" d = Some (JObj z) -> lookup "file_comments" z = Some (JObj fc) ->
  exists ok err,
    ZuulComments.validate_zuul_schema repr (JObj d) = inr (ok, err) /\
    (if ok then err = EmptyString else startswith "Error: " err = true).
Proof.
  intros Hz Hf. rewrite (zuul_schema_payload d z fc Hz Hf).
  destruct (zuul_check_files fc) as (r & E & _ & He). rewrite E.
  destruct r as [err|].
  - exists false, err. split; [reflexivity|]. now apply He.
  - now exists true, EmptyString.
Qed.

(** ** The stand-alone validator *)

Lemma level_passes_inv (level : json) :
  SchemaValidator.not_in_valid_levels level = inr false ->
  level_accepted level = true.
Proof.
  unfold SchemaValidator.not_in_valid_levels, level_accepted.
  destruct level; try discriminate.
  intros [= H]. now apply negb_false_iff in H.
Qed.

Lemma validator_check_comment_inv (path : string) (i : nat) (c : json) :
  SchemaValidator.check_comment repr path i c = inr None ->
  record_passes c = true.
Proof.
  unfold SchemaValidator.check_comment, record_passes.
  destruct c as [| | | | | |d]; try discriminate.
  cbn [is_dict negb py_in py_getitem bind ret]. unfold has_key.
  destruct (lookup "message" d) as [message|]; [|discriminate].
  cbn [negb bind ret andb].
  destruct (lookup "level" d) as [level|].
  - cbn [bind ret].
    destruct (SchemaValidator.not_in_valid_levels level) as [e|[|]] eqn:L;
      try discriminate.
    rewrite (level_passes_inv _ L). cbn [bind ret andb].
    destruct (lookup "line" d) as [line|]; cbn [bind ret]; [|reflexivity].
    destruct (is_int line); [reflexivity | discriminate].
  - cbn [bind ret andb].
    destruct (lookup "line" d) as [line|]; cbn [bind ret]; [|reflexivity].
    destruct (is_int line); [reflexivity | discriminate].
Qed.

Lemma validator_check_comments_inv (path : string) (i : nat) (cs : list json) :
  SchemaValidator.check_comments repr path i cs = inr None ->
  forallb record_passes cs = true.
Proof.
  revert i; induction cs as [|c cs IH]; intros i;
    cbn [SchemaValidator.check_comments forallb]; [reflexivity|].
  intros H. apply bind_inr in H as (r & Hr & H).
  destruct r as [err|]; [discriminate|].
  now rewrite (validator_check_comment_inv _ _ _ Hr), (IH _ H).
Qed.

Lemma validator_check_files_inv (fc : dict) :
  SchemaValidator.check_files repr fc = inr None ->
  forallb file_passes fc = true.
Proof.
  induction fc as [|[path v] fc IH]; cbn [SchemaValidator.check_files forallb];
    [reflexivity|].
  unfold file_passes at 1. cbn [snd].
  destruct v as [| | | | |cs|]; try discriminate.
  intros H. apply bind_inr in H as (r & Hr & H).
  destruct r as [err|]; [discriminate|].
  now rewrite (validator_check_comments_inv _ _ _ Hr), (IH H).
Qed.

Lemma validator_true_shape (data : json) (msg : string) :
  SchemaValidator.validate_schema repr data = inr (true, msg) ->
  exists d z fc,
    data = JObj d /\ lookup "zuul" d = Some (JObj z) /\
    lookup "file_comments" z = Some (JObj fc).
Proof.
  unfold SchemaValidator.validate_schema.
  destruct data as [| | | |s|l|d]; try discriminate.
  - cbn [py_in py_getitem bind ret]. destruct (contains "zuul" s); discriminate.
  - cbn [py_in py_getitem bind ret].
    destruct (existsb _ l); discriminate.
  - cbn [py_in py_getitem bind ret]. unfold has_key.
    destruct (lookup "zuul" d) as [zuul|] eqn:Hz; [|discriminate]. cbn [negb bind ret].
    destruct zuul as [| | | |s|l|z]; try discriminate.
    + cbn [py_in py_getitem bind ret]. destruct (contains "file_comments" s); discriminate.
    + cbn [py_in py_getitem bind ret]. destruct (existsb _ l); discriminate.
    + cbn [py_in py_getitem bind ret]. unfold has_key.
      destruct (lookup "file_comments" z) as [fc|] eqn:Hf; [|discriminate].
      cbn [negb bind ret].
      destruct fc as [| | | | | |fc]; try discriminate.
      intros _. now exists d, z, fc.
Qed.

(** X12.  [validate_schema] says yes exactly to the payloads
    [{"zuul": {"file_comments": {...}}}] in which every value is a list of
    mappings that have a [message] (of any type), a [level], if any, among
    the three, and a [line], if any, that is an integer; its message is then
    [Schema validation passed]. *)
Theorem validate_schema_accepts_exactly (data : json) (msg : string) :
  SchemaValidator.validate_schema repr data = inr (true, msg) <->
  msg = "Schema validation passed" /\ payload_of file_passes data.
Proof.
  split.
  - intros H. destruct (validator_true_shape _ _ H) as (d & z & fc & -> & Hz & Hf).
    rewrite (ValidatorFacts.validate_schema_files repr d z fc Hz Hf) in H.
    destruct (SchemaValidator.check_files repr fc) as [e|[err|]] eqn:E;
      try discriminate.
    injection H as <-. split; [reflexivity|].
    exists d, z, fc. repeat split; auto. now apply validator_check_files_inv.
  - intros [-> (d & z & fc & -> & Hz & Hf & Hall)].
    exact (ValidatorFacts.validate_schema_accepts repr d z fc Hz Hf Hall).
Qed.

(** ** The two checks compared *)

Lemma level_ok_accepted (level : json) :
  ZuulComments.level_ok level = true -> level_accepted level = true.
Proof.
  unfold ZuulComments.level_ok, level_accepted.
  destruct level as [| | | |s| |]; try discriminate.
  cbn [existsb ZuulComments.valid_levels SchemaValidator.valid_levels].
  destruct (String.eqb s "error"), (String.eqb s "warning"), (String.eqb s "info");
    cbn; auto.
Qed.

Lemma strict_record_passes (c : json) :
  strict_record c = true -> record_passes c = true.
Proof.
  unfold strict_record, record_passes, has_key.
  destruct c as [| | | | | |d]; try discriminate.
  destruct (lookup "line" d) as [line|]; [|discriminate].
  destruct (lookup "message" d) as [message|]; [|discriminate].
  intros H. apply andb_true_iff in H as [H Hl]. apply andb_true_iff in H as [Hi _].
  rewrite Hi. cbn [andb].
  destruct (lookup "level" d) as [level|]; [|reflexivity].
  now rewrite (level_ok_accepted _ Hl).
Qed.

Lemma strict_file_passes (fc : dict) :
  forallb strict_file fc = true -> forallb file_passes fc = true.
Proof.
  induction fc as [|[path v] fc IH]; cbn [forallb]; [reflexivity|].
  intros H. apply andb_true_iff in H as [H1 H2]. rewrite (IH H2), andb_true_r.
  unfold strict_file in H1. unfold file_passes. cbn [snd] in *.
  destruct v as [| | | | |cs|]; try discriminate.
  clear -H1. induction cs as [|c cs IH]; cbn [forallb] in *; [reflexivity|].
  apply andb_true_iff in H1 as [Hc Hcs].
  now rewrite (strict_record_passes _ Hc), (IH Hcs).
Qed.

(** X13.  The generator's own check is the stricter of the two: whatever
    [validate_zuul_schema] accepts, the stand-alone [validate_schema]
    accepts too, without raising. *)
Theorem zuul_schema_is_stricter (data : json) (msg : string) :
  ZuulComments.validate_zuul_schema repr data = inr (true, msg) ->
  SchemaValidator.validate_schema repr data
  = inr (true, "Schema validation passed").
Proof.
  intros H. destruct (zuul_schema_true_shape _ _ H) as (d & z & fc & -> & Hz & Hf).
  rewrite (zuul_schema_payload d z fc Hz Hf) in H.
  destruct (zuul_check_files fc) as (r & E & Hr & _). rewrite E in H.
  destruct r as [err|]; [discriminate|].
  apply (ValidatorFacts.validate_schema_accepts repr d z fc Hz Hf).
  apply strict_file_passes. now apply Hr.
Qed.

End Checks.

Lemma zuul_schema_never_raises_witness :
  exists ok err,
    ZuulComments.validate_zuul_schema plain_repr (JObj sample_payload)
    = inr (ok, err) /\
    (if ok then err = EmptyString else startswith "Error: " err = true).
Proof.
  exact (zuul_schema_never_raises plain_repr sample_payload
           [ ("file_comments", JObj sample_files) ] sample_files eq_refl eq_refl).
Defined.

Lemma zuul_schema_is_stricter_witness :
  SchemaValidator.validate_schema plain_repr (zuul_return sample_comments)
  = inr (true, "Schema validation passed").
Proof.
  apply (zuul_schema_is_stricter plain_repr (zuul_return sample_comments)
           EmptyString).
  vm_compute. reflexivity.
Defined.

End SchemaFacts.

(** ** The runs of the two scripts *)

Module RunFacts.
Import Py Spec PyFacts MonadFacts.

Section Runs.
Variable repr : json -> string.
Variable CSS_STYLES : string.
Variable raw_decode : string -> nat -> result (json * nat).

(** ** generate_zuul_comments.py *)

(** A run on decoded data that are a mapping goes on to [emit] with the
    review, or stops at a wrapper whose value is not a mapping. *)
Lemma main_on_mapping (content : string) (raw : dict) :
  ZuulComments.load_json_with_trailing_text raw_decode content = inr (JObj raw) ->
  ZuulComments.main repr raw_decode (Some content)
  = match lookup "structured_output" raw with
    | None => ZuulComments.emit repr (JObj raw)
    | Some (JObj inner) => ZuulComments.emit repr (JObj inner)
    | Some _ => ZuulComments.WrapperNotDict
    end.
Proof.
  intros L. unfold ZuulComments.main. rewrite L.
  unfold ZuulComments.extract_review_data, py_in, py_getitem, has_key.
  destruct (lookup "structured_output" raw) as [[| | | | | |inner]|]; reflexivity.
Qed.

Lemma emit_not_mapping (v : json) :
  is_dict v = false -> ZuulComments.emit repr v = ZuulComments.Uncaught AttributeError.
Proof. destruct v; try discriminate; reflexivity. Qed.

Lemma main_not_mapping (content : string) (v : json) :
  ZuulComments.load_json_with_trailing_text raw_decode content = inr v ->
  is_dict v = false ->
  ZuulComments.main repr raw_decode (Some content) = ZuulComments.Uncaught TypeError \/
  ZuulComments.main repr raw_decode (Some content) = ZuulComments.Uncaught AttributeError.
Proof.
  intros L Hv. unfold ZuulComments.main. rewrite L.
  unfold ZuulComments.extract_review_data.
  destruct v as [| | | |s|l|d]; try discriminate; try (now left).
  - cbn [py_in bind ret]. destruct (contains "structured_output" s); [now left|].
    right. reflexivity.
  - cbn [py_in bind ret]. destruct (existsb _ l); [now left|]. right. reflexivity.
Qed.

(** X14.  How a run of [main] can end.  It never ends at its own schema
    check.  It writes output only when the decoded text is a JSON object
    and the review (what is under [structured_output] when that is an
    object, the object itself when there is no such key) gives comments
    without an exception; what it writes is those comments under [zuul] and
    [file_comments], each one a comment record. *)
Theorem main_outcomes (file : option string) :
  (forall err, ZuulComments.main repr raw_decode file <> ZuulComments.SchemaInvalid err) /\
  (forall zuul_data,
     ZuulComments.main repr raw_decode file = ZuulComments.Written zuul_data ->
     exists content raw review file_comments,
       file = Some content /\
       ZuulComments.load_json_with_trailing_text raw_decode content = inr (JObj raw) /\
       (lookup "structured_output" raw = Some (JObj review) \/
        lookup "structured_output" raw = None /\ review = raw) /\
       ZuulComments.extract_file_comments repr (JObj review) = inr file_comments /\
       comment_set file_comments /\
       zuul_data = zuul_return file_comments).
Proof.
  assert (E : forall review zuul_data,
             ZuulComments.emit repr review = ZuulComments.Written zuul_data ->
             exists fc, ZuulComments.extract_file_comments repr review = inr fc /\
                        comment_set fc /\ zuul_data = zuul_return fc).
  { intros review zuul_data. unfold ZuulComments.emit.
    destruct (ZuulComments.generate_zuul_return_data repr review) as [e|z] eqn:G;
      [discriminate|].
    unfold ZuulComments.generate_zuul_return_data in G.
    apply bind_inr in G as (fc & Hx & [= <-]).
    pose proof (GenFacts.extract_file_comments_comment_set repr _ _ Hx) as Hfc.
    change (JObj [ ("zuul", JObj [ ("file_comments",
                                    ZuulComments.file_comments_json fc) ]) ])
      with (zuul_return fc).
    rewrite (GenFacts.validate_zuul_schema_comment_set repr fc Hfc).
    intros [= <-]. now exists fc. }
  destruct file as [content|]; [|split; [discriminate | discriminate]].
  destruct (ZuulComments.load_json_with_trailing_text raw_decode content)
    as [e|v] eqn:L.
  - unfold ZuulComments.main. rewrite L.
    split; [destruct e; discriminate | destruct e; discriminate].
  - destruct (is_dict v) eqn:D.
    + destruct v as [| | | | | |raw]; try discriminate.
      rewrite (main_on_mapping content raw L).
      destruct (lookup "structured_output" raw) as [[| | | | | |inner]|] eqn:W;
        try (split; [discriminate | discriminate]).
      * split; [intros err; apply GenFacts.emit_never_schema_invalid|].
        intros z Hz. destruct (E _ _ Hz) as (fc & Hx & Hc & ->).
        exists content, raw, inner, fc. repeat split; auto.
      * split; [intros err; apply GenFacts.emit_never_schema_invalid|].
        intros z Hz. destruct (E _ _ Hz) as (fc & Hx & Hc & ->).
        exists content, raw, raw, fc. repeat split; auto.
    + destruct (main_not_mapping content v L D) as [-> | ->];
        (split; [discriminate | discriminate]).
Qed.

(** X15.  A text that decodes to JSON that is not an object (a list, a
    string, a number, [null]) is not reported as invalid input: the run ends
    with an uncaught [TypeError] or [AttributeError]. *)
Theorem main_on_other_json (content : string) (v : json) :
  ZuulComments.load_json_with_trailing_text raw_decode content = inr v ->
  is_dict v = false ->
  ZuulComments.main repr raw_decode (Some content) = ZuulComments.Uncaught TypeError \/
  ZuulComments.main repr raw_decode (Some content) = ZuulComments.Uncaught AttributeError.
Proof. exact (main_not_mapping content v). Qed.

(** ** render_html_from_json.py *)

Lemma missing_keys_mapping (keys : list string) (d : dict) :
  RenderHtml.missing_keys keys (JObj d)
  = inr (filter (fun key => negb (has_key key d)) keys).
Proof.
  induction keys as [|key keys IH]; [reflexivity|].
  cbn [RenderHtml.missing_keys py_in bind ret filter]. rewrite IH. cbn [bind ret].
  now destruct (has_key key d).
Qed.

Lemma template_not_mapping (v : json) :
  is_dict v = false ->
  RenderHtml.render_html_template repr CSS_STYLES v = inl AttributeError.
Proof. destruct v; try discriminate; reflexivity. Qed.

(** X16.  The HTML script writes a report only for a JSON object that has
    the four keys [context], [statistics], [issues] and [summary], and the
    report is then what [render_html_template] returns for that object; for
    an object that lacks some of them it stops with a message that lists the
    missing keys in that order. *)
Theorem html_main_outcomes (content : string) :
  (forall html,
     RenderHtml.main repr CSS_STYLES raw_decode (Some content) = RenderHtml.Report html ->
     exists d,
       ZuulComments.loads raw_decode content = inr (JObj d) /\
       (forall key, In key RenderHtml.required_keys -> has_key key d = true) /\
       RenderHtml.render_html_template repr CSS_STYLES (JObj d) = inr html) /\
  (forall d key,
     ZuulComments.loads raw_decode content = inr (JObj d) ->
     In key RenderHtml.required_keys -> has_key key d = false ->
     RenderHtml.main repr CSS_STYLES raw_decode (Some content)
     = RenderHtml.BadStructure
         ("Error: Invalid review data structure. Missing required keys: "
          ++ join ", " (filter (fun key => negb (has_key key d))
                          RenderHtml.required_keys))).
Proof.
  unfold RenderHtml.main. split.
  - intros html.
    destruct (ZuulComments.loads raw_decode content) as [e|v];
      [destruct e; discriminate|].
    destruct (RenderHtml.missing_keys RenderHtml.required_keys v)
      as [e|[|k ks]] eqn:M; try discriminate.
    destruct (RenderHtml.render_html_template repr CSS_STYLES v) as [e|h] eqn:R;
      [discriminate|].
    intros [= <-].
    destruct v as [| | | | | |d]; try discriminate R.
    exists d. split; [reflexivity|]. split; [|exact R].
    rewrite missing_keys_mapping in M.
    intros key Hin. destruct (has_key key d) eqn:Hk; [reflexivity|].
    assert (Hf : In key (filter (fun key => negb (has_key key d))
                           RenderHtml.required_keys))
      by (apply filter_In; split; [exact Hin | now rewrite Hk]).
    destruct (filter (fun key => negb (has_key key d)) RenderHtml.required_keys)
      as [|k ks]; [destruct Hf | discriminate M].
  - intros d key -> Hin Hk. rewrite missing_keys_mapping.
    assert (Hf : In key (filter (fun key => negb (has_key key d))
                           RenderHtml.required_keys))
      by (apply filter_In; split; [exact Hin | now rewrite Hk]).
    destruct (filter (fun key => negb (has_key key d)) RenderHtml.required_keys)
      as [|k ks]; [destruct Hf | reflexivity].
Qed.

(** X17.  The HTML script is stricter about its input than the comment
    generator.  It does not unwrap [structured_output]: the wrapper object of
    the command-line tool, holding the review under that key and none of
    the four keys itself, is refused for its structure, while the generator
    goes on with the inner review.  And it does not accept text after the
    JSON value: such a file is invalid JSON for it, while the generator
    reads the value at the start of the text. *)
Theorem html_main_is_stricter (content : string) :
  (forall d inner,
     ZuulComments.loads raw_decode content = inr (JObj d) ->
     lookup "structured_output" d = Some (JObj inner) ->
     (forall key, In key RenderHtml.required_keys -> has_key key d = false) ->
     RenderHtml.main repr CSS_STYLES raw_decode (Some content)
     = RenderHtml.BadStructure
         "Error: Invalid review data structure. Missing required keys: context, statistics, issues, summary" /\
     ZuulComments.main repr raw_decode (Some content)
     = ZuulComments.emit repr (JObj inner)) /\
  (forall msg pos d stop,
     ZuulComments.loads raw_decode content = inl (JSONDecodeError msg pos) ->
     raw_decode content 0 = inr (JObj d, stop) ->
     lookup "structured_output" d = None ->
     RenderHtml.main repr CSS_STYLES raw_decode (Some content)
     = RenderHtml.NotJSON msg pos /\
     ZuulComments.main repr raw_decode (Some content)
     = ZuulComments.emit repr (JObj d)).
Proof.
  split.
  - intros d inner L W Hk. split.
    + unfold RenderHtml.main. rewrite L, missing_keys_mapping.
      cbn [RenderHtml.required_keys filter].
      rewrite !Hk by (cbn; auto 6). reflexivity.
    + assert (L' : ZuulComments.load_json_with_trailing_text raw_decode content
                   = inr (JObj d))
        by (unfold ZuulComments.load_json_with_trailing_text; now rewrite L).
      rewrite (main_on_mapping content d L'). now rewrite W.
  - intros msg pos d stop L R W. split.
    + unfold RenderHtml.main. now rewrite L.
    + assert (L' : ZuulComments.load_json_with_trailing_text raw_decode content
                   = inr (JObj d))
        by (unfold ZuulComments.load_json_with_trailing_text; now rewrite L, R).
      rewrite (main_on_mapping content d L'). now rewrite W.
Qed.

End Runs.

Lemma main_on_other_json_witness :
  ZuulComments.main plain_repr decode_empty_list (Some "[]")
  = ZuulComments.Uncaught TypeError \/
  ZuulComments.main plain_repr decode_empty_list (Some "[]")
  = ZuulComments.Uncaught AttributeError.
Proof.
  apply (main_on_other_json plain_repr decode_empty_list "[]" (JArr []));
    reflexivity.
Defined.

End RunFacts.

(** ** The sections of the report *)

Module ReportFacts.
Import Py RenderHtml Spec PyFacts MonadFacts GenFacts CardFacts.

Section Renderer.
Variable repr : json -> string.
Variable CSS_STYLES : string.

(** ** The number on a card *)

Lemma contains_number (pre o n m t c post b : string) :
  contains (o ++ n ++ m ++ t ++ c)
    ((pre ++ o) ++ n ++ m ++ t ++ (c ++ post) ++ b) = true.
Proof.
  replace ((pre ++ o) ++ n ++ m ++ t ++ (c ++ post) ++ b)
    with (pre ++ (o ++ n ++ m ++ t ++ c) ++ (post ++ b))
    by (now rewrite !append_assoc).
  apply contains_app.
Qed.

Lemma number_span_opens :
  tpl "
        </span>
        <span class=`issue-number`>"
  = "
        </span>
        " ++ tpl "<span class=`issue-number`>".
Proof. vm_compute. reflexivity. Qed.

Lemma number_span_closes :
  tpl "</span>
        <span class=`issue-description`>"
  = "</span>" ++ tpl "
        <span class=`issue-description`>".
Proof. vm_compute. reflexivity. Qed.

Lemma issue_card_number (d : dict) (severity : string) (number total : nat) :
  confidence_ok d ->
  exists card,
    render_issue_card repr (JObj d) severity number total = inr card /\
    contains (issue_number number total) card = true.
Proof.
  intros [text Hconf]. unfold render_issue_card, issue_number.
  cbn [py_get bind ret].
  destruct (badge severity) as [icon label].
  destruct (String.eqb severity "critical" || String.eqb severity "high")%bool;
    [|destruct (String.eqb severity "warning");
      [|destruct (String.eqb severity "suggestion")]].
  all: repeat (rewrite HtmlFacts.detail_dict; cbn [bind ret]).
  all: cbn [bind ret]; rewrite Hconf; cbn [bind ret]; eexists.
  all: split; [reflexivity|].
  all: do 8 apply contains_app_r.
  all: rewrite number_span_opens, number_span_closes.
  all: apply contains_number.
Qed.

(** X18.  The cards of a severity are numbered from 1 in the order of the
    list, each with the number of issues of that severity: the card of the
    issue at index [k] of [n] issues shows [k+1 of n], and is in what
    [render_all_issues] returns. *)
Theorem cards_are_numbered (issues : dict) (key : string) (l1 l2 : list json)
    (issue : json) :
  In key ZuulComments.severities -> issues_ok issues ->
  lookup key issues = Some (JArr (l1 ++ issue :: l2)) ->
  exists card html,
    render_issue_card repr issue (rstrip "s" key) (S (List.length l1))
      (List.length (l1 ++ issue :: l2)) = inr card /\
    contains (issue_number (S (List.length l1)) (List.length (l1 ++ issue :: l2)))
      card = true /\
    render_all_issues repr (JObj issues) = inr html /\
    contains card html = true.
Proof.
  intros Hkey Hok Hl.
  destruct (all_issues_card repr issues key l1 l2 issue Hkey Hok Hl)
    as (card & html & Hcard & Hhtml & Hin).
  exists card, html. split; [exact Hcard|]. split; [|now split].
  specialize (Hok key Hkey). rewrite Hl in Hok.
  destruct Hok as (l & [= <-] & Hall).
  apply Forall_app in Hall as [_ Hall].
  inversion Hall as [|? ? (d & -> & Hd) _]; subst.
  destruct (issue_card_number d (rstrip "s" key) (S (List.length l1))
              (List.length (l1 ++ JObj d :: l2)) Hd) as (card' & Hc' & Hn).
  rewrite Hcard in Hc'. injection Hc' as <-. exact Hn.
Qed.

(** ** A severity without issues *)

Lemma empty_block (issues : dict) (key severity aria heading : string)
    (html_parts : list string) :
  lookup key issues = None \/ lookup key issues = Some (JArr []) ->
  render_issue_block repr (JObj issues) key severity aria heading html_parts
  = inr (html_parts ++ [none_found heading])%list.
Proof.
  intros H. unfold render_issue_block. cbn [py_get bind ret].
  destruct H as [-> | ->]; reflexivity.
Qed.

(** What one block puts among the parts is in the text of all blocks. *)
Lemma all_issues_part (issues : dict) (x : string) (key : string)
    (b : string * (string * string)) :
  issues_ok issues -> In (key, b) blocks ->
  (forall html_parts, exists extra,
     render_issue_block repr (JObj issues) key (fst b) (fst (snd b)) (snd (snd b))
       html_parts = inr (html_parts ++ extra)%list /\
     In x extra) ->
  exists html,
    render_all_issues repr (JObj issues) = inr html /\ contains x html = true.
Proof.
  intros Hok Hb Hx.
  destruct severities_in as (Hc & Hh & Hw & Hs).
  unfold render_all_issues.
  destruct Hb as [[= <- <-] | [[= <- <-] | [[= <- <-] | [[= <- <-] | []]]]];
    cbn [fst snd] in Hx.
  - destruct (Hx []) as (e1 & -> & Hin). cbn [bind].
    destruct (issue_block_total repr issues "high" "high" "High severity issues"
                "High Issues" ([] ++ e1) Hh Hok) as [e2 ->]. cbn [bind].
    destruct (issue_block_total repr issues "warnings" "warning" "Warnings" "Warnings"
                (([] ++ e1) ++ e2) Hw Hok) as [e3 ->]. cbn [bind].
    destruct (issue_block_total repr issues "suggestions" "suggestion" "Suggestions"
                "Suggestions" ((([] ++ e1) ++ e2) ++ e3) Hs Hok) as [e4 ->].
    cbn [bind ret]. eexists. split; [reflexivity|].
    apply join_contains. rewrite !in_app_iff. tauto.
  - destruct (issue_block_total repr issues "critical" "critical" "Critical issues"
                "Critical Issues" [] Hc Hok) as [e1 ->]. cbn [bind].
    destruct (Hx ([] ++ e1)%list) as (e2 & -> & Hin). cbn [bind].
    destruct (issue_block_total repr issues "warnings" "warning" "Warnings" "Warnings"
                (([] ++ e1) ++ e2) Hw Hok) as [e3 ->]. cbn [bind].
    destruct (issue_block_total repr issues "suggestions" "suggestion" "Suggestions"
                "Suggestions" ((([] ++ e1) ++ e2) ++ e3) Hs Hok) as [e4 ->].
    cbn [bind ret]. eexists. split; [reflexivity|].
    apply join_contains. rewrite !in_app_iff. tauto.
  - destruct (issue_block_total repr issues "critical" "critical" "Critical issues"
                "Critical Issues" [] Hc Hok) as [e1 ->]. cbn [bind].
    destruct (issue_block_total repr issues "high" "high" "High severity issues"
                "High Issues" ([] ++ e1) Hh Hok) as [e2 ->]. cbn [bind].
    destruct (Hx (([] ++ e1) ++ e2)%list) as (e3 & -> & Hin). cbn [bind].
    destruct (issue_block_total repr issues "suggestions" "suggestion" "Suggestions"
                "Suggestions" ((([] ++ e1) ++ e2) ++ e3) Hs Hok) as [e4 ->].
    cbn [bind ret]. eexists. split; [reflexivity|].
    apply join_contains. rewrite !in_app_iff. tauto.
  - destruct (issue_block_total repr issues "critical" "critical" "Critical issues"
                "Critical Issues" [] Hc Hok) as [e1 ->]. cbn [bind].
    destruct (issue_block_total repr issues "high" "high" "High severity issues"
                "High Issues" ([] ++ e1) Hh Hok) as [e2 ->]. cbn [bind].
    destruct (issue_block_total repr issues "warnings" "warning" "Warnings" "Warnings"
                (([] ++ e1) ++ e2) Hw Hok) as [e3 ->]. cbn [bind].
    destruct (Hx ((([] ++ e1) ++ e2) ++ e3)%list) as (e4 & -> & Hin).
    cbn [bind ret]. eexists. split; [reflexivity|].
    apply join_contains. rewrite !in_app_iff. tauto.
Qed.

(** X19.  A severity that has no issue, its key absent or its list empty,
    is not left out of the report: in place of its section stands its
    heading followed by [None found.] *)
Theorem severity_without_issues (issues : dict) (key : string)
    (b : string * (string * string)) :
  issues_ok issues -> In (key, b) blocks ->
  lookup key issues = None \/ lookup key issues = Some (JArr []) ->
  exists html,
    render_all_issues repr (JObj issues) = inr html /\
    contains (none_found (snd (snd b))) html = true.
Proof.
  intros Hok Hb He. apply (all_issues_part issues _ key b Hok Hb).
  intros html_parts. exists [none_found (snd (snd b))].
  split; [now apply empty_block | now left].
Qed.

(** ** The whole document *)

Lemma all_issues_total (issues : dict) :
  issues_ok issues -> exists html, render_all_issues repr (JObj issues) = inr html.
Proof.
  intros Hok. destruct severities_in as (Hc & Hh & Hw & Hs).
  unfold render_all_issues.
  destruct (issue_block_total repr issues "critical" "critical" "Critical issues"
              "Critical Issues" [] Hc Hok) as [e1 ->]. cbn [bind].
  destruct (issue_block_total repr issues "high" "high" "High severity issues"
              "High Issues" ([] ++ e1) Hh Hok) as [e2 ->]. cbn [bind].
  destruct (issue_block_total repr issues "warnings" "warning" "Warnings" "Warnings"
              (([] ++ e1) ++ e2) Hw Hok) as [e3 ->]. cbn [bind].
  destruct (issue_block_total repr issues "suggestions" "suggestion" "Suggestions"
              "Suggestions" ((([] ++ e1) ++ e2) ++ e3) Hs Hok) as [e4 ->].
  cbn [bind ret]. eexists. reflexivity.
Qed.

Lemma template_head :
  tpl "<!DOCTYPE html>
<html lang=`en`>
<head>
    <meta charset=`UTF-8`>
    <meta name=`viewport` content=`width=device-width, initial-scale=1.0`>
    <meta name=`description` content=`AI Code Review Report - WCAG 2.1 Level AA Accessible`>
    <title>Code Review Report</title>
    <style>
" = tpl "<!DOCTYPE html>
<html lang=`en`>
<head>" ++ tpl "
    <meta charset=`UTF-8`>
    <meta name=`viewport` content=`width=device-width, initial-scale=1.0`>
    <meta name=`description` content=`AI Code Review Report - WCAG 2.1 Level AA Accessible`>
    <title>Code Review Report</title>
    <style>
".
Proof. vm_compute. reflexivity. Qed.

Lemma template_tail :
  "
    </div>
</body>
</html>
" = nl ++ "    </div>
</body>
</html>
".
Proof. reflexivity. Qed.

Lemma append_ends (a b t : string) :
  (exists body, b = body ++ t) -> exists body, a ++ b = body ++ t.
Proof. intros [body ->]. exists (a ++ body). now rewrite append_assoc. Qed.

Lemma framed (h r rest t : string) :
  (exists body, rest = body ++ t) ->
  exists body, @inr exn string ((h ++ r) ++ rest) = inr (h ++ body ++ t).
Proof. intros [body ->]. exists (r ++ body). now rewrite !append_assoc. Qed.

(** X20.  For a review whose parts have the types of the data model (the
    context, the statistics and the summary mappings or absent, the issues
    lists of mappings with a confidence that is a number or absent, the
    observations a list of mappings or absent), [render_html_template]
    returns a document, and the document is the page frame around the five
    sections: it begins with the doctype and ends with the closing tags. *)
Theorem render_html_template_total (review_data : dict) :
  well_formed_review review_data ->
  exists body,
    render_html_template repr CSS_STYLES (JObj review_data)
    = inr (tpl "<!DOCTYPE html>
<html lang=`en`>
<head>" ++ body ++ "    </div>
</body>
</html>
").
Proof.
  intros (Hctx & Hst & (issues & Hi & Hok) & Hobs & Hsum).
  unfold render_html_template. cbn [py_get bind ret]. rewrite Hi.
  destruct (dict_or_absent_get _ Hctx) as [ctx ->].
  destruct (dict_or_absent_get _ Hst) as [st ->].
  destruct (dict_or_absent_get _ Hsum) as [sm ->].
  destruct (observations_ok_get _ Hobs) as (obs & -> & Hobs').
  destruct (context_section_total repr ctx) as [context_html ->]. cbn [bind].
  destruct (statistics_section_total repr st) as [stats_html ->]. cbn [bind].
  destruct (all_issues_total issues Hok) as [issues_html ->]. cbn [bind].
  destruct (positive_observations_total repr obs Hobs') as [positive_html ->].
  cbn [bind].
  destruct (summary_section_total repr sm st) as [summary_html ->]. cbn [bind ret].
  rewrite template_head, template_tail.
  apply framed. do 11 apply append_ends. now exists nl.
Qed.

End Renderer.

Lemma unlocated_issues_ok :
  issues_ok [ ("warnings", JArr [ unlocated_sample ]) ].
Proof.
  destruct PipelineFacts.unlocated_review_well_formed
    as (_ & _ & (issues & Hi & Hok) & _).
  injection Hi as <-. exact Hok.
Qed.

Lemma cards_are_numbered_witness :
  exists card html,
    render_issue_card plain_repr unlocated_sample "warning" 1 1 = inr card /\
    contains (issue_number 1 1) card = true /\
    render_all_issues plain_repr (JObj [ ("warnings", JArr [ unlocated_sample ]) ])
    = inr html /\
    contains card html = true.
Proof.
  apply (cards_are_numbered plain_repr [ ("warnings", JArr [ unlocated_sample ]) ]
           "warnings" [] [] unlocated_sample).
  - cbn. tauto.
  - exact unlocated_issues_ok.
  - reflexivity.
Defined.

Lemma severity_without_issues_witness :
  exists html,
    render_all_issues plain_repr (JObj [ ("warnings", JArr [ unlocated_sample ]) ])
    = inr html /\
    contains (none_found "Critical Issues") html = true.
Proof.
  apply (severity_without_issues plain_repr
           [ ("warnings", JArr [ unlocated_sample ]) ] "critical"
           ("critical", ("Critical issues", "Critical Issues"))).
  - exact unlocated_issues_ok.
  - now left.
  - now left.
Defined.

Lemma render_html_template_total_witness :
  exists body,
    render_html_template plain_repr EmptyString (JObj unlocated_review)
    = inr (tpl "<!DOCTYPE html>
<html lang=`en`>
<head>" ++ body ++ "    </div>
</body>
</html>
").
Proof.
  exact (render_html_template_total plain_repr EmptyString unlocated_review
           PipelineFacts.unlocated_review_well_formed).
Defined.

End ReportFacts.

(** ** Escaping *)

Module EscapeFacts.
Import Py RenderHtml Spec PyFacts MonadFacts HtmlFacts.

Lemma length_append (a b : string) :
  String.length (a ++ b) = (String.length a + String.length b)%nat.
Proof. induction a as [|x a IH]; cbn [append String.length]; [reflexivity | now rewrite IH]. Qed.

(** The entity of a character: one of the five, or the character. *)
Lemma entity_cases (c : ascii) :
  (special c = true /\
   (c = "&"%char /\ entity c = "&amp;" \/ c = "<"%char /\ entity c = "&lt;" \/
    c = ">"%char /\ entity c = "&gt;" \/ c = dq_char /\ entity c = "&quot;" \/
    c = "'"%char /\ entity c = "&#39;")) \/
  (special c = false /\ c <> "&"%char /\ entity c = String c EmptyString).
Proof.
  unfold special, entity.
  destruct (Ascii.eqb_spec c "&") as [->|n1]; [left; split; [reflexivity|]; tauto|].
  destruct (Ascii.eqb_spec c "<") as [->|n2]; [left; split; [reflexivity|]; tauto|].
  destruct (Ascii.eqb_spec c ">") as [->|n3]; [left; split; [reflexivity|]; tauto|].
  destruct (Ascii.eqb_spec c dq_char) as [->|n4];
    [left; split; [reflexivity|]; tauto|].
  destruct (Ascii.eqb_spec c "'") as [->|n5]; [left; split; [reflexivity|]; tauto|].
  right. now repeat split.
Qed.

Lemma escaped_length (s : string) :
  (String.length s <= String.length (escaped s))%nat.
Proof.
  induction s as [|c s IH]; [apply Nat.le_refl|].
  cbn [escaped]. rewrite length_append. cbn [String.length].
  destruct (entity_cases c) as [[_ [[_ ->]|[[_ ->]|[[_ ->]|[[_ ->]|[_ ->]]]]]]|(_ & _ & ->)];
    cbn [String.length]; lia.
Qed.

Lemma escaped_same_length (s : string) :
  String.length (escaped s) = String.length s -> all_chars not_special s = true.
Proof.
  induction s as [|c s IH]; [reflexivity|].
  cbn [escaped all_chars]. rewrite length_append. cbn [String.length].
  pose proof (escaped_length s) as L. unfold not_special.
  destruct (entity_cases c) as [[_ [[_ ->]|[[_ ->]|[[_ ->]|[[_ ->]|[_ ->]]]]]]|(-> & _ & ->)];
    cbn [String.length]; intros H; try lia.
  cbn [negb andb]. apply IH. lia.
Qed.

Lemma escaped_safe (s : string) :
  all_chars not_special s = true -> escaped s = s.
Proof.
  induction s as [|c s IH]; [reflexivity|].
  cbn [escaped all_chars]. unfold not_special at 1. intros H.
  apply andb_true_iff in H as [Hc Hs]. rewrite (IH Hs).
  destruct (entity_cases c) as [[E _]|(_ & _ & ->)]; [|reflexivity].
  now rewrite E in Hc.
Qed.

(** The entities are a prefix code: what follows an entity is determined. *)
Lemma escaped_injective (a b : string) : escaped a = escaped b -> a = b.
Proof.
  revert b; induction a as [|x a IH]; intros [|y b]; cbn [escaped].
  - reflexivity.
  - intros H. exfalso.
    destruct (entity_cases y)
      as [[_ [[_ E]|[[_ E]|[[_ E]|[[_ E]|[_ E]]]]]]|(_ & _ & E)];
      rewrite E in H; discriminate H.
  - intros H. exfalso.
    destruct (entity_cases x)
      as [[_ [[_ E]|[[_ E]|[[_ E]|[[_ E]|[_ E]]]]]]|(_ & _ & E)];
      rewrite E in H; discriminate H.
  - intros H.
    destruct (entity_cases x)
      as [[_ [[-> Ex]|[[-> Ex]|[[-> Ex]|[[-> Ex]|[-> Ex]]]]]]|(_ & Nx & Ex)];
    destruct (entity_cases y)
      as [[_ [[-> Ey]|[[-> Ey]|[[-> Ey]|[[-> Ey]|[-> Ey]]]]]]|(_ & Ny & Ey)];
    rewrite ?Ex, ?Ey in H; cbn [append] in H;
    try discriminate H;
    try (injection H as H; f_equal; now apply IH);
    try (injection H as ? H; subst; contradiction);
    try (injection H as ? H; now (f_equal; [|apply IH])).
    all: try (injection H as Hc H; exfalso; first [now apply Nx | now apply Ny | (symmetry in Hc; now apply Nx) | (symmetry in Hc; now apply Ny)]).
Qed.

Section Renderer.
Variable repr : json -> string.

(** X21.  [escape_html] loses nothing: two strings with the same escaped
    text are the same string, and the escaped text is never shorter than
    the string. *)
Theorem escape_html_injective (a b : string) :
  (escape_html repr (JStr a) = escape_html repr (JStr b) -> a = b) /\
  (String.length a <= String.length (escape_html repr (JStr a)))%nat.
Proof.
  rewrite !escape_html_escaped. cbn [py_str]. split.
  - apply escaped_injective.
  - apply escaped_length.
Qed.

Lemma str_of_Z_safe (n : Z) : all_chars not_special (str_of_Z n) = true.
Proof.
  assert (D : forall s, all_chars is_digit s = true -> all_chars not_special s = true).
  { induction s as [|c s IH]; [reflexivity|]. cbn [all_chars]. intros H.
    apply andb_true_iff in H as [Hc Hs]. rewrite (IH Hs), andb_true_r.
    unfold not_special, special, is_digit in *.
    destruct (Ascii.eqb_spec c "&") as [->|]; [discriminate|].
    destruct (Ascii.eqb_spec c "<") as [->|]; [discriminate|].
    destruct (Ascii.eqb_spec c ">") as [->|]; [discriminate|].
    destruct (Ascii.eqb_spec c dq_char) as [->|]; [discriminate|].
    destruct (Ascii.eqb_spec c "'") as [->|]; [discriminate|]. reflexivity. }
  assert (B : forall k m acc, 0 <= m ->
            all_chars not_special acc = true ->
            all_chars not_special (digits_fuel k m acc) = true).
  { induction k as [|k IH]; intros m acc Hm Hacc; cbn [digits_fuel]; [exact Hacc|].
    assert (Hd : 0 <= m mod 10 <= 9) by (pose proof (Z.mod_pos_bound m 10); lia).
    assert (Hc : all_chars not_special (String (digit_char (m mod 10)) acc) = true).
    { cbn [all_chars]. rewrite Hacc, andb_true_r.
      specialize (D (String (digit_char (m mod 10)) EmptyString)).
      cbn [all_chars] in D. rewrite !andb_true_r in D. apply D.
      unfold digit_char, is_digit.
      rewrite nat_ascii_embedding by lia.
      apply andb_true_iff. split; apply Nat.leb_le; lia. }
    destruct (m <? 10); [exact Hc|]. apply IH; [apply Z.div_pos; lia | exact Hc]. }
  unfold str_of_Z. destruct (n <? 0).
  - cbn [append all_chars]. apply B; [lia | reflexivity].
  - apply B; [lia | reflexivity].
Qed.

(** X22.  [escape_html] leaves a string as it is exactly when the string
    holds none of the five characters; in particular an integer is shown as
    its decimal text. *)
Theorem escape_html_unchanged :
  (forall s, escape_html repr (JStr s) = s <-> all_chars not_special s = true) /\
  (forall n, escape_html repr (JInt n) = str_of_Z n).
Proof.
  split.
  - intros s. rewrite escape_html_escaped. cbn [py_str]. split.
    + intros H. apply escaped_same_length. now rewrite H.
    + apply escaped_safe.
  - intros n. rewrite escape_html_escaped. cbn [py_str].
    apply escaped_safe, str_of_Z_safe.
Qed.

End Renderer.

End EscapeFacts.

(** ** The message of a comment *)

Module MessageFacts.
Import Py ZuulComments Spec PyFacts MonadFacts GenFacts.

Lemma strs_cases (l : list json) :
  (forallb is_str l = true /\ exists ss, strs l = inr ss) \/
  (forallb is_str l = false /\ strs l = inl TypeError).
Proof.
  induction l as [|p l IH]; [left; split; [reflexivity | now exists []]|].
  cbn [forallb].
  destruct p as [| | | |s| |]; try (right; split; reflexivity).
  cbn [is_str andb strs].
  destruct IH as [[-> [ss ->]]|[-> ->]].
  - left. split; [reflexivity|]. now exists (s :: ss).
  - right. split; reflexivity.
Qed.

Lemma py_join_cases (sep : string) (l : list json) :
  (forallb is_str l = true /\ exists m, py_join sep l = inr m) \/
  (forallb is_str l = false /\ py_join sep l = inl TypeError).
Proof.
  unfold py_join. destruct (strs_cases l) as [[H [ss ->]]|[H ->]].
  - left. split; [exact H|]. now eexists.
  - right. split; [exact H | reflexivity].
Qed.

Section Generator.
Variable repr : json -> string.

(** Once the confidence is formatted, the message is joined or the join
    raises. *)
Lemma format_issue_message_cases (d : dict) (severity : string) :
  confidence_ok d ->
  (message_ok d severity = true ->
   exists message, format_issue_message repr (JObj d) severity = inr message) /\
  (message_ok d severity = false ->
   format_issue_message repr (JObj d) severity = inl TypeError).
Proof.
  intros [text Hconf]. unfold format_issue_message, message_ok, verbatim_keys, field.
  cbn [py_get bind ret]. rewrite Hconf. cbn [bind].
  destruct (String.eqb severity "critical" || String.eqb severity "high")%bool;
    [|destruct (String.eqb severity "warning");
      [|destruct (String.eqb severity "suggestion")]].
  all: repeat (rewrite if_key_dict; cbn [bind]).
  all: cbn [bind ret].
  all: match goal with |- context [py_join nl ?P] => set (parts := P) end.
  all: match goal with |- context [forallb _ ?K] => set (keys := K) end.
  all: assert (E : forallb is_str parts
                   = (is_str match lookup "description" d with
                             | Some v => v
                             | None => JStr "No description"
                             end
                      && forallb (fun key => match lookup key d with
                                             | Some v => is_str v
                                             | None => true
                                             end) keys)%bool).
  all: try (subst parts keys; rewrite !forallb_app; cbn [forallb is_str andb];
            repeat match goal with
              | |- context [match lookup ?k ?D with _ => _ end] =>
                  destruct (lookup k D)
              end;
            cbn [forallb is_str andb app]; rewrite ?andb_true_r; reflexivity).
  all: rewrite <- E.
  all: destruct (py_join_cases nl parts) as [[-> [m ->]]|[-> ->]].
  all: split; intros Hok; try discriminate Hok; try (now exists m); reflexivity.
Qed.

(** The confidence is formatted first: what it raises is what the function
    raises. *)
Lemma format_issue_message_confidence (d : dict) (severity : string) (e : exn) :
  format_1f (match lookup "confidence" d with
             | Some c => c
             | None => JFloat 0.0%float
             end) = inl e ->
  format_issue_message repr (JObj d) severity = inl e.
Proof.
  intros H. unfold format_issue_message. cbn [py_get bind ret]. now rewrite H.
Qed.

(** X23.  When the confidence of an issue can be formatted,
    [format_issue_message] returns a message exactly when the description
    (or its default) is a string and so is the value it appends as it is
    for the severity (the recommendation, or the suggestion of a warning);
    otherwise it raises [TypeError]: such a value is not converted to
    text. *)
Theorem format_issue_message_returns (d : dict) (severity : string) :
  confidence_ok d ->
  (message_ok d severity = true ->
   exists message, format_issue_message repr (JObj d) severity = inr message) /\
  (message_ok d severity = false ->
   format_issue_message repr (JObj d) severity = inl TypeError).
Proof.
  intros Hconf. split.
  - apply (format_issue_message_cases d severity Hconf).
  - apply (format_issue_message_cases d severity Hconf).
Qed.

End Generator.

Lemma format_issue_message_returns_witness :
  (exists message,
     format_issue_message plain_repr (JObj sample_issue) "critical" = inr message) /\
  format_issue_message plain_repr (JObj [ ("description", JInt 5) ]) "warning"
  = inl TypeError.
Proof.
  split.
  - apply (proj1 (format_issue_message_returns plain_repr sample_issue "critical"
                    (ex_intro _ "0.9" (proj2 (proj2 (proj2 confidence_095)))))).
    reflexivity.
  - apply (proj2 (format_issue_message_returns plain_repr
                    [ ("description", JInt 5) ] "warning"
                    (ex_intro _ "0.0" eq_refl))).
    reflexivity.
Defined.

End MessageFacts.

(** ** What neither channel reads *)

Module ChannelFacts.
Import Py Spec PyFacts MonadFacts.

Section Channels.
Variable repr : json -> string.

Lemma issue_block_other_key (issues : dict) (k : string) (v : json)
    (key severity aria heading : string) (html_parts : list string) :
  k <> key ->
  RenderHtml.render_issue_block repr (JObj (dict_set k v issues)) key severity aria
    heading html_parts
  = RenderHtml.render_issue_block repr (JObj issues) key severity aria heading
      html_parts.
Proof.
  intros ne. unfold RenderHtml.render_issue_block. cbn [py_get].
  now rewrite (lookup_dict_set_other k key v issues ne).
Qed.

(** X24.  Only the four severity keys are read.  Whatever is filed under
    another key of [issues] (a severity the schema does not have, or
    [warning] for [warnings]) changes neither the comments for the CI nor
    the issue sections of the report: such issues are dropped without a
    word by both. *)
Theorem other_severity_keys_are_ignored (review_data issues : dict)
    (k : string) (v : json) :
  lookup "issues" review_data = Some (JObj issues) ->
  ~ In k ZuulComments.severities ->
  ZuulComments.extract_file_comments repr
    (JObj (dict_set "issues" (JObj (dict_set k v issues)) review_data))
  = ZuulComments.extract_file_comments repr (JObj review_data) /\
  RenderHtml.render_all_issues repr (JObj (dict_set k v issues))
  = RenderHtml.render_all_issues repr (JObj issues).
Proof.
  intros Hi Hk. split.
  - now apply CommentFacts.extract_file_comments_other_keys.
  - assert (B : forall key severity aria heading html_parts,
               In key ZuulComments.severities ->
               RenderHtml.render_issue_block repr (JObj (dict_set k v issues)) key
                 severity aria heading html_parts
               = RenderHtml.render_issue_block repr (JObj issues) key severity aria
                   heading html_parts).
    { intros key severity aria heading html_parts Hin.
      apply issue_block_other_key. intros ->. now apply Hk. }
    destruct CardFacts.severities_in as (Hc & Hh & Hw & Hs).
    unfold RenderHtml.render_all_issues. rewrite (B _ _ _ _ _ Hc).
    destruct (RenderHtml.render_issue_block repr (JObj issues) "critical" "critical"
                "Critical issues" "Critical Issues" []) as [e|p1]; [reflexivity|].
    cbn [bind]. rewrite (B _ _ _ _ _ Hh).
    destruct (RenderHtml.render_issue_block repr (JObj issues) "high" "high"
                "High severity issues" "High Issues" p1) as [e|p2]; [reflexivity|].
    cbn [bind]. rewrite (B _ _ _ _ _ Hw).
    destruct (RenderHtml.render_issue_block repr (JObj issues) "warnings" "warning"
                "Warnings" "Warnings" p2) as [e|p3]; [reflexivity|].
    cbn [bind]. now rewrite (B _ _ _ _ _ Hs).
Qed.

End Channels.

Lemma other_severity_keys_are_ignored_witness :
  ZuulComments.extract_file_comments plain_repr
    (JObj (dict_set "issues"
             (JObj (dict_set "medium" (JArr [ JObj sample_issue ])
                      [ ("critical", JArr [ JObj sample_issue ]) ]))
             sample_review))
  = ZuulComments.extract_file_comments plain_repr (JObj sample_review) /\
  RenderHtml.render_all_issues plain_repr
    (JObj (dict_set "medium" (JArr [ JObj sample_issue ])
             [ ("critical", JArr [ JObj sample_issue ]) ]))
  = RenderHtml.render_all_issues plain_repr
      (JObj [ ("critical", JArr [ JObj sample_issue ]) ]).
Proof.
  apply (other_severity_keys_are_ignored plain_repr sample_review
           [ ("critical", JArr [ JObj sample_issue ]) ] "medium"
           (JArr [ JObj sample_issue ])).
  - reflexivity.
  - cbn. intros [H|[H|[H|[H|[]]]]]; discriminate H.
Defined.

End ChannelFacts.

(** ** Which reviews the generator gets through *)

Module ReturnFacts.
Import Py ZuulComments Spec PyFacts MonadFacts.

Lemma foldM_returns {A B} (f : B -> A -> result B) (p : A -> bool) (l : list A) :
  (forall b a, (exists b', f b a = inr b') <-> p a = true) ->
  forall b, (exists b', foldM f l b = inr b') <-> forallb p l = true.
Proof.
  intros Hf. induction l as [|a l IH]; intros b; cbn [foldM forallb].
  - split; [reflexivity | intros _; now exists b].
  - split.
    + intros [b' H]. apply bind_inr in H as (b1 & H1 & H).
      apply andb_true_iff. split.
      * apply (Hf b a). now exists b1.
      * apply (IH b1). now exists b'.
    + intros H. apply andb_true_iff in H as [Ha Hl].
      destruct (proj2 (Hf b a) Ha) as [b1 ->]. cbn [bind]. now apply IH.
Qed.

Section Generator.
Variable repr : json -> string.

Lemma format_issue_message_returns_iff (d : dict) (label : string) :
  (exists m, format_issue_message repr (JObj d) label = inr m) <->
  (formats d && message_ok d label)%bool = true.
Proof.
  unfold formats.
  destruct (format_1f match lookup "confidence" d with
                      | Some c => c
                      | None => JFloat 0.0%float
                      end) as [e|text] eqn:F.
  - rewrite (MessageFacts.format_issue_message_confidence repr d label e F).
    split; [intros [m H]; discriminate | discriminate].
  - cbn [andb].
    destruct (MessageFacts.format_issue_message_cases repr d label
                (ex_intro _ text F)) as [Hyes Hno].
    destruct (message_ok d label).
    + split; [reflexivity | intros _; now apply Hyes].
    + rewrite (Hno eq_refl). split; [intros [m H]; discriminate | discriminate].
Qed.

Lemma extract_issue_returns (label : string) (fc : file_comments_t) (issue : json) :
  (exists fc', extract_issue repr label fc issue = inr fc') <->
  processable label issue = true.
Proof.
  unfold processable, extract_issue.
  destruct issue as [| | | | | |d];
    try (split; [intros [fc' H]; discriminate | discriminate]).
  cbn [py_get bind ret].
  destruct (lookup "location" d) as [v|] eqn:L.
  - destruct (truthy v) eqn:T; cbn [negb].
    + destruct v as [| | | |loc| |];
        try (split; [intros [fc' H]; discriminate | discriminate]).
      unfold located. rewrite L.
      destruct (parse_location loc) as [[path|] [line|]];
        cbn [not_path not_line orb];
        try (split; [reflexivity | intros _; eexists; reflexivity]).
      * destruct (String.eqb path EmptyString); cbn [orb negb andb];
          [split; [reflexivity | intros _; eexists; reflexivity]|].
        destruct (line =? 0); cbn [negb];
          [split; [reflexivity | intros _; eexists; reflexivity]|].
        rewrite <- format_issue_message_returns_iff. split.
        -- intros [fc' H]. apply bind_inr in H as (m & Hm & _). now exists m.
        -- intros [m ->]. cbn [bind]. eexists; reflexivity.
      * rewrite orb_true_r. split; [reflexivity | intros _; eexists; reflexivity].
    + split; [reflexivity | intros _; eexists; reflexivity].
  - cbn [truthy String.eqb negb]. split; [reflexivity | intros _; eexists; reflexivity].
Qed.

Lemma extract_severity_returns (issues : dict) (fc : file_comments_t)
    (key : string) :
  (exists fc', extract_severity repr (JObj issues) fc key = inr fc') <->
  listed_ok issues key = true.
Proof.
  unfold extract_severity, listed_ok, elements. cbn [py_get bind ret].
  destruct (lookup key issues) as [v|].
  - destruct v as [| | | |s|l|o]; cbn [py_iter iterable bind ret raise andb];
      try (split; [intros [fc' H]; discriminate | discriminate]).
    all: apply foldM_returns; intros b a; apply extract_issue_returns.
  - cbn [py_iter bind ret foldM]. split; [reflexivity | intros _; now exists fc].
Qed.


End Generator.

End ReturnFacts.

(** ** The validator script *)

Module GateFacts.
Import Py Spec PyFacts MonadFacts.

Section Gate.
Variable repr : json -> string.
Variable raw_decode : string -> nat -> result (json * nat).

(** X26.  The stand-alone validator script ends with status 0 exactly when
    it is given a file name, the file exists, its text is JSON, and the
    JSON is a payload [{"zuul": {"file_comments": {...}}}] in which every
    value is a list of mappings that pass the checks; it then prints
    [Schema validation passed].  A level that is a list or a mapping does
    not make it say no: it raises. *)
Theorem validator_script_passes (args : list string) (file : option string)
    (stderr : string) :
  SchemaValidator.main repr raw_decode args file = SchemaValidator.Passed stderr <->
  args <> [] /\
  stderr = "Schema validation passed" ++ nl /\
  exists content data,
    file = Some content /\
    ZuulComments.loads raw_decode content = inr data /\
    payload_of file_passes data.
Proof.
  unfold SchemaValidator.main. split.
  - destruct args as [|a args]; [discriminate|].
    destruct file as [content|]; [|discriminate].
    destruct (ZuulComments.loads raw_decode content) as [e|data] eqn:L;
      [destruct e; discriminate|].
    destruct (SchemaValidator.validate_schema repr data) as [e|[[|] message]] eqn:V;
      try discriminate.
    intros [= <-]. split; [discriminate|].
    destruct (SchemaFacts.validator_true_shape repr _ _ V)
      as (d & z & fc & -> & Hz & Hf).
    rewrite (ValidatorFacts.validate_schema_files repr d z fc Hz Hf) in V.
    destruct (SchemaValidator.check_files repr fc) as [e|[err|]] eqn:E;
      try discriminate.
    injection V as <-. split; [reflexivity|].
    exists content, (JObj d). repeat split; auto.
    exists d, z, fc. repeat split; auto.
    now apply (SchemaFacts.validator_check_files_inv repr).
  - intros (Ha & -> & content & data & -> & L & d & z & fc & -> & Hz & Hf & Hall).
    destruct args as [|a args]; [contradiction|].
    rewrite L.
    now rewrite (ValidatorFacts.validate_schema_accepts repr d z fc Hz Hf Hall).
Qed.

(** The script on a payload with a level that cannot be hashed. *)
Lemma validator_script_raises (args : list string) (content path : string)
    (message : json) (level : json) :
  args <> [] ->
  ZuulComments.loads raw_decode content
  = inr (one_file path (JArr [ JObj [ ("message", message); ("level", level) ] ])) ->
  hashable level = false ->
  SchemaValidator.main repr raw_decode args (Some content)
  = SchemaValidator.Raised TypeError.
Proof.
  intros Ha L Hl. unfold SchemaValidator.main.
  destruct args as [|a args]; [contradiction|]. rewrite L.
  destruct level; try discriminate; reflexivity.
Qed.

End Gate.

End GateFacts.

(** ** What the generator prints when its check fails *)

Module RejectFacts.
Import Py Spec PyFacts MonadFacts.

Section Checks.
Variable repr : json -> string.

Lemma zuul_check_comment_passes (path : string) (idx : nat) (c : json) :
  strict_record c = true -> ZuulComments.check_comment repr path idx c = inr None.
Proof.
  intros H. destruct (SchemaFacts.zuul_check_comment repr path idx c)
    as (r & -> & Hr & _).
  now rewrite (proj2 Hr H).
Qed.

Lemma zuul_check_comments_skip (path : string) (cs1 rest : list json) (i : nat) :
  forallb strict_record cs1 = true ->
  ZuulComments.check_comments repr path i (cs1 ++ rest)
  = ZuulComments.check_comments repr path (i + List.length cs1) rest.
Proof.
  revert i; induction cs1 as [|c cs1 IH]; intros i H.
  - cbn [app List.length]. now rewrite Nat.add_0_r.
  - cbn [forallb] in H. apply andb_true_iff in H as [Hc Hcs].
    cbn [app ZuulComments.check_comments List.length].
    rewrite (zuul_check_comment_passes _ _ _ Hc). cbn [bind].
    rewrite (IH _ Hcs). f_equal. lia.
Qed.

Lemma zuul_check_files_skip (before rest : dict) :
  forallb strict_file before = true ->
  ZuulComments.check_files repr (before ++ rest)%list
  = ZuulComments.check_files repr rest.
Proof.
  induction before as [|[p v] before IH]; intros H; [reflexivity|].
  cbn [forallb] in H. apply andb_true_iff in H as [Hv Hb].
  unfold strict_file in Hv. cbn [snd] in Hv.
  destruct v as [| | | | |cs|]; try discriminate.
  cbn [app ZuulComments.check_files].
  rewrite <- (app_nil_r cs), (zuul_check_comments_skip _ _ _ _ Hv).
  cbn [ZuulComments.check_comments bind]. now apply IH.
Qed.

(** The check stops at the first record that does not pass, with the line
    that record gets. *)
Lemma zuul_schema_at (d z before after : dict) (path : string)
    (cs1 cs2 : list json) (c : json) (err : string) :
  lookup "zuul" d = Some (JObj z) ->
  lookup "file_comments" z
    = Some (JObj (before ++ (path, JArr (cs1 ++ c :: cs2)) :: after)%list) ->
  forallb strict_file before = true ->
  forallb strict_record cs1 = true ->
  ZuulComments.check_comment repr path (List.length cs1) c = inr (Some err) ->
  ZuulComments.validate_zuul_schema repr (JObj d) = inr (false, err).
Proof.
  intros Hz Hf Hb Hc He.
  rewrite (SchemaFacts.zuul_schema_payload repr d z _ Hz Hf).
  rewrite (zuul_check_files_skip _ _ Hb). cbn [ZuulComments.check_files].
  rewrite (zuul_check_comments_skip _ _ _ _ Hc).
  cbn [ZuulComments.check_comments Nat.add]. rewrite He. reflexivity.
Qed.

(** X27.  What [validate_zuul_schema] prints when it says no.  It stops at
    the first entry, in the order of the mapping and of its lists, that does
    not pass, and the line it prints names the file and, for a record, its
    index; within a record the checks come in this order: it is a mapping,
    it has [line], it has [message], [line] is an integer, [message] is a
    string, [level], if present, is one of the three. *)
Theorem zuul_schema_rejections (d z before after : dict) (path : string) :
  lookup "zuul" d = Some (JObj z) ->
  forallb strict_file before = true ->
  (forall v,
     lookup "file_comments" z = Some (JObj (before ++ (path, v) :: after)%list) ->
     is_list v = false ->
     ZuulComments.validate_zuul_schema repr (JObj d)
     = inr (false, "Error: Comments for '" ++ path ++ "' must be a list")) /\
  (forall cs1 c cs2,
     lookup "file_comments" z
       = Some (JObj (before ++ (path, JArr (cs1 ++ c :: cs2)) :: after)%list) ->
     forallb strict_record cs1 = true ->
     let i := str_of_Z (Z.of_nat (List.length cs1)) in
     (is_dict c = false ->
      ZuulComments.validate_zuul_schema repr (JObj d)
      = inr (false, "Error: Comment " ++ i ++ " in '" ++ path ++ "' must be a dict")) /\
     (forall cd,
        c = JObj cd -> lookup "line" cd = None ->
        ZuulComments.validate_zuul_schema repr (JObj d)
        = inr (false, "Error: Comment " ++ i ++ " in '" ++ path ++ "' missing 'line'")) /\
     (forall cd line,
        c = JObj cd -> lookup "line" cd = Some line -> lookup "message" cd = None ->
        ZuulComments.validate_zuul_schema repr (JObj d)
        = inr (false, "Error: Comment " ++ i ++ " in '" ++ path
                      ++ "' missing 'message'")) /\
     (forall cd line message,
        c = JObj cd -> lookup "line" cd = Some line ->
        lookup "message" cd = Some message -> is_int line = false ->
        ZuulComments.validate_zuul_schema repr (JObj d)
        = inr (false, "Error: 'line' in comment " ++ i ++ " of '" ++ path
                      ++ "' must be int")) /\
     (forall cd line message,
        c = JObj cd -> lookup "line" cd = Some line ->
        lookup "message" cd = Some message -> is_int line = true ->
        is_str message = false ->
        ZuulComments.validate_zuul_schema repr (JObj d)
        = inr (false, "Error: 'message' in comment " ++ i ++ " of '" ++ path
                      ++ "' must be str")) /\
     (forall cd line message level,
        c = JObj cd -> lookup "line" cd = Some line ->
        lookup "message" cd = Some message -> is_int line = true ->
        is_str message = true -> lookup "level" cd = Some level ->
        ZuulComments.level_ok level = false ->
        ZuulComments.validate_zuul_schema repr (JObj d)
        = inr (false, "Error: 'level' in comment " ++ i ++ " of '" ++ path
                      ++ "' must be 'error', 'warning', or 'info', got '"
                      ++ py_str repr level ++ "'"))).
Proof.
  intros Hz Hb. split.
  - intros v Hf Hv.
    rewrite (SchemaFacts.zuul_schema_payload repr d z _ Hz Hf).
    rewrite (zuul_check_files_skip _ _ Hb). cbn [ZuulComments.check_files].
    destruct v; try discriminate; reflexivity.
  - intros cs1 c cs2 Hf Hc i.
    pose proof (fun err => zuul_schema_at d z before after path cs1 cs2 c err
                             Hz Hf Hb Hc) as At.
    unfold ZuulComments.check_comment in At.
    split; [|split; [|split; [|split; [|split]]]].
    + intros Hd. apply At. destruct c; try discriminate; reflexivity.
    + intros cd -> Hl. apply At. cbn [is_dict negb py_in bind ret].
      unfold has_key. now rewrite Hl.
    + intros cd line -> Hl Hm. apply At. cbn [is_dict negb py_in bind ret].
      unfold has_key. now rewrite Hl, Hm.
    + intros cd line message -> Hl Hm Hi. apply At.
      cbn [is_dict negb py_in py_getitem bind ret].
      unfold has_key. rewrite Hl, Hm. cbn [negb bind ret]. now rewrite Hi.
    + intros cd line message -> Hl Hm Hi Hs. apply At.
      cbn [is_dict negb py_in py_getitem bind ret].
      unfold has_key. rewrite Hl, Hm. cbn [negb bind ret]. rewrite Hi.
      cbn [negb bind ret]. now rewrite Hs.
    + intros cd line message level -> Hl Hm Hi Hs Hlv Hno. apply At.
      cbn [is_dict negb py_in py_getitem bind ret].
      unfold has_key. rewrite Hl, Hm. cbn [negb bind ret]. rewrite Hi.
      cbn [negb bind ret]. rewrite Hs. cbn [negb bind ret]. rewrite Hlv.
      cbn [negb bind ret]. now rewrite Hno.
Qed.

End Checks.

Lemma zuul_schema_rejections_witness :
  ZuulComments.validate_zuul_schema plain_repr (JObj sample_payload)
  = inr (false, "Error: Comment 0 in 'b.py' missing 'line'").
Proof.
  apply (proj1 (proj2 (proj2 (zuul_schema_rejections plain_repr sample_payload
           [ ("file_comments", JObj sample_files) ]
           [ ("a.py", JArr [ JObj [ ("message", JStr "ok"); ("line", JInt 3) ] ]) ]
           [] "b.py" eq_refl eq_refl)
           [] (JObj [ ("message", JStr "one") ])
           [ JObj [ ("message", JStr "two"); ("level", JStr "fatal") ] ]
           eq_refl eq_refl)) [ ("message", JStr "one") ] eq_refl eq_refl).
Defined.

End RejectFacts.
